(** * Robomongo core: the connection orchestrator [App]

    A shallow embedding of [src/robomongo/core/domain/App.cpp]: the
    collection-query helper, the open/close lifecycle of servers and shells,
    and the handlers of the SSH tunnel responses, followed by the properties
    the specification states about them. *)

From Stdlib Require Import ZArith Lia List String Ascii Bool DecimalString Sorted
  Wf_nat.
From stdpp Require Import base list.
Import ListNotations.

Open Scope string_scope.
Open Scope Z_scope.

(** ** QString

    [QString] values are modelled as [string]; [QtUtils::toQString],
    [QtUtils::toStdString] and [QString::fromStdString] are the identity on
    them.  The two library calls the source relies on are written out:
    [QString::replace(QChar, const QString &)] and [QString::arg]. *)

Module QString.

(** [s.replace(before, after)]: every occurrence of the character [before]
    becomes the string [after]. *)
Fixpoint replace (before : ascii) (after : string) (s : string) : string :=
  match s with
  | EmptyString => EmptyString
  | String c rest =>
      if Ascii.eqb c before
      then after ++ replace before after rest
      else String c (replace before after rest)
  end.

(** [QChar::digitValue], with [None] for Qt's [-1], on the characters of
    ASCII.  A [string] holds the bytes of the text; for text of ASCII
    characters alone the bytes are the characters [QString::arg] scans, and
    the digits are ["0"] to ["9"].  Qt also reads the decimal digits of
    other scripts as digits; text with characters outside ASCII is beyond
    this embedding, and the properties of the scan are stated for ASCII
    text. *)
Definition digitValue (c : ascii) : option nat :=
  let n := nat_of_ascii c in
  if (48 <=? n)%nat && (n <=? 57)%nat then Some (n - 48)%nat else None.

(** The pieces [QString::arg] sees in a string: ordinary characters and
    place markers [%n], [%nn], [%Ln], [%Lnn], kept with their text. *)
Inductive ArgToken : Type :=
| Plain (c : ascii)
| Marker (escape : nat) (text : string).

(** The scan of [findArgEscapes] and [replaceArgEscapes]: a ["%"] that is
    not followed by (an optional ["L"] and) a digit is an ordinary
    character, and scanning resumes right after it. *)
Fixpoint argTokens (s : string) : list ArgToken :=
  match s with
  | EmptyString => []
  | String c s1 =>
      if negb (Ascii.eqb c "%") then Plain c :: argTokens s1
      else
        match s1 with
        | EmptyString => [Plain c]
        | String c1 s2 =>
            if Ascii.eqb c1 "L" then
              match s2 with
              | EmptyString => Plain c :: argTokens s1
              | String d1 s3 =>
                  match digitValue d1 with
                  | None => Plain c :: argTokens s1
                  | Some n1 =>
                      match s3 with
                      | EmptyString => [Marker n1 (String c (String c1 (String d1 "")))]
                      | String d2 s4 =>
                          match digitValue d2 with
                          | Some n2 =>
                              Marker (10 * n1 + n2)%nat
                                (String c (String c1 (String d1 (String d2 ""))))
                                :: argTokens s4
                          | None =>
                              Marker n1 (String c (String c1 (String d1 "")))
                                :: argTokens s3
                          end
                      end
                  end
              end
            else
              match digitValue c1 with
              | None => Plain c :: argTokens s1
              | Some n1 =>
                  match s2 with
                  | EmptyString => [Marker n1 (String c (String c1 ""))]
                  | String d2 s3 =>
                      match digitValue d2 with
                      | Some n2 =>
                          Marker (10 * n1 + n2)%nat
                            (String c (String c1 (String d2 "")))
                            :: argTokens s3
                      | None =>
                          Marker n1 (String c (String c1 "")) :: argTokens s2
                      end
                  end
              end
        end
  end.

(** [min_escape] of [findArgEscapes]: the lowest marker number present. *)
Fixpoint minEscape (ts : list ArgToken) : option nat :=
  match ts with
  | [] => None
  | Plain _ :: rest => minEscape rest
  | Marker n _ :: rest =>
      match minEscape rest with
      | None => Some n
      | Some m => Some (Nat.min n m)
      end
  end.

(** [replaceArgEscapes]: every marker carrying the lowest number is
    replaced by the argument, the others are copied as they stand. *)
Fixpoint replaceArgEscapes (m : nat) (a : string) (ts : list ArgToken)
  : string :=
  match ts with
  | [] => EmptyString
  | Plain c :: rest => String c (replaceArgEscapes m a rest)
  | Marker n text :: rest =>
      (if Nat.eqb n m then a else text) ++ replaceArgEscapes m a rest
  end.

(** [s.arg(a)]: replaces the lowest-numbered place marker of [s] by [a];
    a string without a marker is returned as it is. *)
Definition arg (s a : string) : string :=
  let ts := argTokens s in
  match minEscape ts with
  | None => s
  | Some m => replaceArgEscapes m a ts
  end.

(** [s.arg(n)] for an [int]: the decimal text of [n]. *)
Definition number (n : Z) : string := NilZero.string_of_int (Z.to_int n).

End QString.

Module detail.

(** [detail::buildCollectionQuery]. *)
Definition buildCollectionQuery (collectionName postfix : string) : string :=
  let qCollectionName := collectionName in
  let pattern := "db.getCollection('%1').%2" in
  let qCollectionName := QString.replace "\" "\\" qCollectionName in
  QString.arg (QString.arg pattern qCollectionName) postfix.

End detail.

(** [s] holds no ["%"]. *)
Fixpoint percentFree (s : string) : bool :=
  match s with
  | EmptyString => true
  | String c rest => negb (Ascii.eqb c "%") && percentFree rest
  end.

(** The tokens of a string of ordinary characters. *)
Fixpoint plain (s : string) : list QString.ArgToken :=
  match s with
  | EmptyString => []
  | String c rest => QString.Plain c :: plain rest
  end.

(** ** Settings objects

    The settings classes are declared outside this file; they are plain data
    with accessors and setters, and the fields below are the ones [App.cpp]
    reads or writes. *)

Module SshSettings.
Record t : Type := mk {
  enabled : bool;
  askPassword : bool;
  authMethod : string;
  host : string;
  port : Z;
  userName : string;
  privateKeyFile : string;
  askedPassword : string
}.

Definition setAskedPassword (pw : string) (s : t) : t :=
  mk (enabled s) (askPassword s) (authMethod s) (host s) (port s)
     (userName s) (privateKeyFile s) pw.
End SshSettings.

Module SslSettings.
Record t : Type := mk {
  sslEnabled : bool;
  usePemFile : bool;
  askPassphrase : bool;
  pemKeyFile : string;
  pemPassPhrase : string
}.

Definition setPemPassPhrase (pp : string) (s : t) : t :=
  mk (sslEnabled s) (usePemFile s) (askPassphrase s) (pemKeyFile s) pp.
End SslSettings.

Module ReplicaSetSettings.
Record t : Type := mk { members : list string }.
End ReplicaSetSettings.

Module ConnectionSettings.
Record t : Type := mk {
  connectionName : string;
  serverHost : string;
  serverPort : Z;
  defaultDatabase : string;
  isReplicaSet : bool;
  replicaSetSettings : ReplicaSetSettings.t;
  sshSettings : SshSettings.t;
  sslSettings : SslSettings.t
}.

Definition setServerHost (h : string) (c : t) : t :=
  mk (connectionName c) h (serverPort c) (defaultDatabase c) (isReplicaSet c)
     (replicaSetSettings c) (sshSettings c) (sslSettings c).

Definition setServerPort (p : Z) (c : t) : t :=
  mk (connectionName c) (serverHost c) p (defaultDatabase c) (isReplicaSet c)
     (replicaSetSettings c) (sshSettings c) (sslSettings c).

Definition setDefaultDatabase (d : string) (c : t) : t :=
  mk (connectionName c) (serverHost c) (serverPort c) d (isReplicaSet c)
     (replicaSetSettings c) (sshSettings c) (sslSettings c).

Definition setSshSettings (s : SshSettings.t) (c : t) : t :=
  mk (connectionName c) (serverHost c) (serverPort c) (defaultDatabase c)
     (isReplicaSet c) (replicaSetSettings c) s (sslSettings c).

Definition setSslSettings (s : SslSettings.t) (c : t) : t :=
  mk (connectionName c) (serverHost c) (serverPort c) (defaultDatabase c)
     (isReplicaSet c) (replicaSetSettings c) (sshSettings c) s.

(** Modelled from the spec: [ConnectionSettings::getFullAddress] is defined
    outside this file; the spec only calls it the settings' full address,
    used for log messages.  It is taken as host and port joined by a
    colon. *)
Definition getFullAddress (c : t) : string :=
  serverHost c ++ ":" ++ QString.number (serverPort c).
End ConnectionSettings.

(** ** Session entities and events *)

(** Modelled from the spec: the enumeration is declared outside this file;
    its values are the three connection types the spec lists. *)
Inductive ConnectionType : Type :=
| ConnectionPrimary
| ConnectionSecondary
| ConnectionTest.

Definition ConnectionType_eqb (a b : ConnectionType) : bool :=
  match a, b with
  | ConnectionPrimary, ConnectionPrimary
  | ConnectionSecondary, ConnectionSecondary
  | ConnectionTest, ConnectionTest => true
  | _, _ => false
  end.

(** A [ConnectionSettings*]: the index of the object in the store of
    settings objects. *)
Definition SettingsPtr : Type := nat.

(** Objects created with [new] or [make_unique] get an address of their own;
    a [MongoServer*] or [MongoShell*] is [Some] object or [None] for
    [nullptr], and two pointers are the same when the addresses are.

    Modelled from the spec: [MongoServer] and [MongoShell] are declared
    outside this file.  A server holds the handle, the settings and the type
    its constructor is given, [connectionRecord()] returning the settings; a
    shell holds the server and the script it is given, [server()] returning
    the server. *)
Module MongoServer.
Record t : Type := mk {
  address : nat;
  serverHandle : Z;
  connectionRecord : SettingsPtr;
  connectionType : ConnectionType
}.
End MongoServer.

Record CursorPosition : Type := mkCursorPosition { line : Z; column : Z }.

Record ScriptInfo : Type := mkScriptInfo {
  script : string;
  execute : bool;
  dbName : string;
  cursorPosition : CursorPosition;
  title : string;
  filePath : string
}.

Module MongoShell.
Record t : Type := mk {
  address : nat;
  server : MongoServer.t;
  scriptInfo : ScriptInfo
}.
End MongoShell.

Module MongoDatabase.
Record t : Type := mk { name : string; server : option MongoServer.t }.
End MongoDatabase.

Module MongoCollection.
Record t : Type := mk { name : string; database : option MongoDatabase.t }.
End MongoCollection.

Definition ptr_eqb (a b : option nat) : bool :=
  match a, b with
  | None, None => true
  | Some x, Some y => Nat.eqb x y
  | _, _ => false
  end.

(** Modelled from the spec: [ConnectionFailedEvent::Reason] is declared
    outside this file; the spec lists these three reasons. *)
Inductive Reason : Type := SshConnection | SshChannel | Generic.

(** The two severities [App.cpp] logs with. *)
Inductive LogSeverity : Type := Info | Error.

(** Events published on the bus. *)
Inductive Event : Type :=
| ConnectingEvent
| OpeningShellEvent (shell : MongoShell.t)
| ConnectionFailedEvent (serverHandle : Z) (type : ConnectionType)
    (message : string) (reason : Reason).

(** Requests sent to the tunnel worker. *)
Inductive Request : Type :=
| EstablishSshConnectionRequest (serverHandle : Z) (worker : nat)
    (settings : SettingsPtr) (type : ConnectionType)
| ListenSshConnectionRequest (serverHandle : Z) (type : ConnectionType).

(** Responses of the tunnel worker; [error] is [Some message] when
    [isError()] holds. *)
Record EstablishSshConnectionResponse : Type := mkEstablishResponse {
  est_serverHandle : Z;
  est_worker : nat;
  est_settings : SettingsPtr;
  est_connectionType : ConnectionType;
  est_localport : Z;
  est_error : option string
}.

Record ListenSshConnectionResponse : Type := mkListenResponse {
  lis_serverHandle : Z;
  lis_connectionType : ConnectionType;
  lis_error : option string
}.

(** The event type [openShell] subscribes for. *)
Inductive EventType : Type := ReplicaSetRefreshedType.

(** What the orchestrator does to its collaborators, in the order it does
    it: [_bus->publish], [_bus->send], [_bus->subscribe] with its three
    arguments, [LOG_MSG], and the calls on a server or a shell. *)
Inductive Effect : Type :=
| Publish (e : Event)
| Send (receiver : nat) (r : Request)
| Subscribe (server : MongoServer.t) (type : EventType) (shell : MongoShell.t)
| LogMsg (message : string) (severity : LogSeverity)
| RunWorkerThread (server : MongoServer.t)
| TryConnect (server : MongoServer.t)
| Execute (shell : MongoShell.t).

(** ** The orchestrator and its world *)

(** The data members of [App]: a [std::unique_ptr<MongoServer>] of
    [_servers] is [None] when it is null. *)
Record App : Type := mkApp {
  _servers : list (option MongoServer.t);
  _shells : list MongoShell.t;
  _lastServerHandle : Z
}.

(** Everything a member function of [App] can read or write: the store of
    [ConnectionSettings] objects (a [ConnectionSettings*] is an index into
    it), the next free object address, the [App] itself and the effects
    issued so far.  Each effect is kept with the value [_lastServerHandle]
    had when it was issued. *)
Record World : Type := mkWorld {
  heap : list ConnectionSettings.t;
  nextAddress : nat;
  app : App;
  effects : list (Z * Effect)
}.

(** The state right after [App::App]; the subscriptions the constructor
    makes are no effects of a call and are left out. *)
Definition newApp : App := mkApp [] [] 0.

Definition newWorld (h : list ConnectionSettings.t) : World :=
  mkWorld h 0 newApp [].

(** [int] arithmetic, for the handle, which [continueOpenServer] takes as an
    [int]: the value of [z] in 32-bit two's complement. *)
Definition INT_MAX : Z := 2147483647.

Definition wrap_int (z : Z) : Z := (z + 2 ^ 31) mod 2 ^ 32 - 2 ^ 31.

(** A computation on the world; [None] is a dereference of a pointer that
    points to no object. *)
Definition M (A : Type) : Type := World -> option (A * World).

Definition ret {A} (a : A) : M A := fun w => Some (a, w).

Definition bind {A B} (m : M A) (k : A -> M B) : M B :=
  fun w => match m w with
           | Some (a, w') => k a w'
           | None => None
           end.

Notation "'let*' x ':=' m 'in' k" := (bind m (fun x => k))
  (at level 10, x name, m at level 100, k at level 200).
Notation "m ;; k" := (bind m (fun _ => k))
  (at level 100, k at level 200, right associativity).

Definition crash {A} : M A := fun _ => None.

(** [*p] for a settings pointer. *)
Definition deref (p : SettingsPtr) : M ConnectionSettings.t :=
  fun w => match heap w !! p with
           | Some c => Some (c, w)
           | None => None
           end.

(** [*p] for a pointer to another object. *)
Definition derefObject {A} (p : option A) : M A :=
  match p with
  | Some a => ret a
  | None => crash
  end.

(** A setter called through a settings pointer. *)
Definition update (p : SettingsPtr) (f : ConnectionSettings.t -> ConnectionSettings.t)
  : M unit :=
  fun w => match heap w !! p with
           | Some c =>
               Some (tt, mkWorld (<[p := f c]> (heap w)) (nextAddress w)
                           (app w) (effects w))
           | None => None
           end.

(** Modelled from the spec: [ConnectionSettings::clone] is defined outside
    this file; the spec calls the settings a clonable object whose clone
    shares no mutable state with the original.  The clone is a new object
    holding a copy of every field, the SSH and SSL settings included. *)
Definition clone (p : SettingsPtr) : M SettingsPtr :=
  fun w => match heap w !! p with
           | Some c =>
               Some (length (heap w),
                     mkWorld (heap w ++ [c]) (nextAddress w) (app w) (effects w))
           | None => None
           end.

(** The address of a newly created object. *)
Definition newObject : M nat :=
  fun w => Some (nextAddress w,
                 mkWorld (heap w) (S (nextAddress w)) (app w) (effects w)).

Definition emit (e : Effect) : M unit :=
  fun w => Some (tt, mkWorld (heap w) (nextAddress w) (app w)
                       (effects w ++ [(_lastServerHandle (app w), e)])).

Definition getApp : M App := fun w => Some (app w, w).

Definition putApp (a : App) : M unit :=
  fun w => Some (tt, mkWorld (heap w) (nextAddress w) a (effects w)).

(** [LOG_MSG]. *)
Definition LOG_MSG (message : string) (severity : LogSeverity) : M unit :=
  emit (LogMsg message severity).

(** [QInputDialog::getText] for a title and a label: what the user answers,
    as the text typed and the [ok] flag. *)
Definition Dialog : Type := string -> string -> string * bool.

Definition endl : string := String (ascii_of_nat 10) EmptyString.

Definition isPrimaryOrTest (type : ConnectionType) : bool :=
  ConnectionType_eqb type ConnectionPrimary || ConnectionType_eqb type ConnectionTest.

(** Modelled from the spec: the default value of the [localport] parameter of
    [continueOpenServer] is given in [App.h], outside this file.  The spec
    has the local port come from the tunnel response only; the default is
    taken where no tunnel is in use and no rewrite is made, so its value,
    here [0], never shows. *)
Definition defaultLocalport : Z := 0.

(** [App::continueOpenServer]. *)
Definition continueOpenServer (serverHandle : Z) (connSettings : SettingsPtr)
    (type : ConnectionType) (localport : Z) : M MongoServer.t :=
  let* connSettingsClone := clone connSettings in
  let* cc := deref connSettingsClone in
  (if isPrimaryOrTest type
      && negb (ConnectionSettings.isReplicaSet cc)
      && SshSettings.enabled (ConnectionSettings.sshSettings cc)
   then
     update connSettingsClone (ConnectionSettings.setServerHost "127.0.0.1") ;;
     update connSettingsClone (ConnectionSettings.setServerPort localport)
   else ret tt) ;;
  let* a := newObject in
  let server := MongoServer.mk a serverHandle connSettingsClone type in
  emit (RunWorkerThread server) ;;
  let* cs := deref connSettings in
  let replicaSetStr := ConnectionSettings.connectionName cs ++ " [Replica Set]" in
  let replicaSetStr :=
    match ReplicaSetSettings.members (ConnectionSettings.replicaSetSettings cs) with
    | m0 :: _ => replicaSetStr ++ m0
    | [] => replicaSetStr ++ ""
    end in
  let serverAddress :=
    if ConnectionSettings.isReplicaSet cs
    then replicaSetStr
    else ConnectionSettings.getFullAddress cs in
  LOG_MSG (QString.arg "Connecting to %1..." serverAddress) Info ;;
  emit (TryConnect server) ;;
  ret server.

(** [++_lastServerHandle]. *)
Definition incrementLastServerHandle : M unit :=
  let* a := getApp in
  putApp (mkApp (_servers a) (_shells a) (wrap_int (_lastServerHandle a + 1))).

(** [App::openServerInternal]; the result is the [unique_ptr] returned,
    [None] for [nullptr]. *)
Definition openServerInternal (connSettings : SettingsPtr) (type : ConnectionType)
  : M (option MongoServer.t) :=
  incrementLastServerHandle ;;
  (if ConnectionType_eqb type ConnectionPrimary
   then emit (Publish ConnectingEvent)
   else ret tt) ;;
  let* cs := deref connSettings in
  if ConnectionType_eqb type ConnectionSecondary
     || negb (SshSettings.enabled (ConnectionSettings.sshSettings cs))
     || ConnectionSettings.isReplicaSet cs
  then
    let* a := getApp in
    let* server := continueOpenServer (_lastServerHandle a) connSettings type
                defaultLocalport in
    ret (Some server)
  else
    LOG_MSG (QString.arg
               (QString.arg "Creating SSH tunnel to %1:%2..."
                  (SshSettings.host (ConnectionSettings.sshSettings cs)))
               (QString.number (SshSettings.port (ConnectionSettings.sshSettings cs))))
            Info ;;
    let* settingsCopy := clone connSettings in
    let* sshWorker := newObject in
    let* a := getApp in
    emit (Send sshWorker
            (EstablishSshConnectionRequest (_lastServerHandle a) sshWorker
               settingsCopy type)) ;;
    ret None.

(** [_servers.push_back(move(p))]. *)
Definition push_back_server (p : option MongoServer.t) : M unit :=
  let* a := getApp in
  putApp (mkApp (_servers a ++ [p]) (_shells a) (_lastServerHandle a)).

(** [_shells.push_back(move(p))]. *)
Definition push_back_shell (p : MongoShell.t) : M unit :=
  let* a := getApp in
  putApp (mkApp (_servers a) (_shells a ++ [p]) (_lastServerHandle a)).

(** The text of the PEM passphrase prompt. *)
Definition sslPromptText (cs : ConnectionSettings.t) : string :=
  let sslSettings := ConnectionSettings.sslSettings cs in
  let s := "In order to continue, please provide the passphrase" in
  let s := s ++ "." ++ endl ++ endl in
  let s := s ++ "Server: " ++ ConnectionSettings.serverHost cs ++ ":"
             ++ QString.number (ConnectionSettings.serverPort cs) ++ endl in
  let s := s ++ "PEM file: " ++ SslSettings.pemKeyFile sslSettings ++ endl in
  s ++ endl ++ "Enter your PEM key passphrase (will never be stored):".

(** [sslSettings->setPemPassPhrase(pp)] through the settings object. *)
Definition storePemPassPhrase (pp : string) (c : ConnectionSettings.t)
  : ConnectionSettings.t :=
  ConnectionSettings.setSslSettings
    (SslSettings.setPemPassPhrase pp (ConnectionSettings.sslSettings c)) c.

(** [ssh->setAskedPassword(pw)] through the settings object. *)
Definition storeAskedPassword (pw : string) (c : ConnectionSettings.t)
  : ConnectionSettings.t :=
  ConnectionSettings.setSshSettings
    (SshSettings.setAskedPassword pw (ConnectionSettings.sshSettings c)) c.

(** [App::askSslPassphrasePromptDialog]. *)
Definition askSslPassphrasePromptDialog (getText : Dialog)
    (connSettings : SettingsPtr) : M bool :=
  let* cs := deref connSettings in
  let '(userInput, ok) := getText "TLS Authentication" (sslPromptText cs) in
  if negb ok then ret false
  else
    update connSettings (storePemPassPhrase userInput) ;;
    ret ok.

(** The condition under which [App::openServer] asks for the SSH password or
    passphrase. *)
Definition sshPromptRequired (cs : ConnectionSettings.t) (type : ConnectionType)
  : bool :=
  let ssh := ConnectionSettings.sshSettings cs in
  negb (ConnectionSettings.isReplicaSet cs)
  && SshSettings.enabled ssh && SshSettings.askPassword ssh
  && isPrimaryOrTest type.

(** The text of the SSH prompt. *)
Definition sshPromptText (ssh : SshSettings.t) : string :=
  let isByKey := String.eqb (SshSettings.authMethod ssh) "publickey" in
  let passText := if isByKey then "passphrase" else "password" in
  let s := "In order to continue, please provide the " ++ passText in
  let s := if isByKey then s ++ " for the key file" else s in
  let s := s ++ "." ++ endl ++ endl in
  let s := if String.eqb (SshSettings.authMethod ssh) "publickey"
           then s ++ "Private Key:  " ++ SshSettings.privateKeyFile ssh ++ endl
           else s in
  let s := s ++ "Server: " ++ SshSettings.host ssh ++ endl in
  let s := s ++ "User: " ++ SshSettings.userName ssh ++ endl in
  s ++ endl ++ "Enter your " ++ passText ++ " that will never be stored:".

(** The condition under which [App::openServer] asks for the PEM
    passphrase. *)
Definition sslPromptRequired (cs : ConnectionSettings.t) (type : ConnectionType)
  : bool :=
  let sslSettings := ConnectionSettings.sslSettings cs in
  SslSettings.sslEnabled sslSettings && SslSettings.usePemFile sslSettings
  && SslSettings.askPassphrase sslSettings
  && isPrimaryOrTest type.

(** [App::openServer]. *)
Definition openServer (getText : Dialog) (connection : SettingsPtr)
    (type : ConnectionType) : M bool :=
  let* cs := deref connection in
  let ssh := ConnectionSettings.sshSettings cs in
  let* sshOk :=
    (if sshPromptRequired cs type then
       let '(userInput, ok) := getText "SSH Authentication" (sshPromptText ssh) in
       if negb ok then ret false
       else
         update connection (storeAskedPassword userInput) ;;
         ret true
     else ret true) in
  if negb sshOk then ret false
  else
    let* cs := deref connection in
    let* sslOk :=
      (if sslPromptRequired cs type
       then askSslPassphrasePromptDialog getText connection
       else ret true) in
    if negb sslOk then ret false
    else
      let* server := openServerInternal connection type in
      push_back_server server ;;
      ret true.

Definition addressOf (p : option MongoServer.t) : option nat :=
  match p with
  | Some s => Some (MongoServer.address s)
  | None => None
  end.

(** [App::closeServer]: [remove_if] and [erase] drop every entry whose
    pointer is [server]. *)
Definition closeServer (server : option MongoServer.t) : M unit :=
  let* a := getApp in
  putApp (mkApp
            (List.filter
               (fun el => negb (ptr_eqb (addressOf el) (addressOf server)))
               (_servers a))
            (_shells a) (_lastServerHandle a)).

(** [App::openShell] for a server, its settings and a [ScriptInfo]: the
    primitive the other three overloads end in. *)
Definition openShell (server : option MongoServer.t) (connection : SettingsPtr)
    (scriptInfo : ScriptInfo) : M unit :=
  let* serverClone := openServerInternal connection ConnectionSecondary in
  match serverClone, server with
  | Some sc, Some srv =>
      let* a := newObject in
      let shell := MongoShell.mk a sc scriptInfo in
      push_back_server (Some sc) ;;
      emit (Subscribe srv ReplicaSetRefreshedType shell) ;;
      emit (Publish (OpeningShellEvent shell)) ;;
      emit (Execute shell) ;;
      push_back_shell shell
  | _, _ => ret tt
  end.

(** [App::openShell] for a [MongoCollection]. *)
Definition openShell_collection (collection : option MongoCollection.t)
    (filePathToSave : string) : M unit :=
  let* coll := derefObject collection in
  let* db := derefObject (MongoCollection.database coll) in
  let* srv := derefObject (MongoDatabase.server db) in
  let connection := MongoServer.connectionRecord srv in
  let dbname := MongoDatabase.name db in
  update connection (ConnectionSettings.setDefaultDatabase dbname) ;;
  let script :=
    detail.buildCollectionQuery (MongoCollection.name coll) "find({})" in
  openShell (MongoDatabase.server db) connection
    (mkScriptInfo script true dbname (mkCursorPosition 0 (-2)) dbname
       filePathToSave).

(** [App::openShell] for a [MongoServer], a script and a database name. *)
Definition openShell_server (server : option MongoServer.t) (script : string)
    (dbName : string) (execute : bool) (shellName : string)
    (cursorPosition : CursorPosition) (filePathToSave : string) : M unit :=
  let* srv := derefObject server in
  let connection := MongoServer.connectionRecord srv in
  (if negb (String.eqb dbName "")
   then update connection (ConnectionSettings.setDefaultDatabase dbName)
   else ret tt) ;;
  openShell server connection
    (mkScriptInfo script execute dbName cursorPosition shellName filePathToSave).

(** [App::openShell] for a [MongoDatabase] and a script. *)
Definition openShell_database (database : option MongoDatabase.t)
    (script : string) (execute : bool) (shellName : string)
    (cursorPosition : CursorPosition) (filePathToSave : string) : M unit :=
  let* db := derefObject database in
  let* srv := derefObject (MongoDatabase.server db) in
  let connection := MongoServer.connectionRecord srv in
  update connection
    (ConnectionSettings.setDefaultDatabase (MongoDatabase.name db)) ;;
  openShell (MongoDatabase.server db) connection
    (mkScriptInfo script execute (MongoDatabase.name db) cursorPosition
       shellName filePathToSave).

Definition isShell (shell : option MongoShell.t) (el : MongoShell.t) : bool :=
  ptr_eqb (Some (MongoShell.address el))
          (match shell with
           | Some s => Some (MongoShell.address s)
           | None => None
           end).

(** [v.erase(itr)] for the first element that satisfies [p]. *)
Fixpoint eraseFirst {A} (p : A -> bool) (l : list A) : list A :=
  match l with
  | [] => []
  | x :: rest => if p x then rest else x :: eraseFirst p rest
  end.

(** [App::closeShell]. *)
Definition closeShell (shell : option MongoShell.t) : M unit :=
  let* a := getApp in
  if negb (existsb (isShell shell) (_shells a)) then ret tt
  else
    let* sh := derefObject shell in
    closeServer (Some (MongoShell.server sh)) ;;
    let* a := getApp in
    putApp (mkApp (_servers a) (eraseFirst (isShell shell) (_shells a))
              (_lastServerHandle a)).

(** [App::handle] for an [EstablishSshConnectionResponse]. *)
Definition handle_EstablishSshConnectionResponse
    (event : EstablishSshConnectionResponse) : M unit :=
  match est_error event with
  | Some errorMessage =>
      emit (Publish (ConnectionFailedEvent (est_serverHandle event)
                       (est_connectionType event) errorMessage SshConnection))
  | None =>
      LOG_MSG "SSH tunnel created successfully" Info ;;
      let* server := continueOpenServer (est_serverHandle event)
                       (est_settings event) (est_connectionType event)
                       (est_localport event) in
      push_back_server (Some server) ;;
      emit (Send (est_worker event)
              (ListenSshConnectionRequest (est_serverHandle event)
                 (est_connectionType event)))
  end.

(** [App::handle] for a [ListenSshConnectionResponse]. *)
Definition handle_ListenSshConnectionResponse
    (event : ListenSshConnectionResponse) : M unit :=
  match lis_error event with
  | Some errorMessage =>
      emit (Publish (ConnectionFailedEvent (lis_serverHandle event)
                       (lis_connectionType event) errorMessage SshChannel))
  | None => LOG_MSG "SSH tunnel closed." Error
  end.

(** [App::fireConnectionFailedEvent]. *)
Definition fireConnectionFailedEvent (serverHandle : Z) (type : ConnectionType)
    (errormsg : string) (reason : Reason) : M unit :=
  emit (Publish (ConnectionFailedEvent serverHandle type errormsg reason)).

(** ** Sample objects used to run the code *)

Definition sampleSsh (enabled askPassword : bool) : SshSettings.t :=
  SshSettings.mk enabled askPassword "password" "gate.example.org" 22 "admin"
    "" "".

Definition sampleSsl (ask : bool) : SslSettings.t :=
  SslSettings.mk ask ask ask "client.pem" "".

Definition sampleSettings (replica sshEnabled askPassword askPem : bool)
  : ConnectionSettings.t :=
  ConnectionSettings.mk "local" "db.example.org" 27017 "" replica
    (ReplicaSetSettings.mk (if replica then ["rs0.example.org:27017"] else []))
    (sampleSsh sshEnabled askPassword) (sampleSsl askPem).

Definition acceptAll : Dialog := fun _ _ => ("secret", true).
Definition declineAll : Dialog := fun _ _ => ("", false).


Open Scope list_scope.

(** ** Calls and runs

    The public entry points of [App] and the two tunnel responses it
    handles, as one type of calls, and the runs they make. *)
Inductive Call : Type :=
| CallOpenServer (getText : Dialog) (connection : SettingsPtr)
    (type : ConnectionType)
| CallCloseServer (server : option MongoServer.t)
| CallOpenShell (server : option MongoServer.t) (connection : SettingsPtr)
    (scriptInfo : ScriptInfo)
| CallOpenShellCollection (collection : option MongoCollection.t)
    (filePathToSave : string)
| CallOpenShellServer (server : option MongoServer.t) (script dbName : string)
    (execute : bool) (shellName : string) (cursorPosition : CursorPosition)
    (filePathToSave : string)
| CallOpenShellDatabase (database : option MongoDatabase.t) (script : string)
    (execute : bool) (shellName : string) (cursorPosition : CursorPosition)
    (filePathToSave : string)
| CallCloseShell (shell : option MongoShell.t)
| CallFireConnectionFailedEvent (serverHandle : Z) (type : ConnectionType)
    (errormsg : string) (reason : Reason)
| DeliverEstablish (event : EstablishSshConnectionResponse)
| DeliverListen (event : ListenSshConnectionResponse).

Definition step (c : Call) : M unit :=
  match c with
  | CallOpenServer getText connection type =>
      let* _ok := openServer getText connection type in ret tt
  | CallCloseServer server => closeServer server
  | CallOpenShell server connection scriptInfo =>
      openShell server connection scriptInfo
  | CallOpenShellCollection collection filePathToSave =>
      openShell_collection collection filePathToSave
  | CallOpenShellServer server script dbName execute shellName cursorPosition
      filePathToSave =>
      openShell_server server script dbName execute shellName cursorPosition
        filePathToSave
  | CallOpenShellDatabase database script execute shellName cursorPosition
      filePathToSave =>
      openShell_database database script execute shellName cursorPosition
        filePathToSave
  | CallCloseShell shell => closeShell shell
  | CallFireConnectionFailedEvent serverHandle type errormsg reason =>
      fireConnectionFailedEvent serverHandle type errormsg reason
  | DeliverEstablish event => handle_EstablishSshConnectionResponse event
  | DeliverListen event => handle_ListenSshConnectionResponse event
  end.

Fixpoint run (cs : list Call) (w : World) : option World :=
  match cs with
  | [] => Some w
  | c :: rest =>
      match step c w with
      | Some (_, w') => run rest w'
      | None => None
      end
  end.

(** ** Observations on a world *)

(** The handles of the servers in the collection, null entries left out. *)
Fixpoint serverHandles (l : list (option MongoServer.t)) : list Z :=
  match l with
  | [] => []
  | Some s :: rest => MongoServer.serverHandle s :: serverHandles rest
  | None :: rest => serverHandles rest
  end.

Definition effectsOnly (l : list (Z * Effect)) : list Effect := map snd l.

(** The handles handed out in a list of effects: the handle of every server
    whose worker thread is started and of every tunnel request sent. *)
Fixpoint issuedHandles (l : list Effect) : list Z :=
  match l with
  | [] => []
  | RunWorkerThread s :: rest => MongoServer.serverHandle s :: issuedHandles rest
  | Send _ (EstablishSshConnectionRequest h _ _ _) :: rest =>
      h :: issuedHandles rest
  | _ :: rest => issuedHandles rest
  end.

Definition isEstablishRequestFor (h : Z) (e : Effect) : bool :=
  match e with
  | Send _ (EstablishSshConnectionRequest h' _ _ _) => Z.eqb h h'
  | _ => false
  end.

Definition isAnswerFor (h : Z) (e : Effect) : bool :=
  match e with
  | Send _ (ListenSshConnectionRequest h' _) => Z.eqb h h'
  | Publish (ConnectionFailedEvent h' _ _ SshConnection) => Z.eqb h h'
  | _ => false
  end.

(** A tunnel-backed open with handle [h] is pending: the request to
    establish the tunnel was sent, and neither answer to it has been handled
    (a success, after which the listen request is sent, or an error, after
    which the failure is published). *)
Definition pendingIn (h : Z) (l : list Effect) : bool :=
  existsb (isEstablishRequestFor h) l && negb (existsb (isAnswerFor h) l).

Definition pending (h : Z) (w : World) : bool :=
  pendingIn h (effectsOnly (effects w)).

(** The tunnel decision in the words of the specification. *)
Definition tunnelRequired (type : ConnectionType) (isReplicaSet sshEnabled : bool)
  : bool :=
  match type with
  | ConnectionPrimary | ConnectionTest => negb isReplicaSet && sshEnabled
  | ConnectionSecondary => false
  end.

(** The settings a server is built with: the clone, with host and port
    rewritten to the local end of the tunnel when one is in use. *)
Definition tunnelRewrite (type : ConnectionType) (localport : Z)
    (cs : ConnectionSettings.t) : ConnectionSettings.t :=
  if isPrimaryOrTest type
     && negb (ConnectionSettings.isReplicaSet cs)
     && SshSettings.enabled (ConnectionSettings.sshSettings cs)
  then ConnectionSettings.setServerPort localport
         (ConnectionSettings.setServerHost "127.0.0.1" cs)
  else cs.

(** The label of the target in the message [Connecting to ...]. *)
Definition targetLabel (cs : ConnectionSettings.t) : string :=
  (if ConnectionSettings.isReplicaSet cs
   then match ReplicaSetSettings.members (ConnectionSettings.replicaSetSettings cs) with
        | m0 :: _ => (ConnectionSettings.connectionName cs ++ " [Replica Set]") ++ m0
        | [] => (ConnectionSettings.connectionName cs ++ " [Replica Set]") ++ ""
        end
   else ConnectionSettings.getFullAddress cs)%string.

(** The server [continueOpenServer] builds in world [w]. *)
Definition builtServer (w : World) (serverHandle : Z) (type : ConnectionType)
  : MongoServer.t :=
  MongoServer.mk (nextAddress w) serverHandle (length (heap w)) type.

(** The effects of [continueOpenServer] in world [w]. *)
Definition connectEffects (w : World) (serverHandle : Z) (type : ConnectionType)
    (cs : ConnectionSettings.t) : list Effect :=
  [ RunWorkerThread (builtServer w serverHandle type);
    LogMsg (QString.arg "Connecting to %1..." (targetLabel cs)) Info;
    TryConnect (builtServer w serverHandle type) ].

Definition stamp (h : Z) (l : list Effect) : list (Z * Effect) :=
  map (fun e => (h, e)) l.

(** The message logged before a tunnel is requested. *)
Definition tunnelMessage (cs : ConnectionSettings.t) : string :=
  QString.arg
    (QString.arg "Creating SSH tunnel to %1:%2..."
       (SshSettings.host (ConnectionSettings.sshSettings cs)))
    (QString.number (SshSettings.port (ConnectionSettings.sshSettings cs))).

(** The handle [openServerInternal] hands out in world [w]. *)
Definition nextHandle (w : World) : Z :=
  wrap_int (_lastServerHandle (app w) + 1).

Definition announceEffects (type : ConnectionType) : list Effect :=
  if ConnectionType_eqb type ConnectionPrimary
  then [Publish ConnectingEvent] else [].

(** What [openServerInternal] returns and does in world [w], for settings
    [cs]: the tunnel path returns no server and sends the request to the new
    worker, the other path returns the server built. *)
Definition openedServer (w : World) (type : ConnectionType)
    (cs : ConnectionSettings.t) : option MongoServer.t :=
  if tunnelRequired type (ConnectionSettings.isReplicaSet cs)
       (SshSettings.enabled (ConnectionSettings.sshSettings cs))
  then None
  else Some (builtServer w (nextHandle w) type).

Definition openedEffects (w : World) (type : ConnectionType)
    (cs : ConnectionSettings.t) : list Effect :=
  (announceEffects type ++
   if tunnelRequired type (ConnectionSettings.isReplicaSet cs)
        (SshSettings.enabled (ConnectionSettings.sshSettings cs))
   then [ LogMsg (tunnelMessage cs) Info;
          Send (nextAddress w)
            (EstablishSshConnectionRequest (nextHandle w) (nextAddress w)
               (length (heap w)) type) ]
   else connectEffects w (nextHandle w) type cs)%list.

Definition openedWorld (w : World) (type : ConnectionType)
    (cs : ConnectionSettings.t) : World :=
  mkWorld (heap w ++ [cs]) (S (nextAddress w))
    (mkApp (_servers (app w)) (_shells (app w)) (nextHandle w))
    (effects w ++ stamp (nextHandle w) (openedEffects w type cs)).

(** The answers of the user to the two prompts. *)
Definition sshAnswer (getText : Dialog) (cs : ConnectionSettings.t)
  : string * bool :=
  getText "SSH Authentication" (sshPromptText (ConnectionSettings.sshSettings cs)).

Definition sslAnswer (getText : Dialog) (cs : ConnectionSettings.t)
  : string * bool :=
  getText "TLS Authentication" (sslPromptText cs).

(** The settings object after the SSH prompt of [openServer], [None] when
    the prompt is shown and declined. *)
Definition afterSshPrompt (getText : Dialog) (type : ConnectionType)
    (cs : ConnectionSettings.t) : option ConnectionSettings.t :=
  if sshPromptRequired cs type then
    if snd (sshAnswer getText cs)
    then Some (storeAskedPassword (fst (sshAnswer getText cs)) cs)
    else None
  else Some cs.

(** The same for the PEM passphrase prompt. *)
Definition afterSslPrompt (getText : Dialog) (type : ConnectionType)
    (cs : ConnectionSettings.t) : option ConnectionSettings.t :=
  if sslPromptRequired cs type then
    if snd (sslAnswer getText cs)
    then Some (storePemPassPhrase (fst (sslAnswer getText cs)) cs)
    else None
  else Some cs.

(** A required credential prompt is declined: the SSH prompt is required
    and answered without [ok], or the PEM passphrase prompt is. *)
Definition sshDeclined (getText : Dialog) (type : ConnectionType)
    (cs : ConnectionSettings.t) : bool :=
  sshPromptRequired cs type && negb (snd (sshAnswer getText cs)).

Definition sslDeclined (getText : Dialog) (type : ConnectionType)
    (cs : ConnectionSettings.t) : bool :=
  sslPromptRequired cs type && negb (snd (sslAnswer getText cs)).

Definition credentialDeclined (getText : Dialog) (type : ConnectionType)
    (cs : ConnectionSettings.t) : bool :=
  sshDeclined getText type cs || sslDeclined getText type cs.

(** A settings object with the two prompted secrets blanked: two objects
    with the same image differ in the secrets at most. *)
Definition eraseSecrets (c : ConnectionSettings.t) : ConnectionSettings.t :=
  storePemPassPhrase "" (storeAskedPassword "" c).

(** The same for the default database. *)
Definition eraseDefaultDatabase (c : ConnectionSettings.t)
  : ConnectionSettings.t :=
  ConnectionSettings.setDefaultDatabase "" c.

Definition isSend (e : Effect) : bool :=
  match e with
  | Send _ _ => true
  | _ => false
  end.

(** [e] creates or starts a server. *)
Definition startsServer (e : Effect) : bool :=
  match e with
  | RunWorkerThread _ | TryConnect _ => true
  | _ => false
  end.

(** [e] publishes an event, subscribes a shell or runs one. *)
Definition isBusOrShellEffect (e : Effect) : bool :=
  match e with
  | Publish _ | Send _ _ | Subscribe _ _ _ | Execute _ => true
  | _ => false
  end.

(** [e] sends the request to establish the tunnel for handle [h] and [type]
    to the worker named in the request. *)
Definition sendsEstablishRequest (h : Z) (type : ConnectionType) (e : Effect)
  : bool :=
  match e with
  | Send receiver (EstablishSshConnectionRequest h' worker _ type') =>
      Z.eqb h h' && Nat.eqb receiver worker && ConnectionType_eqb type type'
  | _ => false
  end.

(** The tunnel path, seen from outside: no server is returned, built or
    started, and the request to establish the tunnel for the new handle
    goes to the worker. *)
Definition tunnelPath (h : Z) (type : ConnectionType)
    (result : option MongoServer.t) (new : list Effect) : Prop :=
  result = None
  /\ existsb (sendsEstablishRequest h type) new = true
  /\ existsb startsServer new = false.

(** The direct path: the server with the new handle is built, started and
    returned, and nothing is sent to a worker. *)
Definition directPath (h : Z) (type : ConnectionType)
    (result : option MongoServer.t) (new : list Effect) : Prop :=
  (exists server,
      result = Some server
      /\ MongoServer.serverHandle server = h
      /\ MongoServer.connectionType server = type
      /\ In (RunWorkerThread server) new
      /\ In (TryConnect server) new)
  /\ existsb isSend new = false.

(** World [w] with the settings object at [p] replaced. *)
Definition withSettings (p : SettingsPtr) (c : ConnectionSettings.t) (w : World)
  : World :=
  mkWorld (<[p := c]> (heap w)) (nextAddress w) (app w) (effects w).

(** World [w] with one more entry in the server collection. *)
Definition registered (entry : option MongoServer.t) (w : World) : World :=
  mkWorld (heap w) (nextAddress w)
    (mkApp (_servers (app w) ++ [entry]) (_shells (app w))
       (_lastServerHandle (app w)))
    (effects w).

(** World [w] after the effects [l] are issued. *)
Definition emitted (l : list Effect) (w : World) : World :=
  mkWorld (heap w) (nextAddress w) (app w)
    (effects w ++ stamp (_lastServerHandle (app w)) l).

(** The shell [openShell] builds in world [w], and the world it leaves. *)
Definition builtShell (w : World) (scriptInfo : ScriptInfo) : MongoShell.t :=
  MongoShell.mk (S (nextAddress w))
    (builtServer w (nextHandle w) ConnectionSecondary) scriptInfo.

Definition shellEffects (w : World) (srv : MongoServer.t)
    (scriptInfo : ScriptInfo) : list Effect :=
  [ Subscribe srv ReplicaSetRefreshedType (builtShell w scriptInfo);
    Publish (OpeningShellEvent (builtShell w scriptInfo));
    Execute (builtShell w scriptInfo) ].

Definition shellOpened (w : World) (srv : MongoServer.t)
    (cs : ConnectionSettings.t) (scriptInfo : ScriptInfo) : World :=
  mkWorld (heap w ++ [cs]) (S (S (nextAddress w)))
    (mkApp
       (_servers (app w) ++ [Some (builtServer w (nextHandle w) ConnectionSecondary)])
       (_shells (app w) ++ [builtShell w scriptInfo])
       (nextHandle w))
    (effects w
     ++ stamp (nextHandle w)
          (openedEffects w ConnectionSecondary cs ++ shellEffects w srv scriptInfo)).

(** The world a successful tunnel response leaves. *)
Definition tunnelEstablished (w : World) (event : EstablishSshConnectionResponse)
    (cs : ConnectionSettings.t) : World :=
  mkWorld
    (heap w ++ [tunnelRewrite (est_connectionType event) (est_localport event) cs])
    (S (nextAddress w))
    (mkApp
       (_servers (app w)
        ++ [Some (builtServer w (est_serverHandle event) (est_connectionType event))])
       (_shells (app w)) (_lastServerHandle (app w)))
    (effects w
     ++ stamp (_lastServerHandle (app w))
          ([LogMsg "SSH tunnel created successfully" Info]
           ++ connectEffects w (est_serverHandle event) (est_connectionType event) cs
           ++ [Send (est_worker event)
                 (ListenSshConnectionRequest (est_serverHandle event)
                    (est_connectionType event))])).

(** World [w] after [closeServer]. *)
Definition serverClosed (server : option MongoServer.t) (w : World) : World :=
  mkWorld (heap w) (nextAddress w)
    (mkApp
       (List.filter (fun el => negb (ptr_eqb (addressOf el) (addressOf server)))
          (_servers (app w)))
       (_shells (app w)) (_lastServerHandle (app w)))
    (effects w).

(** World [w] after the shell entry is erased. *)
Definition shellErased (shell : option MongoShell.t) (w : World) : World :=
  mkWorld (heap w) (nextAddress w)
    (mkApp (_servers (app w)) (eraseFirst (isShell shell) (_shells (app w)))
       (_lastServerHandle (app w)))
    (effects w).

(** The three overloads of [openShell] that start from a collection, a
    server or a database. *)
Definition isShellOverload (c : Call) : bool :=
  match c with
  | CallOpenShellCollection _ _
  | CallOpenShellServer _ _ _ _ _ _ _
  | CallOpenShellDatabase _ _ _ _ _ _ => true
  | _ => false
  end.

(** The effect a tunnel response that needs no server leaves. *)
Definition listenEffect (event : ListenSshConnectionResponse) : Effect :=
  match lis_error event with
  | Some errorMessage =>
      Publish (ConnectionFailedEvent (lis_serverHandle event)
                 (lis_connectionType event) errorMessage SshChannel)
  | None => LogMsg "SSH tunnel closed." Error
  end.

(** The worlds a call can leave, one case for each way through the code. *)
Inductive Outcome (w : World) : Call -> World -> Prop :=
| OutDeclined getText connection type cs c1 :
    heap w !! connection = Some cs ->
    eraseSecrets c1 = eraseSecrets cs ->
    credentialDeclined getText type cs = true ->
    Outcome w (CallOpenServer getText connection type)
      (withSettings connection c1 w)
| OutOpened getText connection type cs c2 :
    heap w !! connection = Some cs ->
    eraseSecrets c2 = eraseSecrets cs ->
    credentialDeclined getText type cs = false ->
    Outcome w (CallOpenServer getText connection type)
      (registered (openedServer (withSettings connection c2 w) type c2)
         (openedWorld (withSettings connection c2 w) type c2))
| OutCloseServer server :
    Outcome w (CallCloseServer server) (serverClosed server w)
| OutShell srv connection scriptInfo cs :
    heap w !! connection = Some cs ->
    Outcome w (CallOpenShell (Some srv) connection scriptInfo)
      (shellOpened w srv cs scriptInfo)
| OutShellNull connection scriptInfo cs :
    heap w !! connection = Some cs ->
    Outcome w (CallOpenShell None connection scriptInfo)
      (openedWorld w ConnectionSecondary cs)
| OutShellOverload c srv scriptInfo cs c' :
    isShellOverload c = true ->
    heap w !! MongoServer.connectionRecord srv = Some cs ->
    eraseDefaultDatabase c' = eraseDefaultDatabase cs ->
    Outcome w c
      (shellOpened (withSettings (MongoServer.connectionRecord srv) c' w) srv c'
         scriptInfo)
| OutCloseShellAbsent shell :
    existsb (isShell shell) (_shells (app w)) = false ->
    Outcome w (CallCloseShell shell) w
| OutCloseShell sh :
    existsb (isShell (Some sh)) (_shells (app w)) = true ->
    Outcome w (CallCloseShell (Some sh))
      (shellErased (Some sh) (serverClosed (Some (MongoShell.server sh)) w))
| OutFire serverHandle type errormsg reason :
    Outcome w (CallFireConnectionFailedEvent serverHandle type errormsg reason)
      (emitted [Publish (ConnectionFailedEvent serverHandle type errormsg reason)] w)
| OutEstablishError event errorMessage :
    est_error event = Some errorMessage ->
    Outcome w (DeliverEstablish event)
      (emitted [Publish (ConnectionFailedEvent (est_serverHandle event)
                           (est_connectionType event) errorMessage SshConnection)] w)
| OutEstablished event cs :
    est_error event = None ->
    heap w !! est_settings event = Some cs ->
    Outcome w (DeliverEstablish event) (tunnelEstablished w event cs)
| OutListen event :
    Outcome w (DeliverListen event) (emitted [listenEffect event] w).

(** ** Runs of the orchestrator

    A run is kept with its history, the calls made so far in order.  The
    worker answers a request to establish a tunnel once: the request for
    handle [h] is awaited when it was sent and no establish response for
    [h], with an error or without, has been handled.  A failure published
    through [fireConnectionFailedEvent] is no response. *)

(** The handles of the establish responses handled in a run. *)
Fixpoint answeredHandles (history : list Call) : list Z :=
  match history with
  | [] => []
  | DeliverEstablish event :: rest =>
      est_serverHandle event :: answeredHandles rest
  | _ :: rest => answeredHandles rest
  end.

Definition requested (h : Z) (w : World) : bool :=
  existsb (isEstablishRequestFor h) (effectsOnly (effects w)).

Definition awaited (history : list Call) (h : Z) (w : World) : bool :=
  requested h w && negb (existsb (Z.eqb h) (answeredHandles history)).

(** A call is admissible when the handle counter has room for the handle it
    may take, and a successful establish response when the request it
    answers is awaited. *)
Definition admissible (history : list Call) (w : World) (c : Call) : Prop :=
  match c with
  | CallOpenServer _ _ _
  | CallOpenShell _ _ _
  | CallOpenShellCollection _ _
  | CallOpenShellServer _ _ _ _ _ _ _
  | CallOpenShellDatabase _ _ _ _ _ _ =>
      _lastServerHandle (app w) < INT_MAX
  | DeliverEstablish event =>
      est_error event = None ->
      awaited history (est_serverHandle event) w = true
  | _ => True
  end.

(** The worlds reached from a new [App] over the settings objects
    [settings], with the calls that led there. *)
Inductive session (settings : list ConnectionSettings.t)
  : list Call -> World -> Prop :=
| session_new : session settings [] (newWorld settings)
| session_step history w c w' :
    session settings history w -> admissible history w c ->
    step c w = Some (tt, w') ->
    session settings (history ++ [c]) w'.

(** The invariant of the sessions: the counter is in range, the handles of
    the collection are distinct handles handed out earlier, a handle of the
    collection for which a request was sent has had its response, and every
    request sent carries a handle handed out earlier. *)
Record Consistent (history : list Call) (w : World) : Prop := mkConsistent {
  counter_range : 0 <= _lastServerHandle (app w) <= INT_MAX;
  handles_issued :
    Forall (fun h => h <= _lastServerHandle (app w))
      (serverHandles (_servers (app w)));
  handles_distinct : NoDup (serverHandles (_servers (app w)));
  handles_answered :
    Forall (fun h => requested h w = true -> In h (answeredHandles history))
      (serverHandles (_servers (app w)));
  requests_issued :
    forall h,
      existsb (isEstablishRequestFor h) (effectsOnly (effects w)) = true ->
      h <= _lastServerHandle (app w)
}.

(** The settings pointers an effect hands to a collaborator: the settings
    of a server that is started, of the server of a shell, and of a tunnel
    request. *)
Definition handedSettings (e : Effect) : list SettingsPtr :=
  match e with
  | RunWorkerThread s | TryConnect s => [MongoServer.connectionRecord s]
  | Send _ (EstablishSshConnectionRequest _ _ p _) => [p]
  | Subscribe _ _ shell | Publish (OpeningShellEvent shell) | Execute shell =>
      [MongoServer.connectionRecord (MongoShell.server shell)]
  | _ => []
  end.

(** One call of [openServer] in a run of them. *)
Definition openServerCall (c : Dialog * SettingsPtr * ConnectionType) : Call :=
  CallOpenServer (fst (fst c)) (snd (fst c)) (snd c).

(** The calls that take a new handle. *)
Definition takesHandle (c : Call) : bool :=
  match c with
  | CallOpenServer _ _ _
  | CallOpenShell _ _ _
  | CallOpenShellCollection _ _
  | CallOpenShellServer _ _ _ _ _ _ _
  | CallOpenShellDatabase _ _ _ _ _ _ => true
  | _ => false
  end.

(** What a call adds to a world: the effects [new], each issued while the
    counter had its final value; the settings handed out are objects made
    during the call; at most one handle is handed out, the next one or the
    one of a successful tunnel response; the handles of the collection are
    old ones or the one handed out. *)
Record Delta (w : World) (c : Call) (w' : World) (new : list Effect) : Prop :=
  mkDelta {
  delta_effects :
    effects w' = effects w ++ stamp (_lastServerHandle (app w')) new;
  delta_heap : (length (heap w) <= length (heap w'))%nat;
  delta_handed :
    Forall (fun e => Forall (fun p => (length (heap w) <= p)%nat)
                       (handedSettings e)) new;
  delta_issued :
    (issuedHandles new = []
     /\ _lastServerHandle (app w') = _lastServerHandle (app w)
     /\ (takesHandle c = true -> new = []))
    \/ (issuedHandles new = [nextHandle w]
        /\ _lastServerHandle (app w') = nextHandle w
        /\ takesHandle c = true)
    \/ (exists event,
          c = DeliverEstablish event /\ est_error event = None
          /\ issuedHandles new = [est_serverHandle event]
          /\ _lastServerHandle (app w') = _lastServerHandle (app w));
  delta_handles :
    sublist (serverHandles (_servers (app w')))
      (serverHandles (_servers (app w)) ++ issuedHandles new)
}.

(** A call that leaves the abandoned open with handle [h] alone: it has
    room for the handle it may take, and it is no successful tunnel response
    for [h] itself. *)
Definition undisturbed (h : Z) (w : World) (c : Call) : Prop :=
  (takesHandle c = true -> _lastServerHandle (app w) < INT_MAX)
  /\ (forall event,
        c = DeliverEstablish event -> est_error event = None ->
        est_serverHandle event <> h).

Inductive runsWithout (h : Z) (w : World) : World -> Prop :=
| runsWithout_here : runsWithout h w w
| runsWithout_step w1 c w2 :
    runsWithout h w w1 -> undisturbed h w1 c -> step c w1 = Some (tt, w2) ->
    runsWithout h w w2.

(** The open with handle [h] is abandoned: it was answered, its handle was
    handed out and is not in the collection, and no effect after [base]
    hands it out. *)
Definition Abandoned (h : Z) (base : list Effect) (w : World) : Prop :=
  0 <= _lastServerHandle (app w) <= INT_MAX
  /\ existsb (isAnswerFor h) (effectsOnly (effects w)) = true
  /\ h <= _lastServerHandle (app w)
  /\ ~ In h (serverHandles (_servers (app w)))
  /\ exists later,
       effectsOnly (effects w) = base ++ later
       /\ ~ In h (issuedHandles later).

(** The server an overload of [openShell] starts from: the server given,
    the server of the database given, or the server of the database of the
    collection given. *)
Definition startServer (c : Call) : option MongoServer.t :=
  match c with
  | CallOpenShellCollection (Some coll) _ =>
      match MongoCollection.database coll with
      | Some db => MongoDatabase.server db
      | None => None
      end
  | CallOpenShellServer server _ _ _ _ _ _ => server
  | CallOpenShellDatabase (Some db) _ _ _ _ _ => MongoDatabase.server db
  | _ => None
  end.

(** Its connection record. *)
Definition startRecord (c : Call) : option SettingsPtr :=
  match startServer c with
  | Some srv => Some (MongoServer.connectionRecord srv)
  | None => None
  end.

(** How far a call may change a settings object [q] that was there before
    it: [openServer] stores the prompted secrets in the object it is given
    and changes no other object, the three overloads of [openShell] set the
    default database of the record of the server they start from and change
    no other object, and no other call changes any object. *)
Definition allowedChange (c : Call) (q : SettingsPtr)
    (original current : ConnectionSettings.t) : Prop :=
  match c with
  | CallOpenServer _ connection _ =>
      eraseSecrets current = eraseSecrets original
      /\ (q <> connection -> current = original)
  | CallOpenShellCollection _ _
  | CallOpenShellServer _ _ _ _ _ _ _
  | CallOpenShellDatabase _ _ _ _ _ _ =>
      eraseDefaultDatabase current = eraseDefaultDatabase original
      /\ (startRecord c <> Some q -> current = original)
  | _ => current = original
  end.

(** [openServer] for the call [c] gets past the prompts in world [w]: the
    settings object is there and no prompt it shows is declined. *)
Definition accepts (w : World) (c : Dialog * SettingsPtr * ConnectionType)
  : bool :=
  match heap w !! snd (fst c) with
  | Some cs => negb (credentialDeclined (fst (fst c)) (snd c) cs)
  | None => false
  end.

(** The [n] handles that follow [last]. *)
Fixpoint handlesAfter (last : Z) (n : nat) : list Z :=
  match n with
  | O => []
  | S k => (last + 1) :: handlesAfter (last + 1) k
  end.

(** ** Sample worlds *)

(** The world a call leaves, the world itself when the call fails. *)
Definition afterCall (c : Call) (w : World) : World :=
  match step c w with
  | Some (_, w') => w'
  | None => w
  end.

Definition sampleScript : ScriptInfo :=
  mkScriptInfo "db.stats()" true "test" (mkCursorPosition 0 0) "stats" "".

(** Settings that need a tunnel and ask for nothing; settings that need
    none; settings that need a tunnel and ask for the SSH password. *)
Definition tunnelSettings : ConnectionSettings.t :=
  sampleSettings false true false false.

Definition directSettings : ConnectionSettings.t :=
  sampleSettings false false false false.

Definition askingSettings : ConnectionSettings.t :=
  sampleSettings false true true false.

(** A new [App] on which a Primary server is opened through a tunnel: the
    open with handle 1 is pending, the copy of the settings is object 1. *)
Definition pendingWorld : World :=
  afterCall (CallOpenServer acceptAll 0%nat ConnectionPrimary)
    (newWorld [tunnelSettings]).

Definition tunnelUp (h : Z) (settings : SettingsPtr)
  : EstablishSshConnectionResponse :=
  mkEstablishResponse h 0%nat settings ConnectionPrimary 50000 None.

Definition tunnelRefused (h : Z) : EstablishSshConnectionResponse :=
  mkEstablishResponse h 0%nat 1%nat ConnectionPrimary 0
    (Some "Connection refused").

Definition channelLost (h : Z) : ListenSshConnectionResponse :=
  mkListenResponse h ConnectionPrimary (Some "Channel closed").

(** ** Further observations

    Definitions used to state what the code does beyond the sample runs:
    the text of the pieces [QString::arg] sees, the addresses of the objects
    the orchestrator owns, and the settings the prompts leave. *)

(** The text a token stands for. *)
Definition tokenText (t : QString.ArgToken) : string :=
  match t with
  | QString.Plain c => String c ""
  | QString.Marker _ text => text
  end.

Fixpoint tokensText (ts : list QString.ArgToken) : string :=
  match ts with
  | [] => ""%string
  | t :: rest => (tokenText t ++ tokensText rest)%string
  end.

(** Every place marker among [ts] is numbered [k] or higher. *)
Definition markersFrom (k : nat) (ts : list QString.ArgToken) : bool :=
  forallb (fun t => match t with
                    | QString.Marker n _ => (k <=? n)%nat
                    | QString.Plain _ => true
                    end) ts.

(** One step of the scan of [QString.argTokens]: the first token of [s] and
    the text left after it. *)
Definition nextToken (s : string) : option (QString.ArgToken * string) :=
  match s with
  | EmptyString => None
  | String c s1 =>
      if negb (Ascii.eqb c "%") then Some (QString.Plain c, s1)
      else
        match s1 with
        | EmptyString => Some (QString.Plain c, s1)
        | String c1 s2 =>
            if Ascii.eqb c1 "L" then
              match s2 with
              | EmptyString => Some (QString.Plain c, s1)
              | String d1 s3 =>
                  match QString.digitValue d1 with
                  | None => Some (QString.Plain c, s1)
                  | Some n1 =>
                      match s3 with
                      | EmptyString =>
                          Some (QString.Marker n1
                                  (String c (String c1 (String d1 ""))), s3)
                      | String d2 s4 =>
                          match QString.digitValue d2 with
                          | Some n2 =>
                              Some (QString.Marker (10 * n1 + n2)%nat
                                      (String c (String c1 (String d1 (String d2 "")))),
                                    s4)
                          | None =>
                              Some (QString.Marker n1
                                      (String c (String c1 (String d1 ""))), s3)
                          end
                      end
                  end
              end
            else
              match QString.digitValue c1 with
              | None => Some (QString.Plain c, s1)
              | Some n1 =>
                  match s2 with
                  | EmptyString =>
                      Some (QString.Marker n1 (String c (String c1 "")), s2)
                  | String d2 s3 =>
                      match QString.digitValue d2 with
                      | Some n2 =>
                          Some (QString.Marker (10 * n1 + n2)%nat
                                  (String c (String c1 (String d2 ""))), s3)
                      | None =>
                          Some (QString.Marker n1 (String c (String c1 "")), s2)
                      end
                  end
              end
        end
  end.

(** Text of ASCII characters alone. *)
Fixpoint asciiOnly (s : string) : bool :=
  match s with
  | EmptyString => true
  | String c rest => (nat_of_ascii c <? 128)%nat && asciiOnly rest
  end.

(** A name is safe for the query helper when its place markers, if it has
    any, are numbered 3 or higher. *)
Definition safeName (s : string) : bool := markersFrom 3 (QString.argTokens s).

(** [e] publishes the [ConnectingEvent]. *)
Definition isConnecting (e : Effect) : bool :=
  match e with
  | Publish ConnectingEvent => true
  | _ => false
  end.

Definition countConnecting (l : list Effect) : nat :=
  length (List.filter isConnecting l).

(** The addresses of the servers in the collection, null entries left out,
    and of the shells. *)
Fixpoint serverAddresses (l : list (option MongoServer.t)) : list nat :=
  match l with
  | [] => []
  | Some s :: rest => MongoServer.address s :: serverAddresses rest
  | None :: rest => serverAddresses rest
  end.

Definition shellAddresses (l : list MongoShell.t) : list nat :=
  map MongoShell.address l.

(** The addresses [l] were handed out by the allocator, once each. *)
Definition Fresh (n : nat) (l : list nat) : Prop :=
  Forall (fun a => (a < n)%nat) l /\ NoDup l.

(** The invariant of the objects the orchestrator owns: the servers are
    distinct objects the allocator made, and so are the shells. *)
Record WellAddressed (w : World) : Prop := mkWellAddressed {
  wa_servers : Fresh (nextAddress w) (serverAddresses (_servers (app w)));
  wa_shells : Fresh (nextAddress w) (shellAddresses (_shells (app w)))
}.

(** The settings object after the prompts of [openServer] that are shown
    were answered: the SSH prompt first, the PEM passphrase prompt second. *)
Definition withAskedPassword (getText : Dialog) (type : ConnectionType)
    (c : ConnectionSettings.t) : ConnectionSettings.t :=
  if sshPromptRequired c type
  then storeAskedPassword (fst (sshAnswer getText c)) c
  else c.

Definition withSecrets (getText : Dialog) (type : ConnectionType)
    (c : ConnectionSettings.t) : ConnectionSettings.t :=
  if sslPromptRequired c type
  then storePemPassPhrase (fst (sslAnswer getText c))
         (withAskedPassword getText type c)
  else withAskedPassword getText type c.

(** Settings rewritten to the local end of a tunnel. *)
Definition localEnd (localport : Z) (c : ConnectionSettings.t)
  : ConnectionSettings.t :=
  ConnectionSettings.setServerPort localport
    (ConnectionSettings.setServerHost "127.0.0.1" c).

Definition isServer (el : option MongoServer.t) : bool :=
  match el with
  | Some _ => true
  | None => false
  end.

(** The record of a server after [openShell] for a server and a database
    name: an empty name leaves the default database as it is. *)
Definition withDefaultDatabase (dbName : string) (cs : ConnectionSettings.t)
  : ConnectionSettings.t :=
  if String.eqb dbName "" then cs
  else ConnectionSettings.setDefaultDatabase dbName cs.

(** [c] delivers a tunnel response without an error. *)
Definition successfulEstablish (c : Call) : bool :=
  match c with
  | DeliverEstablish event =>
      match est_error event with
      | None => true
      | Some _ => false
      end
  | _ => false
  end.

(** ** A sample session *)

(** The world a run leaves, the world itself when a call fails. *)
Definition afterRun (calls : list Call) (w : World) : World :=
  match run calls w with
  | Some w' => w'
  | None => w
  end.

(** A user who answers the SSH prompt and declines the PEM prompt, and
    settings that show both prompts. *)
Definition acceptSshOnly : Dialog :=
  fun title _ =>
    if String.eqb title "SSH Authentication" then ("secret", true)
    else ("", false).

Definition askingBothSettings : ConnectionSettings.t :=
  sampleSettings false true true true.

(** The server a new [App] builds for the first direct open, a collection
    reached through it, and a session on it: the server is opened, a shell
    is opened on it twice, and a failure is reported. *)
Definition explorerServer : MongoServer.t :=
  builtServer (newWorld [directSettings]) 1 ConnectionPrimary.

Definition sampleDatabase : MongoDatabase.t :=
  MongoDatabase.mk "shop" (Some explorerServer).

Definition sampleCollection : MongoCollection.t :=
  MongoCollection.mk "orders\2024" (Some sampleDatabase).

Definition sampleSession : list Call :=
  [ CallOpenServer acceptAll 0%nat ConnectionPrimary;
    CallOpenShell (Some explorerServer) 0%nat sampleScript;
    CallOpenShellCollection (Some sampleCollection) "";
    CallFireConnectionFailedEvent 1 ConnectionPrimary "timeout" Generic ].

Definition openedOnce : World :=
  afterCall (CallOpenServer acceptAll 0%nat ConnectionPrimary)
    (newWorld [directSettings]).

Definition sessionWorld : World :=
  afterRun sampleSession (newWorld [directSettings]).

Definition sampleShell : MongoShell.t := builtShell openedOnce sampleScript.

(** A shell opened for the sample database. *)
Definition sampleOverload : Call :=
  CallOpenShellDatabase (Some sampleDatabase) "db.stats()" true "stats"
    (mkCursorPosition 0 0) "".

(** A session over two settings objects: a tunnel is asked for (handle 1),
    a failure for handle 1 is reported through [fireConnectionFailedEvent]
    before the worker has answered, a second server is opened directly
    (handle 2), and then the worker reports that the tunnel is up. *)
Definition busySettings : list ConnectionSettings.t :=
  [tunnelSettings; directSettings].

Definition busySession : list Call :=
  [ CallOpenServer acceptAll 0%nat ConnectionPrimary;
    CallFireConnectionFailedEvent 1 ConnectionPrimary "timeout" SshConnection;
    CallOpenServer acceptAll 1%nat ConnectionPrimary;
    DeliverEstablish (tunnelUp 1 2%nat) ].

Definition busyWorld : World := afterRun busySession (newWorld busySettings).

(** ** The code, step by step *)

(** Runs the monadic plumbing of a goal. *)
Ltac mrun :=
  repeat (unfold bind, getApp, putApp, emit, ret, newObject, LOG_MSG,
            push_back_server, push_back_shell;
          cbn [heap nextAddress app effects _lastServerHandle _servers _shells]).

Section Steps.

Implicit Types (w : World) (cs : ConnectionSettings.t) (type : ConnectionType)
  (getText : Dialog).

Lemma effectsOnly_stamp h l : effectsOnly (stamp h l) = l.
Proof.
  unfold effectsOnly, stamp. rewrite map_map. cbn [snd]. apply map_id.
Qed.

Lemma effectsOnly_app l1 l2 :
  effectsOnly (l1 ++ l2) = effectsOnly l1 ++ effectsOnly l2.
Proof. apply map_app. Qed.

(** What the prompts leave when none is declined: the settings with the
    secrets stored, everything else as it was. *)
Lemma prompts_accepted getText type cs :
  credentialDeclined getText type cs = false ->
  exists c2,
    (exists c1, afterSshPrompt getText type cs = Some c1
                /\ afterSslPrompt getText type c1 = Some c2)
    /\ eraseSecrets c2 = eraseSecrets cs.
Proof.
  unfold credentialDeclined, sshDeclined, sslDeclined.
  intros [Hssh Hssl]%orb_false_elim.
  assert (Hany : forall c1,
             sslPromptRequired c1 type = sslPromptRequired cs type ->
             sslAnswer getText c1 = sslAnswer getText cs ->
             afterSslPrompt getText type c1
             = Some (if sslPromptRequired cs type
                     then storePemPassPhrase (fst (sslAnswer getText cs)) c1
                     else c1)).
  { intros c1 Hr Ha. unfold afterSslPrompt. rewrite Hr, Ha.
    destruct (sslPromptRequired cs type); [| reflexivity].
    cbn [andb] in Hssl. apply negb_false_iff in Hssl. now rewrite Hssl. }
  unfold afterSshPrompt.
  destruct (sshPromptRequired cs type) eqn:Rssh.
  - cbn [andb] in Hssh. apply negb_false_iff in Hssh. rewrite Hssh.
    eexists. split.
    + eexists. split; [reflexivity |]. now apply Hany.
    + now destruct (sslPromptRequired cs type).
  - eexists. split.
    + eexists. split; [reflexivity |]. now apply Hany.
    + now destruct (sslPromptRequired cs type).
Qed.

Lemma prompts_declined getText type cs :
  credentialDeclined getText type cs = true ->
  afterSshPrompt getText type cs = None
  \/ exists c1, afterSshPrompt getText type cs = Some c1
                /\ afterSslPrompt getText type c1 = None.
Proof.
  unfold credentialDeclined, sshDeclined, sslDeclined, afterSshPrompt.
  intros H.
  destruct (sshPromptRequired cs type) eqn:Rssh.
  - destruct (snd (sshAnswer getText cs)) eqn:Hok; [| now left].
    right. eexists. split; [reflexivity |].
    cbn [andb negb orb] in H. unfold afterSslPrompt.
    set (c1 := storeAskedPassword (fst (sshAnswer getText cs)) cs).
    change (sslPromptRequired c1 type) with (sslPromptRequired cs type).
    change (sslAnswer getText c1) with (sslAnswer getText cs).
    apply andb_prop in H as [-> H]. apply negb_true_iff in H.
    now rewrite H.
  - right. eexists. split; [reflexivity |].
    cbn [andb orb] in H. unfold afterSslPrompt.
    apply andb_prop in H as [-> H]. apply negb_true_iff in H.
    now rewrite H.
Qed.

Lemma eraseSecrets_flags c d :
  eraseSecrets c = eraseSecrets d ->
  ConnectionSettings.isReplicaSet c = ConnectionSettings.isReplicaSet d
  /\ SshSettings.enabled (ConnectionSettings.sshSettings c)
     = SshSettings.enabled (ConnectionSettings.sshSettings d).
Proof.
  intros H. split.
  - now apply (f_equal ConnectionSettings.isReplicaSet) in H.
  - now apply (f_equal (fun x => SshSettings.enabled
                                   (ConnectionSettings.sshSettings x))) in H.
Qed.

Lemma lookup_snoc_here (h : list ConnectionSettings.t) c :
  (h ++ [c]) !! length h = Some c.
Proof. rewrite lookup_app_r by lia. now rewrite Nat.sub_diag. Qed.

Lemma insert_snoc_here (h : list ConnectionSettings.t) c d :
  <[length h := d]> (h ++ [c]) = h ++ [d].
Proof. rewrite insert_app_r_alt by lia. now rewrite Nat.sub_diag. Qed.

Lemma continueOpenServer_run w serverHandle connSettings type localport cs :
  heap w !! connSettings = Some cs ->
  continueOpenServer serverHandle connSettings type localport w
  = Some (builtServer w serverHandle type,
          mkWorld (heap w ++ [tunnelRewrite type localport cs])
            (S (nextAddress w)) (app w)
            (effects w ++ stamp (_lastServerHandle (app w))
                            (connectEffects w serverHandle type cs))).
Proof.
  intros Hp.
  assert (Hp' : forall d, (heap w ++ [d]) !! connSettings = Some cs)
    by (intros d; now apply lookup_app_l_Some).
  unfold continueOpenServer, bind, clone, deref, update, newObject, LOG_MSG,
    emit, ret, tunnelRewrite, connectEffects, builtServer, targetLabel, stamp.
  rewrite Hp. cbn [heap nextAddress app effects].
  rewrite lookup_snoc_here.
  destruct (isPrimaryOrTest type
            && negb (ConnectionSettings.isReplicaSet cs)
            && SshSettings.enabled (ConnectionSettings.sshSettings cs)).
  - cbn [heap nextAddress app effects].
    rewrite lookup_snoc_here. cbn [heap nextAddress app effects].
    rewrite insert_snoc_here, lookup_snoc_here.
    cbn [heap nextAddress app effects].
    rewrite insert_snoc_here, Hp'.
    cbn [heap nextAddress app effects map].
    rewrite <- !app_assoc. cbn [app].
    destruct (ConnectionSettings.isReplicaSet cs); [| reflexivity].
    now destruct (ReplicaSetSettings.members _).
  - cbn [heap nextAddress app effects].
    rewrite Hp'. cbn [heap nextAddress app effects map].
    rewrite <- !app_assoc.
    destruct (ConnectionSettings.isReplicaSet cs); [| reflexivity].
    now destruct (ReplicaSetSettings.members _).
Qed.

(** The tunnel decision of the code is the one of the specification. *)
Lemma direct_path_condition type cs :
  ConnectionType_eqb type ConnectionSecondary
  || negb (SshSettings.enabled (ConnectionSettings.sshSettings cs))
  || ConnectionSettings.isReplicaSet cs
  = negb (tunnelRequired type (ConnectionSettings.isReplicaSet cs)
            (SshSettings.enabled (ConnectionSettings.sshSettings cs))).
Proof.
  destruct type, (ConnectionSettings.isReplicaSet cs),
    (SshSettings.enabled (ConnectionSettings.sshSettings cs)); reflexivity.
Qed.

Lemma rewrite_condition type cs :
  isPrimaryOrTest type
  && negb (ConnectionSettings.isReplicaSet cs)
  && SshSettings.enabled (ConnectionSettings.sshSettings cs)
  = tunnelRequired type (ConnectionSettings.isReplicaSet cs)
      (SshSettings.enabled (ConnectionSettings.sshSettings cs)).
Proof.
  destruct type, (ConnectionSettings.isReplicaSet cs),
    (SshSettings.enabled (ConnectionSettings.sshSettings cs)); reflexivity.
Qed.

Lemma openServerInternal_run w connSettings type cs :
  heap w !! connSettings = Some cs ->
  openServerInternal connSettings type w
  = Some (openedServer w type cs, openedWorld w type cs).
Proof.
  intros Hp.
  assert (Hrw : tunnelRequired type (ConnectionSettings.isReplicaSet cs)
                  (SshSettings.enabled (ConnectionSettings.sshSettings cs))
                = false ->
                tunnelRewrite type defaultLocalport cs = cs).
  { intros Htun. unfold tunnelRewrite. now rewrite rewrite_condition, Htun. }
  unfold openServerInternal, incrementLastServerHandle, openedServer,
    openedWorld, openedEffects, announceEffects, nextHandle, tunnelMessage.
  unfold bind, getApp, putApp, deref, clone, newObject, LOG_MSG, emit, ret.
  destruct (ConnectionType_eqb type ConnectionPrimary);
    cbn [heap nextAddress app effects _lastServerHandle _servers _shells];
    rewrite Hp, direct_path_condition;
    destruct (tunnelRequired type _ _) eqn:Htun; cbn [negb].
  all: repeat (cbn [heap nextAddress app effects _lastServerHandle _servers
                     _shells]; rewrite ?Hp).
  all: try (rewrite (continueOpenServer_run _ _ _ _ _ cs) by exact Hp;
            rewrite (Hrw eq_refl); unfold stamp, connectEffects, builtServer).
  all: cbn [heap nextAddress app effects _lastServerHandle _servers _shells
              map List.app].
  all: rewrite <- ?app_assoc; try reflexivity.
Qed.

Lemma withSettings_same w p cs :
  heap w !! p = Some cs -> withSettings p cs w = w.
Proof.
  intros Hp. unfold withSettings. rewrite list_insert_id by exact Hp.
  now destruct w.
Qed.

Lemma withSettings_lookup w p cs c :
  heap w !! p = Some cs -> heap (withSettings p c w) !! p = Some c.
Proof.
  intros Hp. cbn [withSettings heap].
  apply list_lookup_insert_eq. now apply lookup_lt_Some with (x := cs).
Qed.

Lemma withSettings_twice w p c d :
  withSettings p d (withSettings p c w) = withSettings p d w.
Proof.
  unfold withSettings. cbn [heap nextAddress app effects].
  now rewrite list_insert_insert_eq.
Qed.

Lemma update_run w p cs f :
  heap w !! p = Some cs -> update p f w = Some (tt, withSettings p (f cs) w).
Proof. intros Hp. unfold update. now rewrite Hp. Qed.

Lemma askSslPassphrasePromptDialog_run w getText p cs :
  heap w !! p = Some cs ->
  askSslPassphrasePromptDialog getText p w
  = if snd (sslAnswer getText cs)
    then Some (true, withSettings p
                       (storePemPassPhrase (fst (sslAnswer getText cs)) cs) w)
    else Some (false, w).
Proof.
  intros Hp. unfold askSslPassphrasePromptDialog, sslAnswer, bind, deref.
  rewrite Hp. destruct (getText _ _) as [userInput ok].
  destruct ok; cbn [negb fst snd]; [| reflexivity].
  now rewrite (update_run _ _ cs).
Qed.

Lemma openServer_run w getText connection type cs :
  heap w !! connection = Some cs ->
  openServer getText connection type w
  = match afterSshPrompt getText type cs with
    | None => Some (false, w)
    | Some c1 =>
        match afterSslPrompt getText type c1 with
        | None => Some (false, withSettings connection c1 w)
        | Some c2 =>
            Some (true,
                  registered
                    (openedServer (withSettings connection c2 w) type c2)
                    (openedWorld (withSettings connection c2 w) type c2))
        end
    end.
Proof.
  intros Hp.
  assert (Htail : forall c1,
    (let* cs' := deref connection in
     let* sslOk :=
       (if sslPromptRequired cs' type
        then askSslPassphrasePromptDialog getText connection
        else ret true) in
     if negb sslOk then ret false
     else
       let* server := openServerInternal connection type in
       push_back_server server ;; ret true) (withSettings connection c1 w)
    = match afterSslPrompt getText type c1 with
      | None => Some (false, withSettings connection c1 w)
      | Some c2 =>
          Some (true,
                registered
                  (openedServer (withSettings connection c2 w) type c2)
                  (openedWorld (withSettings connection c2 w) type c2))
      end).
  { intros c1.
    pose proof (withSettings_lookup w connection cs c1 Hp) as Hp1.
    unfold bind at 1. unfold deref at 1. rewrite Hp1.
    unfold afterSslPrompt. unfold bind at 1.
    destruct (sslPromptRequired c1 type).
    - rewrite (askSslPassphrasePromptDialog_run _ _ _ c1) by exact Hp1.
      destruct (snd (sslAnswer getText c1)); [| reflexivity].
      cbn [negb]. rewrite withSettings_twice.
      unfold bind at 1.
      rewrite (openServerInternal_run _ _ _
                 (storePemPassPhrase (fst (sslAnswer getText c1)) c1))
        by (now apply withSettings_lookup with (cs := cs)).
      reflexivity.
    - unfold ret at 1. cbn [negb]. unfold bind at 1.
      rewrite (openServerInternal_run _ _ _ c1) by exact Hp1.
      reflexivity. }
  unfold openServer. unfold bind at 1. unfold deref at 1. rewrite Hp.
  unfold afterSshPrompt, sshAnswer. unfold bind at 1.
  destruct (sshPromptRequired cs type).
  - destruct (getText _ _) as [userInput ok].
    destruct ok; cbn [negb fst snd]; [| reflexivity].
    unfold bind at 1. rewrite (update_run _ _ cs) by exact Hp.
    unfold ret at 1. cbn [negb]. apply Htail.
  - unfold ret at 1. cbn [negb].
    rewrite <- (withSettings_same w connection cs Hp) at 1. apply Htail.
Qed.

Lemma openShell_run w server connection scriptInfo cs :
  heap w !! connection = Some cs ->
  openShell server connection scriptInfo w
  = match server with
    | Some srv => Some (tt, shellOpened w srv cs scriptInfo)
    | None => Some (tt, openedWorld w ConnectionSecondary cs)
    end.
Proof.
  intros Hp. unfold openShell. unfold bind at 1.
  rewrite (openServerInternal_run _ _ _ cs) by exact Hp.
  unfold openedServer. cbn [tunnelRequired].
  destruct server as [srv |]; [| reflexivity].
  unfold shellOpened, openedWorld, shellEffects, builtShell, stamp.
  mrun. rewrite !map_app. cbn [map]. rewrite <- !app_assoc. reflexivity.
Qed.

(** A pointer to no settings object makes the call fail. *)
Lemma openServerInternal_invalid w connSettings type :
  heap w !! connSettings = None ->
  openServerInternal connSettings type w = None.
Proof.
  intros Hp. unfold openServerInternal, incrementLastServerHandle.
  destruct type; cbn [ConnectionType_eqb]; mrun; unfold deref; mrun;
    now rewrite Hp.
Qed.

Lemma openShell_invalid w server connection scriptInfo :
  heap w !! connection = None ->
  openShell server connection scriptInfo w = None.
Proof.
  intros Hp. unfold openShell. unfold bind at 1.
  now rewrite openServerInternal_invalid.
Qed.

Lemma handle_Establish_error_run w event errorMessage :
  est_error event = Some errorMessage ->
  handle_EstablishSshConnectionResponse event w
  = Some (tt, emitted [Publish (ConnectionFailedEvent (est_serverHandle event)
                                  (est_connectionType event) errorMessage
                                  SshConnection)] w).
Proof.
  intros He. unfold handle_EstablishSshConnectionResponse. now rewrite He.
Qed.

Lemma handle_Establish_success_run w event cs :
  est_error event = None ->
  heap w !! est_settings event = Some cs ->
  handle_EstablishSshConnectionResponse event w
  = Some (tt, tunnelEstablished w event cs).
Proof.
  intros He Hp. unfold handle_EstablishSshConnectionResponse. rewrite He.
  unfold bind at 1. unfold LOG_MSG at 1, emit at 1.
  unfold bind at 1.
  rewrite (continueOpenServer_run _ _ _ _ _ cs) by exact Hp.
  unfold tunnelEstablished, stamp, builtServer.
  mrun. rewrite !map_app. cbn [map]. rewrite <- !app_assoc. reflexivity.
Qed.

Lemma handle_Listen_run w event :
  handle_ListenSshConnectionResponse event w
  = Some (tt, emitted [listenEffect event] w).
Proof.
  unfold handle_ListenSshConnectionResponse, listenEffect.
  now destruct (lis_error event).
Qed.

Lemma closeServer_run w server :
  closeServer server w = Some (tt, serverClosed server w).
Proof. reflexivity. Qed.

Lemma closeShell_run w shell :
  closeShell shell w
  = if existsb (isShell shell) (_shells (app w))
    then match shell with
         | Some sh =>
             Some (tt, shellErased shell
                         (serverClosed (Some (MongoShell.server sh)) w))
         | None => None
         end
    else Some (tt, w).
Proof.
  unfold closeShell. unfold bind at 1. unfold getApp at 1.
  destruct (existsb (isShell shell) (_shells (app w))); [| reflexivity].
  cbn [negb]. destruct shell as [sh |]; reflexivity.
Qed.

(** Shells are never null, so a null pointer is no shell of the
    collection. *)
Lemma isShell_null l : existsb (isShell None) l = false.
Proof. induction l as [| x l IH]; [reflexivity | exact IH]. Qed.

(** The three overloads of [openShell], when the objects they read through
    are there. *)
Lemma openShell_collection_run w coll db srv cs filePathToSave :
  MongoCollection.database coll = Some db ->
  MongoDatabase.server db = Some srv ->
  heap w !! MongoServer.connectionRecord srv = Some cs ->
  openShell_collection (Some coll) filePathToSave w
  = Some (tt,
          shellOpened
            (withSettings (MongoServer.connectionRecord srv)
               (ConnectionSettings.setDefaultDatabase (MongoDatabase.name db) cs)
               w)
            srv
            (ConnectionSettings.setDefaultDatabase (MongoDatabase.name db) cs)
            (mkScriptInfo
               (detail.buildCollectionQuery (MongoCollection.name coll)
                  "find({})")
               true (MongoDatabase.name db) (mkCursorPosition 0 (-2))
               (MongoDatabase.name db) filePathToSave)).
Proof.
  intros Hdb Hsrv Hp. unfold openShell_collection.
  unfold bind at 1. unfold derefObject at 1, ret at 1.
  unfold bind at 1. rewrite Hdb. unfold derefObject at 1, ret at 1.
  unfold bind at 1. rewrite Hsrv. unfold derefObject at 1, ret at 1.
  unfold bind at 1.
  rewrite (update_run _ _ cs) by exact Hp.
  now rewrite (openShell_run _ _ _ _
                 (ConnectionSettings.setDefaultDatabase (MongoDatabase.name db) cs))
    by (now apply withSettings_lookup with (cs := cs)).
Qed.

Lemma openShell_server_run w srv cs script dbName execute shellName
    cursorPosition filePathToSave :
  heap w !! MongoServer.connectionRecord srv = Some cs ->
  openShell_server (Some srv) script dbName execute shellName cursorPosition
    filePathToSave w
  = Some (tt,
          shellOpened
            (withSettings (MongoServer.connectionRecord srv)
               (withDefaultDatabase dbName cs) w)
            srv (withDefaultDatabase dbName cs)
            (mkScriptInfo script execute dbName cursorPosition shellName
               filePathToSave)).
Proof.
  intros Hp. unfold openShell_server, withDefaultDatabase.
  unfold bind at 1. unfold derefObject at 1, ret at 1.
  unfold bind at 1.
  destruct (dbName =? "")%string; cbn [negb].
  - unfold ret at 1. rewrite (withSettings_same w _ cs Hp).
    now rewrite (openShell_run _ _ _ _ cs) by exact Hp.
  - rewrite (update_run _ _ cs) by exact Hp.
    now rewrite (openShell_run _ _ _ _
                   (ConnectionSettings.setDefaultDatabase dbName cs))
      by (now apply withSettings_lookup with (cs := cs)).
Qed.

Lemma openShell_database_run w db srv cs script execute shellName
    cursorPosition filePathToSave :
  MongoDatabase.server db = Some srv ->
  heap w !! MongoServer.connectionRecord srv = Some cs ->
  openShell_database (Some db) script execute shellName cursorPosition
    filePathToSave w
  = Some (tt,
          shellOpened
            (withSettings (MongoServer.connectionRecord srv)
               (ConnectionSettings.setDefaultDatabase (MongoDatabase.name db) cs)
               w)
            srv
            (ConnectionSettings.setDefaultDatabase (MongoDatabase.name db) cs)
            (mkScriptInfo script execute (MongoDatabase.name db) cursorPosition
               shellName filePathToSave)).
Proof.
  intros Hsrv Hp. unfold openShell_database.
  unfold bind at 1. unfold derefObject at 1, ret at 1.
  unfold bind at 1. rewrite Hsrv. unfold derefObject at 1, ret at 1.
  unfold bind at 1.
  rewrite (update_run _ _ cs) by exact Hp.
  now rewrite (openShell_run _ _ _ _
                 (ConnectionSettings.setDefaultDatabase (MongoDatabase.name db) cs))
    by (now apply withSettings_lookup with (cs := cs)).
Qed.

(** Every way through a call that returns is one of the outcomes. *)
Lemma step_outcome c w w' : step c w = Some (tt, w') -> Outcome w c w'.
Proof.
  destruct c; cbn [step].
  - (* openServer *)
    unfold bind at 1.
    destruct (heap w !! connection) as [cs |] eqn:Hp.
    + rewrite (openServer_run _ _ _ _ cs) by exact Hp.
      destruct (credentialDeclined getText type cs) eqn:Hd.
      * destruct (prompts_declined _ _ _ Hd) as [H1 | (c1 & H1 & H2)].
        -- rewrite H1. intros [= <-].
           rewrite <- (withSettings_same w connection cs Hp) at 2.
           now apply OutDeclined with (cs := cs).
        -- rewrite H1, H2. intros [= <-].
           apply OutDeclined with (cs := cs); try assumption.
           unfold afterSshPrompt in H1.
           destruct (sshPromptRequired cs type);
             [destruct (snd (sshAnswer getText cs)) |];
             now inversion H1.
      * destruct (prompts_accepted _ _ _ Hd) as (c2 & (c1 & H1 & H2) & He).
        rewrite H1, H2. intros [= <-]. now apply OutOpened with (cs := cs).
    + unfold openServer, bind, deref. now rewrite Hp.
  - intros [= <-]. constructor.
  - (* openShell *)
    destruct (heap w !! connection) as [cs |] eqn:Hp.
    + rewrite (openShell_run _ _ _ _ cs) by exact Hp.
      destruct server; intros [= <-]; now constructor.
    + now rewrite openShell_invalid.
  - (* openShell from a collection *)
    unfold openShell_collection.
    destruct collection as [coll |]; [| discriminate].
    destruct (MongoCollection.database coll) as [db |] eqn:Hdb;
      [| unfold bind, derefObject, ret; now rewrite Hdb].
    destruct (MongoDatabase.server db) as [srv |] eqn:Hsrv;
      [| unfold bind, derefObject, ret; now rewrite Hdb, Hsrv].
    unfold bind at 1. unfold derefObject at 1, ret at 1.
    unfold bind at 1. rewrite Hdb. unfold derefObject at 1, ret at 1.
    unfold bind at 1. rewrite Hsrv. unfold derefObject at 1, ret at 1.
    unfold bind at 1.
    destruct (heap w !! MongoServer.connectionRecord srv) as [cs |] eqn:Hp;
      [| unfold update; now rewrite Hp].
    rewrite (update_run _ _ cs) by exact Hp.
    rewrite (openShell_run _ _ _ _
               (ConnectionSettings.setDefaultDatabase (MongoDatabase.name db) cs))
      by (now apply withSettings_lookup with (cs := cs)).
    intros [= <-]. now apply OutShellOverload with (cs := cs).
  - (* openShell from a server *)
    unfold openShell_server.
    destruct server as [srv |]; [| discriminate].
    unfold bind at 1. unfold derefObject at 1, ret at 1.
    unfold bind at 1.
    destruct (heap w !! MongoServer.connectionRecord srv) as [cs |] eqn:Hp.
    + destruct (negb (_ =? "")%string).
      * rewrite (update_run _ _ cs) by exact Hp.
        rewrite (openShell_run _ _ _ _
                   (ConnectionSettings.setDefaultDatabase _ cs))
          by (now apply withSettings_lookup with (cs := cs)).
        intros [= <-]. now apply OutShellOverload with (cs := cs).
      * unfold ret at 1.
        rewrite (openShell_run _ _ _ _ cs) by exact Hp.
        intros [= <-].
        match goal with
        | |- Outcome _ ?c (shellOpened _ _ _ ?si) =>
            pose proof (OutShellOverload w c srv si cs cs eq_refl Hp eq_refl)
              as Hout
        end.
        now rewrite (withSettings_same w _ cs Hp) in Hout.
    + destruct (negb (_ =? "")%string).
      * unfold update. now rewrite Hp.
      * unfold ret at 1. now rewrite openShell_invalid.
  - (* openShell from a database *)
    unfold openShell_database.
    destruct database as [db |]; [| discriminate].
    destruct (MongoDatabase.server db) as [srv |] eqn:Hsrv;
      [| unfold bind, derefObject, ret; now rewrite Hsrv].
    unfold bind at 1. unfold derefObject at 1, ret at 1.
    unfold bind at 1. rewrite Hsrv. unfold derefObject at 1, ret at 1.
    unfold bind at 1.
    destruct (heap w !! MongoServer.connectionRecord srv) as [cs |] eqn:Hp;
      [| unfold update; now rewrite Hp].
    rewrite (update_run _ _ cs) by exact Hp.
    rewrite (openShell_run _ _ _ _
               (ConnectionSettings.setDefaultDatabase (MongoDatabase.name db) cs))
      by (now apply withSettings_lookup with (cs := cs)).
    intros [= <-]. now apply OutShellOverload with (cs := cs).
  - (* closeShell *)
    rewrite closeShell_run.
    destruct (existsb (isShell shell) (_shells (app w))) eqn:Hin.
    + destruct shell as [sh |]; [| discriminate].
      intros [= <-]. now constructor.
    + intros [= <-]. now constructor.
  - intros [= <-]. constructor.
  - (* tunnel response *)
    destruct (est_error event) as [msg |] eqn:He.
    + rewrite (handle_Establish_error_run _ _ msg) by exact He.
      intros [= <-]. now constructor.
    + destruct (heap w !! est_settings event) as [cs |] eqn:Hp.
      * rewrite (handle_Establish_success_run _ _ cs) by assumption.
        intros [= <-]. now constructor.
      * unfold handle_EstablishSshConnectionResponse. rewrite He.
        unfold continueOpenServer, clone. mrun. now rewrite Hp.
  - rewrite handle_Listen_run. intros [= <-]. constructor.
Qed.

End Steps.

(** ** The collection-query helper *)

Section CollectionQuery.

Local Open Scope string_scope.

Lemma percentFree_app s t :
  percentFree (s ++ t) = percentFree s && percentFree t.
Proof.
  induction s as [| c s IH]; cbn [append percentFree]; [reflexivity |].
  now rewrite IH, andb_assoc.
Qed.

Lemma replace_percentFree before after s :
  percentFree after = true -> percentFree s = true ->
  percentFree (QString.replace before after s) = true.
Proof.
  intros Ha. induction s as [| c s IH]; cbn [QString.replace percentFree];
    [reflexivity |].
  intros [Hc Hs]%andb_prop.
  destruct (Ascii.eqb c before).
  - rewrite percentFree_app, Ha. now apply IH.
  - cbn [percentFree]. rewrite Hc. now apply IH.
Qed.

Lemma argTokens_plain_prefix s t :
  percentFree s = true ->
  QString.argTokens (s ++ t) = (plain s ++ QString.argTokens t)%list.
Proof.
  induction s as [| c s IH]; [reflexivity |].
  cbn [percentFree]. intros [Hc Hs]%andb_prop.
  cbn [append QString.argTokens plain]. rewrite Hc.
  cbn [List.app]. now rewrite IH.
Qed.

Lemma minEscape_plain_prefix s ts :
  QString.minEscape (plain s ++ ts)%list = QString.minEscape ts.
Proof. induction s as [| c s IH]; [reflexivity | exact IH]. Qed.

Lemma replaceArgEscapes_plain_prefix m a s ts :
  QString.replaceArgEscapes m a (plain s ++ ts)%list
  = s ++ QString.replaceArgEscapes m a ts.
Proof.
  induction s as [| c s IH]; [reflexivity |].
  cbn [plain List.app QString.replaceArgEscapes append]. now rewrite IH.
Qed.

Lemma append_assoc (s t u : string) : (s ++ t) ++ u = s ++ (t ++ u).
Proof.
  induction s as [| c s IH]; [reflexivity |].
  cbn [append]. now rewrite IH.
Qed.

Lemma append_empty_r (s : string) : s ++ "" = s.
Proof.
  induction s as [| c s IH]; [reflexivity |].
  cbn [append]. now rewrite IH.
Qed.

(** The first substitution always puts the name into the template. *)
Lemma arg_pattern name :
  QString.arg "db.getCollection('%1').%2" name
  = "db.getCollection('" ++ name ++ "').%2".
Proof. reflexivity. Qed.

(** The second substitution looks for the lowest marker in the whole
    string, the name included; when the name holds no ["%"] it finds the
    [%2] of the template. *)
Lemma arg_after_name name postfix :
  percentFree name = true ->
  QString.arg ("db.getCollection('" ++ name ++ "').%2") postfix
  = "db.getCollection('" ++ name ++ "')." ++ postfix.
Proof.
  intros Hn. unfold QString.arg.
  assert (Ht : QString.argTokens ("db.getCollection('" ++ name ++ "').%2")
               = (plain ("db.getCollection('" ++ name ++ "').")
                  ++ [QString.Marker 2 "%2"])%list).
  { replace ("db.getCollection('" ++ name ++ "').%2")
      with (("db.getCollection('" ++ name ++ "').") ++ "%2").
    - apply argTokens_plain_prefix.
      rewrite !percentFree_app, Hn. reflexivity.
    - rewrite !append_assoc. reflexivity. }
  rewrite Ht, minEscape_plain_prefix. cbn [QString.minEscape].
  rewrite replaceArgEscapes_plain_prefix.
  cbn [QString.replaceArgEscapes Nat.eqb].
  rewrite !append_assoc. cbn [append].
  now rewrite append_empty_r.
Qed.

(** For a collection name without ["%"], the query is the template with
    the name, every backslash doubled, and the operation. *)
Lemma buildCollectionQuery_percentFree collectionName postfix :
  percentFree collectionName = true ->
  detail.buildCollectionQuery collectionName postfix
  = "db.getCollection('" ++ QString.replace "\" "\\" collectionName
      ++ "')." ++ postfix.
Proof.
  intros Hn. unfold detail.buildCollectionQuery.
  rewrite arg_pattern. apply arg_after_name.
  now apply replace_percentFree.
Qed.

(** The chain of two [arg] calls of the Qt documentation: the second call
    finds the marker the first argument brought in. *)
Lemma arg_chain_documented :
  QString.arg (QString.arg "%1 %2" "%1f") "Hello" = "Hellof %2".
Proof. reflexivity. Qed.

(** The example of the specification: the name [a\b]. *)
Lemma buildCollectionQuery_backslash :
  detail.buildCollectionQuery "a\b" "find({})"
  = "db.getCollection('a\\b').find({})".
Proof. reflexivity. Qed.

(** [replace] doubles every backslash and keeps every other character. *)
Lemma replace_backslash_spec s :
  QString.replace "\" "\\" s
  = String.concat ""
      (map (fun c => if Ascii.eqb c "\" then "\\" else String c "")
         (list_ascii_of_string s)).
Proof.
  induction s as [| c s IH]; [reflexivity |].
  cbn [QString.replace list_ascii_of_string map].
  rewrite IH.
  destruct (Ascii.eqb c "\");
    destruct (map _ (list_ascii_of_string s)); reflexivity.
Qed.

End CollectionQuery.

(** ** Opening a server *)

Section OpenServer.

Implicit Types (w : World) (cs : ConnectionSettings.t) (type : ConnectionType)
  (getText : Dialog).

Lemma announce_no_send type : existsb isSend (announceEffects type) = false.
Proof. unfold announceEffects. now destruct (ConnectionType_eqb _ _). Qed.

Lemma announce_no_server type :
  existsb startsServer (announceEffects type) = false.
Proof. unfold announceEffects. now destruct (ConnectionType_eqb _ _). Qed.

Lemma ConnectionType_eqb_refl type : ConnectionType_eqb type type = true.
Proof. now destruct type. Qed.

(** The world [openServer] leaves when no prompt is declined. *)
Lemma openServer_accepted w getText connection type cs :
  heap w !! connection = Some cs ->
  credentialDeclined getText type cs = false ->
  exists c2,
    eraseSecrets c2 = eraseSecrets cs
    /\ openServer getText connection type w
       = Some (true,
               registered
                 (openedServer (withSettings connection c2 w) type c2)
                 (openedWorld (withSettings connection c2 w) type c2)).
Proof.
  intros Hp Hacc.
  destruct (prompts_accepted _ _ _ Hacc) as (c2 & (c1 & H1 & H2) & Here).
  exists c2. split; [exact Here |].
  rewrite (openServer_run _ _ _ _ cs) by exact Hp. now rewrite H1, H2.
Qed.

(** C5. When a required credential prompt is declined (the SSH password or
    passphrase prompt, or the PEM passphrase prompt, for a Primary or Test
    connection with the ask mode on), [openServer] returns [false], issues
    no effect, and leaves the server collection, the shell collection and
    the handle counter as they were. *)
Theorem openServer_credential_declined w getText connection type cs :
  heap w !! connection = Some cs ->
  credentialDeclined getText type cs = true ->
  exists w',
    openServer getText connection type w = Some (false, w')
    /\ _servers (app w') = _servers (app w)
    /\ _shells (app w') = _shells (app w)
    /\ _lastServerHandle (app w') = _lastServerHandle (app w)
    /\ effects w' = effects w
    /\ nextAddress w' = nextAddress w.
Proof.
  intros Hp Hdec.
  rewrite (openServer_run _ _ _ _ cs) by exact Hp.
  destruct (prompts_declined _ _ _ Hdec) as [H1 | (c1 & H1 & H2)].
  - rewrite H1. exists w. repeat split.
  - rewrite H1, H2. eexists. split; [reflexivity |]. repeat split.
Qed.

(** The path [openServerInternal] takes for settings [cs]. *)
Lemma openedEffects_path w type cs :
  if tunnelRequired type (ConnectionSettings.isReplicaSet cs)
       (SshSettings.enabled (ConnectionSettings.sshSettings cs))
  then tunnelPath (nextHandle w) type (openedServer w type cs)
         (openedEffects w type cs)
  else directPath (nextHandle w) type (openedServer w type cs)
         (openedEffects w type cs).
Proof.
  unfold openedServer, openedEffects.
  destruct (tunnelRequired type _ _).
  - split; [reflexivity |]. rewrite !existsb_app.
    rewrite announce_no_server. cbn [existsb startsServer orb].
    split; [| reflexivity].
    cbn [sendsEstablishRequest].
    rewrite Z.eqb_refl, Nat.eqb_refl, ConnectionType_eqb_refl.
    cbn [andb orb]. apply orb_true_r.
  - split.
    + eexists. split; [reflexivity |].
      split; [reflexivity |]. split; [reflexivity |].
      split; apply in_or_app; right; unfold connectEffects; cbn [In]; auto.
    + rewrite existsb_app, announce_no_send. reflexivity.
Qed.

(** What [openServer] does when no prompt is declined: it appends what
    [openServerInternal] returns, whichever path that takes. *)
Lemma openServer_paths w getText connection type cs :
  heap w !! connection = Some cs ->
  credentialDeclined getText type cs = false ->
  exists w' entry new,
    openServer getText connection type w = Some (true, w')
    /\ _servers (app w') = _servers (app w) ++ [entry]
    /\ effectsOnly (effects w') = effectsOnly (effects w) ++ new
    /\ if tunnelRequired type (ConnectionSettings.isReplicaSet cs)
            (SshSettings.enabled (ConnectionSettings.sshSettings cs))
       then tunnelPath (nextHandle w) type entry new
       else directPath (nextHandle w) type entry new.
Proof.
  intros Hp Hacc.
  destruct (openServer_accepted _ _ _ _ _ Hp Hacc) as (c2 & Here & Hrun).
  destruct (eraseSecrets_flags _ _ Here) as [Hrs Hen].
  rewrite Hrun. clear Hrun.
  eexists. exists (openedServer (withSettings connection c2 w) type c2).
  exists (openedEffects (withSettings connection c2 w) type c2).
  split; [reflexivity |]. split; [reflexivity |]. split.
  { cbn [registered openedWorld effects withSettings].
    now rewrite effectsOnly_app, effectsOnly_stamp. }
  rewrite <- Hrs, <- Hen.
  exact (openedEffects_path (withSettings connection c2 w) type c2).
Qed.

(** C3. For every type and every settings, [openServerInternal], the place
    of the decision, takes the tunnel path (it sends the request to
    establish the tunnel and neither builds nor returns a server) exactly
    when the type is Primary or Test, the settings are no replica set and
    SSH is enabled, and the direct path (it builds, starts and returns the
    server with the new handle and sends nothing) in every other case; and
    so does [openServer] whenever no prompt is declined, appending what is
    returned.  The two paths exclude each other. *)
Theorem openServer_tunnel_decision w getText connection type cs :
  heap w !! connection = Some cs ->
  (exists w1 result new,
      openServerInternal connection type w = Some (result, w1)
      /\ effectsOnly (effects w1) = effectsOnly (effects w) ++ new
      /\ if tunnelRequired type (ConnectionSettings.isReplicaSet cs)
              (SshSettings.enabled (ConnectionSettings.sshSettings cs))
         then tunnelPath (nextHandle w) type result new
         else directPath (nextHandle w) type result new)
  /\ (credentialDeclined getText type cs = false ->
      exists w' entry new,
        openServer getText connection type w = Some (true, w')
        /\ _servers (app w') = _servers (app w) ++ [entry]
        /\ effectsOnly (effects w') = effectsOnly (effects w) ++ new
        /\ if tunnelRequired type (ConnectionSettings.isReplicaSet cs)
                (SshSettings.enabled (ConnectionSettings.sshSettings cs))
           then tunnelPath (nextHandle w) type entry new
           else directPath (nextHandle w) type entry new)
  /\ (forall h result new,
        tunnelPath h type result new -> directPath h type result new -> False).
Proof.
  intros Hp. split; [| split].
  - rewrite (openServerInternal_run _ _ _ cs) by exact Hp.
    eexists. eexists. exists (openedEffects w type cs).
    split; [reflexivity |]. split.
    + cbn [openedWorld effects].
      now rewrite effectsOnly_app, effectsOnly_stamp.
    + apply openedEffects_path.
  - intros Hacc. now apply openServer_paths.
  - intros h result new (Hnone & _) ((server & Hsome & _) & _). congruence.
Qed.

(** The decision table of the specification. *)
Lemma tunnelRequired_matrix :
  tunnelRequired ConnectionPrimary false true = true
  /\ tunnelRequired ConnectionPrimary true true = false
  /\ tunnelRequired ConnectionTest false true = true
  /\ (forall r e, tunnelRequired ConnectionSecondary r e = false)
  /\ (forall type r, tunnelRequired type r false = false).
Proof.
  repeat split; try reflexivity.
  intros type r. now destruct type, r.
Qed.

(** C1. On the tunnel path (type Primary or Test, no replica set, SSH
    enabled, no prompt declined) [openServer] returns [true] and creates no
    server, but the server collection does not keep its size: the null
    pointer [openServerInternal] returns is appended to it, so the size
    grows by one, by an entry that is no server. *)
Theorem openServer_tunnel_appends_null w getText connection type cs :
  heap w !! connection = Some cs ->
  credentialDeclined getText type cs = false ->
  tunnelRequired type (ConnectionSettings.isReplicaSet cs)
    (SshSettings.enabled (ConnectionSettings.sshSettings cs)) = true ->
  exists w',
    openServer getText connection type w = Some (true, w')
    /\ _servers (app w') = _servers (app w) ++ [None]
    /\ length (_servers (app w')) = S (length (_servers (app w)))
    /\ serverHandles (_servers (app w')) = serverHandles (_servers (app w)).
Proof.
  intros Hp Hacc Htun.
  destruct (openServer_paths _ _ _ _ _ Hp Hacc)
    as (w' & entry & new & Hrun & Hs & _ & Hpath).
  rewrite Htun in Hpath. destruct Hpath as (-> & _).
  exists w'. split; [exact Hrun |]. split; [exact Hs |].
  rewrite Hs. split.
  - rewrite length_app. cbn [length]. lia.
  - clear. induction (_servers (app w)) as [| [s |] l IH];
      cbn [serverHandles List.app]; [reflexivity | now rewrite IH | exact IH].
Qed.

End OpenServer.

(** ** The invariant of the runs *)

Section Invariant.

Implicit Types (w : World) (h : Z) (l : list (option MongoServer.t)).

Lemma serverHandles_app l1 l2 :
  serverHandles (l1 ++ l2) = serverHandles l1 ++ serverHandles l2.
Proof.
  induction l1 as [| [s |] l1 IH]; cbn [serverHandles List.app];
    [reflexivity | now rewrite IH | exact IH].
Qed.

Lemma serverHandles_filter (f : option MongoServer.t -> bool) l :
  sublist (serverHandles (List.filter f l)) (serverHandles l).
Proof.
  induction l as [| [s |] l IH]; cbn [List.filter serverHandles].
  - constructor.
  - destruct (f (Some s)); cbn [serverHandles]; now constructor.
  - destruct (f None); cbn [serverHandles]; exact IH.
Qed.

Lemma sublist_Forall_Z (P : Z -> Prop) (k1 k2 : list Z) :
  sublist k1 k2 -> Forall P k2 -> Forall P k1.
Proof.
  induction 1 as [| x k1 k2 _ IH | x k1 k2 _ IH]; intros HF.
  - constructor.
  - inversion HF; subst. constructor; auto.
  - inversion HF; subst. auto.
Qed.

Lemma answeredHandles_app (h1 h2 : list Call) :
  answeredHandles (h1 ++ h2) = answeredHandles h1 ++ answeredHandles h2.
Proof.
  induction h1 as [| c h1 IH]; [reflexivity |].
  destruct c; cbn [List.app answeredHandles]; try exact IH.
  now rewrite IH.
Qed.

Lemma awaited_requested history h w :
  awaited history h w = true ->
  requested h w = true /\ ~ In h (answeredHandles history).
Proof.
  unfold awaited. intros [Hreq Hnot]%andb_prop. split; [exact Hreq |].
  intros Hin. apply negb_true_iff in Hnot.
  assert (Hex : existsb (Z.eqb h) (answeredHandles history) = true).
  { apply existsb_exists. exists h. split; [exact Hin | apply Z.eqb_refl]. }
  congruence.
Qed.

(** The step of the invariant: the counter does not go down, the requests
    sent carry handles taken meanwhile, and the handles of the collection
    either shrink or gain one handle whose request, if one was sent, has
    had its response. *)
Lemma consistent_next history c w w' (new : list Effect) :
  Consistent history w ->
  effectsOnly (effects w') = effectsOnly (effects w) ++ new ->
  _lastServerHandle (app w) <= _lastServerHandle (app w') <= INT_MAX ->
  (forall h, existsb (isEstablishRequestFor h) new = true ->
             _lastServerHandle (app w) < h <= _lastServerHandle (app w')) ->
  (sublist (serverHandles (_servers (app w')))
     (serverHandles (_servers (app w)))
   \/ exists h,
        serverHandles (_servers (app w'))
        = serverHandles (_servers (app w)) ++ [h]
        /\ ~ In h (serverHandles (_servers (app w)))
        /\ h <= _lastServerHandle (app w')
        /\ (requested h w' = true ->
            In h (answeredHandles (history ++ [c])))) ->
  Consistent (history ++ [c]) w'.
Proof.
  intros [Hr Hi Hd Ha Hq] He Hc Hnew Hs.
  assert (Hold : forall k,
             k <= _lastServerHandle (app w) ->
             (requested k w = true -> In k (answeredHandles history)) ->
             requested k w' = true ->
             In k (answeredHandles (history ++ [c]))).
  { intros k Hk Hp. unfold requested. rewrite He, existsb_app.
    intros [E | E]%orb_prop.
    - rewrite answeredHandles_app. apply in_or_app. left. now apply Hp.
    - apply Hnew in E. lia. }
  assert (Hboth : Forall (fun k => k <= _lastServerHandle (app w')
                                   /\ (requested k w' = true ->
                                       In k (answeredHandles (history ++ [c]))))
                    (serverHandles (_servers (app w)))).
  { clear Hs Hd. induction Hi as [| k ks Hk _ IH]; [constructor |].
    inversion Ha; subst. constructor; [| now apply IH].
    split; [lia | now apply Hold]. }
  assert (Hsplit : forall ks : list Z,
             Forall (fun k => k <= _lastServerHandle (app w')
                              /\ (requested k w' = true ->
                                  In k (answeredHandles (history ++ [c])))) ks ->
             Forall (fun k => k <= _lastServerHandle (app w')) ks
             /\ Forall (fun k => requested k w' = true ->
                                 In k (answeredHandles (history ++ [c]))) ks).
  { induction 1 as [| k ks [H1 H2] _ [IH1 IH2]]; split; constructor; auto. }
  assert (Hreq : forall k,
             existsb (isEstablishRequestFor k) (effectsOnly (effects w')) = true ->
             k <= _lastServerHandle (app w')).
  { intros k. rewrite He, existsb_app. intros [E | E]%orb_prop.
    - apply Hq in E. lia.
    - apply Hnew in E. lia. }
  destruct Hs as [Hsub | (h & Hh & Hfresh & Hle & Hpend)].
  - destruct (Hsplit _ (sublist_Forall_Z _ _ _ Hsub Hboth)) as [F1 F2].
    constructor; try assumption; [lia |].
    eapply sublist_NoDup; eassumption.
  - destruct (Hsplit _ Hboth) as [F1 F2].
    constructor; try assumption; rewrite ?Hh.
    + lia.
    + apply Forall_app. split; [exact F1 | now repeat constructor].
    + apply NoDup_app. split; [exact Hd |]. split; [| apply NoDup_singleton].
      intros x Hx Hx'. apply list_elem_of_singleton in Hx'. subst x.
      now apply Hfresh, list_elem_of_In.
    + apply Forall_app. split; [exact F2 | now repeat constructor].
Qed.

Lemma wrap_int_next c : 0 <= c < INT_MAX -> wrap_int (c + 1) = c + 1.
Proof.
  unfold wrap_int, INT_MAX. intros Hc.
  change (2 ^ 31) with 2147483648. change (2 ^ 32) with 4294967296.
  rewrite Z.mod_small by lia. lia.
Qed.

Lemma requests_announce h type :
  existsb (isEstablishRequestFor h) (announceEffects type) = false.
Proof. unfold announceEffects. now destruct (ConnectionType_eqb _ _). Qed.

Lemma requests_openedEffects h w type cs :
  existsb (isEstablishRequestFor h) (openedEffects w type cs) = true ->
  h = nextHandle w.
Proof.
  unfold openedEffects. rewrite existsb_app, requests_announce.
  destruct (tunnelRequired _ _ _); cbn [orb existsb connectEffects
                                         isEstablishRequestFor];
    [| discriminate].
  rewrite orb_false_r. now intros ->%Z.eqb_eq.
Qed.

Lemma answers_openedEffects h w type cs :
  existsb (isAnswerFor h) (openedEffects w type cs) = false.
Proof.
  unfold openedEffects, announceEffects. rewrite existsb_app.
  destruct (ConnectionType_eqb _ _), (tunnelRequired _ _ _); reflexivity.
Qed.

Lemma consistent_same history c w w' :
  Consistent history w -> app w' = app w -> effects w' = effects w ->
  Consistent (history ++ [c]) w'.
Proof.
  intros HC Happ Heff.
  pose proof (counter_range _ _ HC) as Hr.
  apply (consistent_next history c w w' [] HC).
  - now rewrite Heff, app_nil_r.
  - rewrite Happ. lia.
  - discriminate.
  - left. rewrite Happ. reflexivity.
Qed.

Lemma consistent_new settings : Consistent [] (newWorld settings).
Proof.
  constructor; cbn [newWorld newApp app effects _servers _lastServerHandle
                      serverHandles effectsOnly map existsb].
  - unfold INT_MAX. lia.
  - constructor.
  - constructor.
  - constructor.
  - discriminate.
Qed.

(** No request for the next handle has been sent. *)
Lemma next_not_requested history w :
  Consistent history w ->
  _lastServerHandle (app w) < INT_MAX ->
  existsb (isEstablishRequestFor (nextHandle w)) (effectsOnly (effects w))
  = false.
Proof.
  intros HC Hlt. pose proof (counter_range _ _ HC) as Hr.
  assert (Hn : nextHandle w = _lastServerHandle (app w) + 1)
    by (unfold nextHandle; apply wrap_int_next; lia).
  destruct (existsb _ _) eqn:E; [| reflexivity].
  apply (requests_issued _ _ HC) in E. lia.
Qed.

(** A server built with the next handle joins the collection. *)
Lemma consistent_fresh history c w w' (new : list Effect) :
  Consistent history w ->
  _lastServerHandle (app w) < INT_MAX ->
  effectsOnly (effects w') = effectsOnly (effects w) ++ new ->
  _lastServerHandle (app w') = nextHandle w ->
  (forall h, existsb (isEstablishRequestFor h) new = false) ->
  (serverHandles (_servers (app w'))
   = serverHandles (_servers (app w)) ++ [nextHandle w]
   \/ serverHandles (_servers (app w')) = serverHandles (_servers (app w))) ->
  Consistent (history ++ [c]) w'.
Proof.
  intros HC Hlt He Hc Hnew Hs.
  pose proof (counter_range _ _ HC) as Hr.
  assert (Hn : nextHandle w = _lastServerHandle (app w) + 1)
    by (unfold nextHandle; apply wrap_int_next; lia).
  apply (consistent_next history c w w' new HC He).
  - rewrite Hc, Hn. lia.
  - intros h Hh. now rewrite Hnew in Hh.
  - destruct Hs as [Hs | Hs].
    + right. exists (nextHandle w). split; [exact Hs |].
      split; [| split].
      * intros Hin. pose proof (handles_issued _ _ HC) as Hi.
        rewrite Forall_forall in Hi.
        apply list_elem_of_In, Hi in Hin. lia.
      * rewrite Hc. lia.
      * unfold requested. rewrite He, existsb_app, Hnew, orb_false_r.
        rewrite (next_not_requested _ _ HC Hlt). discriminate.
    + left. rewrite Hs. reflexivity.
Qed.

Lemma consistent_outcome history w c w' :
  Consistent history w -> admissible history w c -> Outcome w c w' ->
  Consistent (history ++ [c]) w'.
Proof.
  intros HC Hadm Hout.
  pose proof (counter_range _ _ HC) as Hr.
  destruct Hout.
  - (* a prompt declined *)
    now apply (consistent_same history _ w).
  - (* a server opened *)
    cbn [admissible] in Hadm.
    assert (Hn : nextHandle w = _lastServerHandle (app w) + 1)
      by (unfold nextHandle; apply wrap_int_next; lia).
    apply (consistent_next history _ w _
             (openedEffects (withSettings connection c2 w) type c2) HC).
    + cbn [registered openedWorld effects withSettings].
      now rewrite effectsOnly_app, effectsOnly_stamp.
    + cbn [registered openedWorld app _lastServerHandle].
      change (nextHandle (withSettings connection c2 w)) with (nextHandle w).
      lia.
    + intros h Hh%requests_openedEffects.
      cbn [registered openedWorld app _lastServerHandle].
      change (nextHandle (withSettings connection c2 w)) with (nextHandle w)
        in *.
      lia.
    + cbn [registered openedWorld app _servers withSettings].
      rewrite serverHandles_app. unfold openedServer.
      destruct (tunnelRequired _ _ _) eqn:Htun.
      * left. cbn [serverHandles]. rewrite app_nil_r. reflexivity.
      * right. exists (nextHandle w). split; [reflexivity |].
        split; [| split].
        -- intros Hin. pose proof (handles_issued _ _ HC) as Hi.
           rewrite Forall_forall in Hi.
           apply list_elem_of_In, Hi in Hin. lia.
        -- cbn [_lastServerHandle].
           change (nextHandle (withSettings connection c2 w))
             with (nextHandle w). lia.
        -- unfold requested.
           cbn [registered openedWorld effects withSettings].
           rewrite effectsOnly_app, effectsOnly_stamp, existsb_app.
           rewrite (next_not_requested _ _ HC Hadm). cbn [orb].
           unfold openedEffects.
           rewrite Htun, existsb_app, requests_announce.
           discriminate.
  - (* closeServer *)
    apply (consistent_next history _ w _ [] HC).
    + cbn [serverClosed effects]. now rewrite app_nil_r.
    + cbn [serverClosed app _lastServerHandle]. lia.
    + discriminate.
    + left. cbn [serverClosed app _servers]. apply serverHandles_filter.
  - (* a shell opened *)
    cbn [admissible] in Hadm.
    apply (consistent_fresh history _ w _
             (openedEffects w ConnectionSecondary cs
              ++ shellEffects w srv scriptInfo) HC Hadm).
    + cbn [shellOpened effects].
      now rewrite effectsOnly_app, effectsOnly_stamp.
    + reflexivity.
    + intros h. rewrite existsb_app.
      destruct (existsb (isEstablishRequestFor h)
                  (openedEffects w ConnectionSecondary cs)) eqn:E;
        [| reflexivity].
      revert E. unfold openedEffects. cbn [tunnelRequired announceEffects
        ConnectionType_eqb List.app connectEffects existsb
        isEstablishRequestFor orb]. discriminate.
    + left. cbn [shellOpened app _servers].
      now rewrite serverHandles_app.
  - (* a shell not opened *)
    cbn [admissible] in Hadm.
    apply (consistent_fresh history _ w _
             (openedEffects w ConnectionSecondary cs) HC Hadm).
    + cbn [openedWorld effects].
      now rewrite effectsOnly_app, effectsOnly_stamp.
    + reflexivity.
    + intros h. reflexivity.
    + now right.
  - (* a shell opened from a collection, a server or a database *)
    assert (Hadm' : _lastServerHandle (app w) < INT_MAX)
      by (destruct c; try discriminate; exact Hadm).
    set (w1 := withSettings (MongoServer.connectionRecord srv) c' w).
    apply (consistent_fresh history _ w _
             (openedEffects w1 ConnectionSecondary c'
              ++ shellEffects w1 srv scriptInfo) HC Hadm').
    + cbn [shellOpened effects w1 withSettings].
      now rewrite effectsOnly_app, effectsOnly_stamp.
    + reflexivity.
    + intros h. reflexivity.
    + left. cbn [shellOpened app _servers w1 withSettings].
      now rewrite serverHandles_app.
  - (* closeShell, no such shell *)
    now apply (consistent_same history _ w).
  - (* closeShell *)
    apply (consistent_next history _ w _ [] HC).
    + cbn [shellErased serverClosed effects]. now rewrite app_nil_r.
    + cbn [shellErased serverClosed app _lastServerHandle]. lia.
    + discriminate.
    + left. cbn [shellErased serverClosed app _servers].
      apply serverHandles_filter.
  - (* a failure published *)
    apply (consistent_next history _ w _
             [Publish (ConnectionFailedEvent serverHandle type errormsg reason)]
             HC).
    + cbn [emitted effects]. now rewrite effectsOnly_app, effectsOnly_stamp.
    + cbn [emitted app]. lia.
    + discriminate.
    + left. reflexivity.
  - (* the tunnel failed *)
    apply (consistent_next history _ w _
             [Publish (ConnectionFailedEvent (est_serverHandle event)
                         (est_connectionType event) errorMessage SshConnection)]
             HC).
    + cbn [emitted effects]. now rewrite effectsOnly_app, effectsOnly_stamp.
    + cbn [emitted app]. lia.
    + discriminate.
    + left. reflexivity.
  - (* the tunnel is up *)
    cbn [admissible] in Hadm. specialize (Hadm H).
    apply awaited_requested in Hadm as [Hreq Hnot].
    set (new := [LogMsg "SSH tunnel created successfully" Info]
                ++ connectEffects w (est_serverHandle event)
                     (est_connectionType event) cs
                ++ [Send (est_worker event)
                      (ListenSshConnectionRequest (est_serverHandle event)
                         (est_connectionType event))]).
    apply (consistent_next history _ w _ new HC).
    + cbn [tunnelEstablished effects].
      now rewrite effectsOnly_app, effectsOnly_stamp.
    + cbn [tunnelEstablished app _lastServerHandle]. lia.
    + discriminate.
    + right. exists (est_serverHandle event).
      cbn [tunnelEstablished app _servers _lastServerHandle].
      rewrite serverHandles_app. split; [reflexivity |].
      split; [| split].
      * intros Hin. pose proof (handles_answered _ _ HC) as Ha.
        rewrite Forall_forall in Ha.
        apply list_elem_of_In in Hin. apply Hnot. exact (Ha _ Hin Hreq).
      * now apply (requests_issued _ _ HC).
      * intros _. rewrite answeredHandles_app. apply in_or_app. right.
        now left.
  - (* the tunnel is closed *)
    apply (consistent_next history _ w _ [listenEffect event] HC).
    + cbn [emitted effects]. now rewrite effectsOnly_app, effectsOnly_stamp.
    + cbn [emitted app]. lia.
    + unfold listenEffect. now destruct (lis_error event).
    + left. reflexivity.
Qed.

Lemma consistent_session settings history w :
  session settings history w -> Consistent history w.
Proof.
  induction 1 as [| history w c w' _ IH Hadm Hstep]; [apply consistent_new |].
  eapply consistent_outcome; [exact IH | exact Hadm |].
  now apply step_outcome.
Qed.

End Invariant.

(** ** What a call adds *)

Section Deltas.

Implicit Types (w : World) (c : Call).

Lemma issued_openedEffects w type cs :
  issuedHandles (openedEffects w type cs) = [nextHandle w].
Proof.
  unfold openedEffects, announceEffects.
  destruct (ConnectionType_eqb _ _), (tunnelRequired _ _ _); reflexivity.
Qed.

Lemma issuedHandles_app (l1 l2 : list Effect) :
  issuedHandles (l1 ++ l2) = issuedHandles l1 ++ issuedHandles l2.
Proof.
  induction l1 as [| e l1 IH]; [reflexivity |].
  destruct e as [| ? r | | | | |]; try exact IH.
  - destruct r; [| exact IH]. cbn [issuedHandles List.app]. now rewrite IH.
  - cbn [issuedHandles List.app]. now rewrite IH.
Qed.

Lemma handed_openedEffects w type cs :
  Forall (fun e => Forall (fun p => (length (heap w) <= p)%nat)
                     (handedSettings e)) (openedEffects w type cs).
Proof.
  unfold openedEffects, announceEffects, connectEffects.
  destruct (ConnectionType_eqb _ _), (tunnelRequired _ _ _);
    cbn [List.app]; repeat constructor.
Qed.

Lemma sublist_snoc_Z (l : list Z) (x : Z) : sublist l (l ++ [x]).
Proof.
  induction l as [| y l IH]; cbn [List.app]; repeat constructor. exact IH.
Qed.

Lemma sublist_refl_Z (l : list Z) : sublist l l.
Proof. induction l; constructor; assumption. Qed.

Lemma outcome_delta w c w' : Outcome w c w' -> exists new, Delta w c w' new.
Proof.
  intros Hout. destruct Hout.
  - (* a prompt declined *)
    exists []. constructor.
    + cbn [withSettings effects stamp map]. now rewrite app_nil_r.
    + cbn [withSettings heap]. now rewrite length_insert.
    + constructor.
    + left. repeat split; try reflexivity; discriminate.
    + cbn [withSettings app issuedHandles]. rewrite app_nil_r.
      apply sublist_refl_Z.
  - (* a server opened *)
    exists (openedEffects (withSettings connection c2 w) type c2).
    constructor.
    + reflexivity.
    + cbn [registered openedWorld withSettings heap].
      rewrite length_app, length_insert. lia.
    + pose proof (handed_openedEffects (withSettings connection c2 w) type c2)
        as Hh.
      cbn [withSettings heap] in Hh. now rewrite length_insert in Hh.
    + right. left. rewrite issued_openedEffects. repeat split.
    + rewrite issued_openedEffects.
      cbn [registered openedWorld app _servers withSettings].
      rewrite serverHandles_app. unfold openedServer.
      destruct (tunnelRequired _ _ _); cbn [serverHandles].
      * rewrite app_nil_r. apply sublist_snoc_Z.
      * apply sublist_refl_Z.
  - (* closeServer *)
    exists []. constructor.
    + cbn [serverClosed effects stamp map]. now rewrite app_nil_r.
    + reflexivity.
    + constructor.
    + left. repeat split; try reflexivity; discriminate.
    + cbn [serverClosed app _servers issuedHandles]. rewrite app_nil_r.
      apply serverHandles_filter.
  - (* a shell opened *)
    exists (openedEffects w ConnectionSecondary cs
            ++ shellEffects w srv scriptInfo).
    constructor.
    + reflexivity.
    + cbn [shellOpened heap]. rewrite length_app. lia.
    + apply Forall_app. split; [apply handed_openedEffects |].
      unfold shellEffects. repeat constructor.
    + right. left. rewrite issuedHandles_app, issued_openedEffects.
      repeat split.
    + rewrite issuedHandles_app, issued_openedEffects.
      cbn [shellOpened app _servers shellEffects issuedHandles].
      rewrite serverHandles_app, app_nil_r. apply sublist_refl_Z.
  - (* a shell not opened *)
    exists (openedEffects w ConnectionSecondary cs). constructor.
    + reflexivity.
    + cbn [openedWorld heap]. rewrite length_app. lia.
    + apply handed_openedEffects.
    + right. left. rewrite issued_openedEffects. repeat split.
    + rewrite issued_openedEffects. cbn [openedWorld app _servers].
      apply sublist_snoc_Z.
  - (* a shell opened from a collection, a server or a database *)
    set (w1 := withSettings (MongoServer.connectionRecord srv) c' w).
    exists (openedEffects w1 ConnectionSecondary c'
            ++ shellEffects w1 srv scriptInfo).
    constructor.
    + reflexivity.
    + cbn [shellOpened heap w1 withSettings].
      rewrite length_app, length_insert. lia.
    + assert (Hl : length (heap w1) = length (heap w))
        by (cbn [w1 withSettings heap]; apply length_insert).
      rewrite <- Hl.
      apply Forall_app. split; [apply handed_openedEffects |].
      unfold shellEffects. repeat constructor.
    + right. left. rewrite issuedHandles_app, issued_openedEffects.
      split; [reflexivity |]. split; [reflexivity |].
      destruct c; try discriminate; reflexivity.
    + rewrite issuedHandles_app, issued_openedEffects.
      cbn [shellOpened app _servers shellEffects issuedHandles w1 withSettings].
      rewrite serverHandles_app, app_nil_r. apply sublist_refl_Z.
  - (* closeShell, no such shell *)
    exists []. constructor.
    + cbn [stamp map]. now rewrite app_nil_r.
    + reflexivity.
    + constructor.
    + left. repeat split; try reflexivity; discriminate.
    + cbn [issuedHandles]. rewrite app_nil_r. apply sublist_refl_Z.
  - (* closeShell *)
    exists []. constructor.
    + cbn [shellErased serverClosed effects stamp map]. now rewrite app_nil_r.
    + reflexivity.
    + constructor.
    + left. repeat split; try reflexivity; discriminate.
    + cbn [shellErased serverClosed app _servers issuedHandles].
      rewrite app_nil_r. apply serverHandles_filter.
  - (* a failure published *)
    eexists. constructor.
    + reflexivity.
    + reflexivity.
    + repeat constructor.
    + left. repeat split; try reflexivity; discriminate.
    + cbn [emitted app issuedHandles]. rewrite app_nil_r.
      apply sublist_refl_Z.
  - (* the tunnel failed *)
    eexists. constructor.
    + reflexivity.
    + reflexivity.
    + repeat constructor.
    + left. repeat split; try reflexivity; discriminate.
    + cbn [emitted app issuedHandles]. rewrite app_nil_r.
      apply sublist_refl_Z.
  - (* the tunnel is up *)
    eexists. constructor.
    + reflexivity.
    + cbn [tunnelEstablished heap]. rewrite length_app. lia.
    + unfold connectEffects. cbn [List.app]. repeat constructor.
    + right. right. exists event. repeat split. exact H.
    + cbn [tunnelEstablished app _servers]. rewrite serverHandles_app.
      apply sublist_refl_Z.
  - (* the tunnel is closed *)
    eexists. constructor.
    + reflexivity.
    + reflexivity.
    + unfold listenEffect. destruct (lis_error event); repeat constructor.
    + left. unfold listenEffect.
      destruct (lis_error event); repeat split; discriminate.
    + cbn [emitted app]. unfold listenEffect.
      destruct (lis_error event); cbn [issuedHandles]; rewrite app_nil_r;
        apply sublist_refl_Z.
Qed.

End Deltas.

(** ** Tunnel responses *)

Section Tunnel.

Implicit Types (w : World) (h : Z).

Lemma sublist_In_Z (k1 k2 : list Z) x : sublist k1 k2 -> In x k1 -> In x k2.
Proof.
  intros Hs Hx. apply list_elem_of_In.
  eapply elem_of_sublist; [| exact Hs]. now apply list_elem_of_In.
Qed.

Lemma abandoned_step h base w c w' :
  Abandoned h base w -> undisturbed h w c -> step c w = Some (tt, w') ->
  Abandoned h base w'.
Proof.
  intros (Hr & Hans & Hle & Hnot & later & Hlater & Hiss) [Hroom Hnoth] Hstep.
  pose proof (step_outcome _ _ _ Hstep) as Hout.
  destruct (outcome_delta _ _ _ Hout) as [new [He _ _ Hi Hsub]].
  assert (Heo : effectsOnly (effects w') = effectsOnly (effects w) ++ new)
    by (now rewrite He, effectsOnly_app, effectsOnly_stamp).
  assert (Hnew : ~ In h (issuedHandles new)
                 /\ h <= _lastServerHandle (app w')
                 /\ 0 <= _lastServerHandle (app w') <= INT_MAX).
  { destruct Hi as [(-> & -> & _) | [(-> & -> & Ht) | (ev & -> & Hok & -> & ->)]].
    - split; [intros [] |]. split; [exact Hle | exact Hr].
    - specialize (Hroom Ht).
      assert (Hn : nextHandle w = _lastServerHandle (app w) + 1)
        by (unfold nextHandle; apply wrap_int_next; lia).
      rewrite Hn. split; [intros [Heq | []]; lia | lia].
    - split; [| split; [exact Hle | exact Hr]]. intros [Heq | []].
      now apply (Hnoth ev eq_refl Hok). }
  destruct Hnew as (Hnew & Hle' & Hr').
  split; [exact Hr' |]. split; [| split; [exact Hle' | split]].
  - rewrite Heo, existsb_app, Hans. reflexivity.
  - intros Hin. apply (sublist_In_Z _ _ _ Hsub) in Hin.
    apply in_app_or in Hin as [Hin | Hin]; contradiction.
  - exists (later ++ new). split.
    + now rewrite Heo, Hlater, app_assoc.
    + rewrite issuedHandles_app. intros Hin.
      apply in_app_or in Hin as [Hin | Hin]; contradiction.
Qed.

Lemma abandoned_runsWithout h base w w' :
  Abandoned h base w -> runsWithout h w w' -> Abandoned h base w'.
Proof.
  intros HA. induction 1 as [| w1 c w2 _ IH Hadm Hstep]; [exact HA |].
  eapply abandoned_step; eassumption.
Qed.

(** C8, as amended.  In a session, for a tunnel-backed open with handle
    [h] whose request is awaited (it was sent, and no establish response
    for [h] has been handled), the response that carries an error publishes
    exactly one [ConnectionFailed] event with reason [SshConnection],
    holding the handle, the type and the message, and changes nothing else;
    from then on, whatever is called and whatever response arrives, short
    of a successful response for [h] itself and of a counter out of the
    range of [int], no server with handle [h] is in the server collection,
    the open is pending no more and no effect hands out [h] again.  The
    successful response for [h] is left out because the orchestrator keeps
    no record of the failure: handled after the error, it adds a server
    with handle [h]. *)
Theorem establish_error_abandons_open settings history w event errorMessage :
  session settings history w ->
  awaited history (est_serverHandle event) w = true ->
  est_error event = Some errorMessage ->
  exists w1,
    handle_EstablishSshConnectionResponse event w = Some (tt, w1)
    /\ effectsOnly (effects w1)
       = effectsOnly (effects w)
         ++ [Publish (ConnectionFailedEvent (est_serverHandle event)
                        (est_connectionType event) errorMessage SshConnection)]
    /\ app w1 = app w
    /\ heap w1 = heap w
    /\ forall w2,
         runsWithout (est_serverHandle event) w1 w2 ->
         ~ In (est_serverHandle event) (serverHandles (_servers (app w2)))
         /\ pending (est_serverHandle event) w2 = false
         /\ exists later,
              effectsOnly (effects w2) = effectsOnly (effects w1) ++ later
              /\ ~ In (est_serverHandle event) (issuedHandles later).
Proof.
  intros Hreach Hpend Herr.
  pose proof (consistent_session _ _ _ Hreach) as HC.
  apply awaited_requested in Hpend as [Hreq Hnone].
  rewrite (handle_Establish_error_run _ _ errorMessage) by exact Herr.
  eexists. split; [reflexivity |].
  assert (Heo : effectsOnly
                  (effects
                     (emitted
                        [Publish (ConnectionFailedEvent (est_serverHandle event)
                                    (est_connectionType event) errorMessage
                                    SshConnection)] w))
                = effectsOnly (effects w)
                  ++ [Publish (ConnectionFailedEvent (est_serverHandle event)
                                 (est_connectionType event) errorMessage
                                 SshConnection)])
    by (cbn [emitted effects]; now rewrite effectsOnly_app, effectsOnly_stamp).
  split; [exact Heo |]. split; [reflexivity |]. split; [reflexivity |].
  intros w2 Hrun.
  assert (HA : Abandoned (est_serverHandle event)
                 (effectsOnly (effects w)
                  ++ [Publish (ConnectionFailedEvent (est_serverHandle event)
                                 (est_connectionType event) errorMessage
                                 SshConnection)])
                 (emitted
                    [Publish (ConnectionFailedEvent (est_serverHandle event)
                                (est_connectionType event) errorMessage
                                SshConnection)] w)).
  { split; [| split; [| split; [| split]]].
    - cbn [emitted app]. apply (counter_range _ _ HC).
    - rewrite Heo, existsb_app. cbn [existsb isAnswerFor].
      rewrite Z.eqb_refl. apply orb_true_r.
    - cbn [emitted app]. now apply (requests_issued _ _ HC).
    - cbn [emitted app]. intros Hin.
      pose proof (handles_answered _ _ HC) as Ha. rewrite Forall_forall in Ha.
      apply list_elem_of_In in Hin. apply Hnone. exact (Ha _ Hin Hreq).
    - exists []. split; [now rewrite app_nil_r | intros []]. }
  destruct (abandoned_runsWithout _ _ _ _ HA Hrun)
    as (_ & Hans & _ & Hnot & later & Hlater & Hiss).
  split; [exact Hnot |]. split.
  - unfold pending, pendingIn. rewrite Hans. apply andb_false_r.
  - exists later. split; [| exact Hiss]. now rewrite Heo.
Qed.

(** C2, as amended.  In every session, that is in every world reached
    from a new [App] by calls within the range of [int] and by tunnel
    responses of which each successful establish response answers an
    awaited request (one that was sent and for which no establish response
    has been handled; a failure published through
    [fireConnectionFailedEvent] is no response), the servers of the
    collection carry pairwise distinct handles.  A listen response and an
    establish response with an error never change the server collection,
    whatever handle they carry.  A successful establish response that
    names a settings object always appends one server carrying the handle
    of the response: the orchestrator keeps no record of the pending opens
    and does not look the handle up. *)
Theorem reachable_handles_distinct settings history w :
  session settings history w ->
  NoDup (serverHandles (_servers (app w)))
  /\ (forall event,
        exists w',
          handle_ListenSshConnectionResponse event w = Some (tt, w')
          /\ _servers (app w') = _servers (app w))
  /\ (forall event errorMessage,
        est_error event = Some errorMessage ->
        exists w',
          handle_EstablishSshConnectionResponse event w = Some (tt, w')
          /\ _servers (app w') = _servers (app w))
  /\ (forall event cs,
        est_error event = None ->
        heap w !! est_settings event = Some cs ->
        exists w' server,
          handle_EstablishSshConnectionResponse event w = Some (tt, w')
          /\ _servers (app w') = _servers (app w) ++ [Some server]
          /\ MongoServer.serverHandle server = est_serverHandle event).
Proof.
  intros Hreach. split; [| split; [| split]].
  - apply (handles_distinct history). now apply consistent_session with settings.
  - intros event. rewrite handle_Listen_run. eexists. now split.
  - intros event msg Herr.
    rewrite (handle_Establish_error_run _ _ msg) by exact Herr.
    eexists. now split.
  - intros event cs Hok Hp.
    rewrite (handle_Establish_success_run _ _ cs) by assumption.
    eexists. eexists. split; [reflexivity |]. now split.
Qed.

(** C9. Once a successful establish response for handle [h] is handled,
    which registers one server with handle [h], a listen response for [h]
    handled in any later world leaves the collections, the counter and the
    settings as they are and issues exactly one effect: with an error the
    [ConnectionFailed] event with reason [SshChannel], without one the log
    message that the tunnel is closed; no server is built or started and
    nothing is sent. *)
Theorem listen_response_keeps_registration w event listen cs :
  est_error event = None ->
  heap w !! est_settings event = Some cs ->
  lis_serverHandle listen = est_serverHandle event ->
  exists w1 server,
    handle_EstablishSshConnectionResponse event w = Some (tt, w1)
    /\ _servers (app w1) = _servers (app w) ++ [Some server]
    /\ MongoServer.serverHandle server = est_serverHandle event
    /\ forall w2,
         exists w3,
           handle_ListenSshConnectionResponse listen w2 = Some (tt, w3)
           /\ app w3 = app w2
           /\ heap w3 = heap w2
           /\ nextAddress w3 = nextAddress w2
           /\ effectsOnly (effects w3)
              = effectsOnly (effects w2)
                ++ [match lis_error listen with
                    | Some errorMessage =>
                        Publish (ConnectionFailedEvent (est_serverHandle event)
                                   (lis_connectionType listen) errorMessage
                                   SshChannel)
                    | None => LogMsg "SSH tunnel closed." Error
                    end].
Proof.
  intros Hok Hp Hh.
  rewrite (handle_Establish_success_run _ _ cs) by assumption.
  eexists. eexists. split; [reflexivity |]. split; [reflexivity |].
  split; [reflexivity |].
  intros w2. rewrite handle_Listen_run. eexists. split; [reflexivity |].
  split; [reflexivity |]. split; [reflexivity |]. split; [reflexivity |].
  cbn [emitted effects]. rewrite effectsOnly_app, effectsOnly_stamp.
  unfold listenEffect. now rewrite Hh.
Qed.

End Tunnel.

(** ** Settings objects and shells *)

Section Settings.

Implicit Types (w : World) (q p : SettingsPtr).

(** An object that was there is still there when objects are added. *)
Lemma frame_added (h extra : list ConnectionSettings.t) q original :
  h !! q = Some original -> (h ++ extra) !! q = Some original.
Proof. apply lookup_app_l_Some. Qed.

(** Writing the object at [p] changes that object only. *)
Lemma frame_written (h extra : list ConnectionSettings.t) p q cs c1 original :
  h !! p = Some cs ->
  h !! q = Some original ->
  exists current,
    (<[p := c1]> h ++ extra) !! q = Some current
    /\ ((q = p /\ original = cs /\ current = c1)
        \/ (q <> p /\ current = original)).
Proof.
  intros Hp Hq. destruct (Nat.eq_dec q p) as [-> | Hne].
  - exists c1. split.
    + apply lookup_app_l_Some, list_lookup_insert_eq.
      now apply lookup_lt_Some with (x := cs).
    + left. split; [reflexivity |]. split; [congruence | reflexivity].
  - exists original. split.
    + apply lookup_app_l_Some. rewrite list_lookup_insert_ne by congruence.
      exact Hq.
    + now right.
Qed.

Lemma eraseDefaultDatabase_set name cs :
  eraseDefaultDatabase (ConnectionSettings.setDefaultDatabase name cs)
  = eraseDefaultDatabase cs.
Proof. reflexivity. Qed.

Lemma eraseDefaultDatabase_with name cs :
  eraseDefaultDatabase (withDefaultDatabase name cs) = eraseDefaultDatabase cs.
Proof.
  unfold withDefaultDatabase. now destruct (String.eqb name "").
Qed.

(** What opening a shell on the record [p], given the settings [c'], leaves
    of an object that was there. *)
Lemma shellOpened_frame w srv p cs c' scriptInfo q original :
  heap w !! p = Some cs ->
  eraseDefaultDatabase c' = eraseDefaultDatabase cs ->
  heap w !! q = Some original ->
  exists current,
    heap (shellOpened (withSettings p c' w) srv c' scriptInfo) !! q
    = Some current
    /\ eraseDefaultDatabase current = eraseDefaultDatabase original
    /\ (Some p <> Some q -> current = original).
Proof.
  intros Hp He Hq.
  destruct (frame_written (heap w) [c'] p q cs c' original Hp Hq)
    as (current & Hcur & Hcase).
  exists current. split; [exact Hcur |].
  destruct Hcase as [(-> & -> & ->) | (Hne & ->)].
  - split; [exact He |]. intros Hdiff. now contradiction Hdiff.
  - split; reflexivity.
Qed.

(** The three overloads of [openShell] change the record of the server
    they start from, in its default database, and no other object. *)
Lemma overload_frame w c w' :
  isShellOverload c = true ->
  step c w = Some (tt, w') ->
  forall q original,
    heap w !! q = Some original ->
    exists current,
      heap w' !! q = Some current /\ allowedChange c q original current.
Proof.
  intros Hover Hstep q original Hq.
  destruct c; try discriminate; cbn [step] in Hstep;
    cbn [allowedChange]; unfold startRecord; cbn [startServer].
  - (* from a collection *)
    destruct collection as [coll |]; [| discriminate].
    destruct (MongoCollection.database coll) as [db |] eqn:Hdb;
      [| unfold openShell_collection, bind, derefObject, ret in Hstep;
         now rewrite Hdb in Hstep].
    destruct (MongoDatabase.server db) as [srv |] eqn:Hsrv;
      [| unfold openShell_collection, bind, derefObject, ret in Hstep;
         now rewrite Hdb, Hsrv in Hstep].
    destruct (heap w !! MongoServer.connectionRecord srv) as [cs |] eqn:Hp.
    + rewrite (openShell_collection_run w coll db srv cs _ Hdb Hsrv Hp)
        in Hstep.
      injection Hstep as <-.
      now apply shellOpened_frame with (cs := cs).
    + unfold openShell_collection, bind, derefObject, ret, update in Hstep.
      now rewrite Hdb, Hsrv, Hp in Hstep.
  - (* from a server *)
    destruct server as [srv |]; [| discriminate].
    destruct (heap w !! MongoServer.connectionRecord srv) as [cs |] eqn:Hp.
    + rewrite (openShell_server_run w srv cs _ _ _ _ _ _ Hp) in Hstep.
      injection Hstep as <-.
      apply shellOpened_frame with (cs := cs);
        [exact Hp | apply eraseDefaultDatabase_with | exact Hq].
    + exfalso. revert Hstep. unfold openShell_server.
      unfold bind at 1. unfold derefObject at 1, ret at 1.
      unfold bind at 1.
      destruct (negb (_ =? "")%string).
      * unfold update. now rewrite Hp.
      * unfold ret at 1. now rewrite openShell_invalid.
  - (* from a database *)
    destruct database as [db |]; [| discriminate].
    destruct (MongoDatabase.server db) as [srv |] eqn:Hsrv;
      [| unfold openShell_database, bind, derefObject, ret in Hstep;
         now rewrite Hsrv in Hstep].
    destruct (heap w !! MongoServer.connectionRecord srv) as [cs |] eqn:Hp.
    + rewrite (openShell_database_run w db srv cs _ _ _ _ _ Hsrv Hp)
        in Hstep.
      injection Hstep as <-.
      now apply shellOpened_frame with (cs := cs).
    + unfold openShell_database, bind, derefObject, ret, update in Hstep.
      now rewrite Hsrv, Hp in Hstep.
Qed.

Lemma outcome_frame w c w' :
  Outcome w c w' ->
  isShellOverload c = false ->
  forall q original,
    heap w !! q = Some original ->
    exists current,
      heap w' !! q = Some current /\ allowedChange c q original current.
Proof.
  intros Hout Hno q original Hq. destruct Hout.
  - (* a prompt declined *)
    destruct (frame_written (heap w) [] connection q cs c1 original H Hq)
      as (current & Hcur & Hcase).
    rewrite app_nil_r in Hcur. exists current. split; [exact Hcur |].
    cbn [allowedChange].
    destruct Hcase as [(-> & -> & ->) | (Hne & ->)]; split; congruence.
  - (* a server opened *)
    destruct (frame_written (heap w) [c2] connection q cs c2 original H Hq)
      as (current & Hcur & Hcase).
    exists current. split; [exact Hcur |]. cbn [allowedChange].
    destruct Hcase as [(-> & -> & ->) | (Hne & ->)]; split; congruence.
  - exists original. now split.
  - exists original. split; [now apply frame_added | reflexivity].
  - exists original. split; [now apply frame_added | reflexivity].
  - (* a shell opened from a collection, a server or a database *)
    congruence.
  - exists original. now split.
  - exists original. now split.
  - exists original. now split.
  - exists original. now split.
  - exists original. split; [now apply frame_added | reflexivity].
  - exists original. now split.
Qed.

(** C6, as amended.  A call never replaces a settings object that was
    there before it by another: [openServer] only stores the prompted
    secrets (the asked SSH password, the PEM passphrase) in the object it
    is given and leaves every other object as it is, the three overloads of
    [openShell] only set the default database of the record of the server
    they start from and leave every other object as it is, and every other
    call, the primitive [openShell] and the handlers of the tunnel
    responses included, leaves every such object as it is.  Every settings
    pointer handed to a server, a shell or the tunnel worker during the
    call points to an object made during the call, a clone; the rewrite of
    host and port to the local end of the tunnel is made on such a
    clone. *)
Theorem settings_cloned_before_use w c w' :
  step c w = Some (tt, w') ->
  (forall q original,
      heap w !! q = Some original ->
      exists current,
        heap w' !! q = Some current /\ allowedChange c q original current)
  /\ (exists new,
         effectsOnly (effects w') = effectsOnly (effects w) ++ new
         /\ Forall (fun e => Forall (fun p => (length (heap w) <= p)%nat)
                               (handedSettings e)) new)
  /\ (forall event cs,
         c = DeliverEstablish event ->
         est_error event = None ->
         heap w !! est_settings event = Some cs ->
         heap w'
         = heap w ++ [tunnelRewrite (est_connectionType event)
                        (est_localport event) cs]).
Proof.
  intros Hstep. pose proof (step_outcome _ _ _ Hstep) as Hout.
  split; [| split].
  - destruct (isShellOverload c) eqn:Hover.
    + now apply overload_frame.
    + now apply outcome_frame.
  - destruct (outcome_delta _ _ _ Hout) as [new [He _ Hh _ _]].
    exists new. split; [| exact Hh].
    now rewrite He, effectsOnly_app, effectsOnly_stamp.
  - intros event cs -> Hok Hp. cbn [step] in Hstep.
    rewrite (handle_Establish_success_run _ _ cs) in Hstep by assumption.
    now inversion Hstep.
Qed.

(** C10, as amended.  The Secondary server [openShell] opens is never
    null.  When the server the shell is opened from is null, [openShell]
    registers no shell and no server, subscribes nothing, publishes no
    event and runs no shell, and the two collections are as before; but
    by then it has taken a new handle and has built and started the
    Secondary server on a clone of the settings, which it drops. *)
Theorem openShell_null_server w connection scriptInfo cs :
  heap w !! connection = Some cs ->
  (exists server w1,
      openServerInternal connection ConnectionSecondary w
      = Some (Some server, w1))
  /\ exists w',
       openShell None connection scriptInfo w = Some (tt, w')
       /\ _servers (app w') = _servers (app w)
       /\ _shells (app w') = _shells (app w)
       /\ _lastServerHandle (app w') = nextHandle w
       /\ effectsOnly (effects w')
          = effectsOnly (effects w)
            ++ connectEffects w (nextHandle w) ConnectionSecondary cs
       /\ existsb isBusOrShellEffect
            (connectEffects w (nextHandle w) ConnectionSecondary cs) = false.
Proof.
  intros Hp. split.
  - rewrite (openServerInternal_run _ _ _ cs) by exact Hp.
    unfold openedServer. cbn [tunnelRequired]. eexists. eexists. reflexivity.
  - rewrite (openShell_run _ _ _ _ cs) by exact Hp.
    eexists. split; [reflexivity |].
    split; [reflexivity |]. split; [reflexivity |]. split; [reflexivity |].
    split; [| reflexivity].
    cbn [openedWorld effects]. now rewrite effectsOnly_app, effectsOnly_stamp.
Qed.

End Settings.

(** ** Handles *)

Section Handles.

Implicit Types (w : World).

Lemma openServer_returns w getText connection type cs :
  heap w !! connection = Some cs ->
  exists w', step (CallOpenServer getText connection type) w = Some (tt, w').
Proof.
  intros Hp. cbn [step]. unfold bind at 1.
  rewrite (openServer_run _ _ _ _ cs) by exact Hp.
  destruct (afterSshPrompt getText type cs) as [c1 |]; [| eexists; reflexivity].
  destruct (afterSslPrompt getText type c1); eexists; reflexivity.
Qed.

Lemma issuedHandles_In (e : Effect) (l : list Effect) k :
  In e l -> In k (issuedHandles [e]) -> In k (issuedHandles l).
Proof.
  intros He Hk. apply in_split in He as (l1 & l2 & ->).
  rewrite issuedHandles_app.
  change (e :: l2) with ([e] ++ l2). rewrite issuedHandles_app.
  apply in_or_app. right. apply in_or_app. now left.
Qed.

Lemma stamp_In h (l : list Effect) se :
  In se (stamp h l) -> fst se = h /\ In (snd se) l.
Proof.
  unfold stamp. intros (e & <- & He)%in_map_iff. now split.
Qed.

(** The prompts read nothing of the secrets they store. *)
Lemma credentialDeclined_eraseSecrets getText type c d :
  eraseSecrets c = eraseSecrets d ->
  credentialDeclined getText type c = credentialDeclined getText type d.
Proof.
  intros H.
  assert (He : forall x,
             credentialDeclined getText type x
             = credentialDeclined getText type (eraseSecrets x)).
  { intros [n host port d0 r rs [e a m sh sp u k pw] [se pf ap pk pp]].
    reflexivity. }
  now rewrite (He c), (He d), H.
Qed.

(** One call of [openServer] on a settings object that is there: declined,
    it emits nothing and leaves the counter; accepted, it takes the next
    handle and every effect it emits is issued under that handle. *)
Lemma openServer_call w getText connection type cs :
  heap w !! connection = Some cs ->
  exists w1 new1,
    step (CallOpenServer getText connection type) w = Some (tt, w1)
    /\ effects w1 = effects w ++ stamp (_lastServerHandle (app w1)) new1
    /\ if credentialDeclined getText type cs
       then new1 = []
            /\ _lastServerHandle (app w1) = _lastServerHandle (app w)
       else issuedHandles new1 = [nextHandle w]
            /\ _lastServerHandle (app w1) = nextHandle w.
Proof.
  intros Hp. cbn [step]. unfold bind at 1.
  rewrite (openServer_run _ _ _ _ cs) by exact Hp.
  destruct (credentialDeclined getText type cs) eqn:Hd.
  - destruct (prompts_declined _ _ _ Hd) as [H1 | (c1 & H1 & H2)].
    + rewrite H1. exists w, []. split; [reflexivity |].
      split; [cbn [stamp map]; now rewrite app_nil_r | now split].
    + rewrite H1, H2. exists (withSettings connection c1 w), [].
      split; [reflexivity |].
      split; [cbn [stamp map withSettings effects]; now rewrite app_nil_r
             | now split].
  - destruct (prompts_accepted _ _ _ Hd) as (c2 & (c1 & H1 & H2) & _).
    rewrite H1, H2.
    exists (registered (openedServer (withSettings connection c2 w) type c2)
              (openedWorld (withSettings connection c2 w) type c2)),
      (openedEffects (withSettings connection c2 w) type c2).
    split; [reflexivity |]. split; [reflexivity |].
    split; [| reflexivity].
    exact (issued_openedEffects (withSettings connection c2 w) type c2).
Qed.

Lemma accepts_at w (c : Dialog * SettingsPtr * ConnectionType) cs :
  heap w !! snd (fst c) = Some cs ->
  accepts w c = negb (credentialDeclined (fst (fst c)) (snd c) cs).
Proof. intros H. unfold accepts. now rewrite H. Qed.

(** A call of [openServer] changes nothing the prompts of a later call
    read. *)
Lemma accepts_after w getText connection type w1
    (c : Dialog * SettingsPtr * ConnectionType) :
  step (CallOpenServer getText connection type) w = Some (tt, w1) ->
  (snd (fst c) < length (heap w))%nat ->
  accepts w1 c = accepts w c.
Proof.
  intros Hstep Hc.
  destruct (lookup_lt_is_Some_2 _ _ Hc) as [original Ho].
  destruct (outcome_frame _ _ _ (step_outcome _ _ _ Hstep) eq_refl _ _ Ho)
    as (current & Hcur & Herase & _).
  rewrite (accepts_at w1 c current Hcur), (accepts_at w c original Ho).
  f_equal. now apply credentialDeclined_eraseSecrets.
Qed.

(** C4. In every run of [openServer] calls on settings objects that are
    there that stays within the range of [int], whatever the outcome of
    each call: every call that gets past the prompts takes one new handle
    and no other call takes one, so the handles handed out (to the servers
    started and the tunnel requests sent) are the consecutive integers that
    follow the counter the run started from, as many as there are calls
    past the prompts, and the counter ends at the last of them; they are
    strictly increasing, so none repeats; every effect of the run was
    issued while the counter held a handle of the run, and the effect that
    hands out a handle while the counter holds that very handle: the handle
    is taken before anything is emitted. *)
Theorem handles_strictly_increasing w
    (calls : list (Dialog * SettingsPtr * ConnectionType)) :
  0 <= _lastServerHandle (app w) ->
  _lastServerHandle (app w) + Z.of_nat (length calls) <= INT_MAX ->
  Forall (fun c => (snd (fst c) < length (heap w))%nat) calls ->
  exists w' new,
    run (map openServerCall calls) w = Some w'
    /\ effects w' = effects w ++ new
    /\ _lastServerHandle (app w) <= _lastServerHandle (app w')
    /\ StronglySorted Z.lt (issuedHandles (effectsOnly new))
    /\ Forall (fun k => _lastServerHandle (app w) < k
                        <= _lastServerHandle (app w'))
         (issuedHandles (effectsOnly new))
    /\ Forall (fun se => In (fst se) (issuedHandles (effectsOnly new))
                         /\ forall k, In k (issuedHandles [snd se]) ->
                                      fst se = k) new
    /\ issuedHandles (effectsOnly new)
       = handlesAfter (_lastServerHandle (app w))
           (length (List.filter (accepts w) calls))
    /\ _lastServerHandle (app w')
       = _lastServerHandle (app w)
         + Z.of_nat (length (List.filter (accepts w) calls)).
Proof.
  revert w. induction calls as [| c rest IH]; intros w H0 Hmax Hvalid.
  - exists w, []. cbn [map run effectsOnly issuedHandles List.filter length
                         handlesAfter Z.of_nat].
    rewrite app_nil_r. repeat split; try constructor; lia.
  - inversion Hvalid as [| c0 r0 Hc Hrest]; subst.
    cbn [length] in Hmax.
    destruct (lookup_lt_is_Some_2 _ _ Hc) as [cs Hcs].
    destruct (openServer_call w (fst (fst c)) (snd (fst c)) (snd c) cs Hcs)
      as (w1 & new1 & Hstep & He & Hcase).
    assert (Hn : nextHandle w = _lastServerHandle (app w) + 1)
      by (unfold nextHandle; apply wrap_int_next; lia).
    assert (Hacc : accepts w c
                   = negb (credentialDeclined (fst (fst c)) (snd c) cs))
      by (exact (accepts_at w c cs Hcs)).
    assert (Hlen : (length (heap w) <= length (heap w1))%nat).
    { destruct (outcome_delta _ _ _ (step_outcome _ _ _ Hstep))
        as [d [_ Hh _ _ _]]. exact Hh. }
    assert (H1 : (accepts w c = false
                  /\ issuedHandles new1 = [] /\ new1 = []
                  /\ _lastServerHandle (app w1) = _lastServerHandle (app w))
                 \/ (accepts w c = true
                     /\ issuedHandles new1 = [nextHandle w]
                     /\ _lastServerHandle (app w1) = nextHandle w)).
    { rewrite Hacc. destruct (credentialDeclined _ _ cs).
      - left. destruct Hcase as [-> Hc1]. now repeat split.
      - right. destruct Hcase as [Hi Hc1]. now repeat split. }
    assert (Hsame : List.filter (accepts w1) rest
                    = List.filter (accepts w) rest).
    { apply List.filter_ext_in. intros a Ha.
      apply (accepts_after w _ _ _ w1 a Hstep).
      rewrite Forall_forall in Hrest. now apply Hrest, list_elem_of_In. }
    destruct (IH w1)
      as (w' & new2 & Hrun & He2 & Hmono & Hsort & Hrange & Hst & Hseq & Hend).
    { destruct H1 as [(_ & _ & _ & ->) | (_ & _ & ->)]; lia. }
    { destruct H1 as [(_ & _ & _ & ->) | (_ & _ & ->)]; lia. }
    { eapply Forall_impl; [exact Hrest |]. cbn beta. intros a Ha. lia. }
    rewrite Hsame in Hseq, Hend.
    exists w', (stamp (_lastServerHandle (app w1)) new1 ++ new2).
    assert (Hiss : issuedHandles
                     (effectsOnly (stamp (_lastServerHandle (app w1)) new1 ++ new2))
                   = issuedHandles new1 ++ issuedHandles (effectsOnly new2))
      by (now rewrite effectsOnly_app, effectsOnly_stamp, issuedHandles_app).
    rewrite Hiss.
    split; [| split; [| split; [| split; [| split; [| split; [| split]]]]]].
    + cbn [map run]. unfold openServerCall at 1. now rewrite Hstep.
    + now rewrite He2, He, <- app_assoc.
    + destruct H1 as [(_ & _ & _ & Hc1) | (_ & _ & Hc1)];
        rewrite Hc1 in Hmono; lia.
    + destruct H1 as [(_ & -> & _ & _) | (_ & -> & Hc1)]; [exact Hsort |].
      cbn [List.app]. constructor; [exact Hsort |].
      eapply Forall_impl; [exact Hrange |]. cbn beta. intros k Hk. lia.
    + apply Forall_app. split.
      * destruct H1 as [(_ & -> & _ & _) | (_ & -> & Hc1)]; [constructor |].
        repeat constructor; lia.
      * eapply Forall_impl; [exact Hrange |]. cbn beta. intros k Hk.
        destruct H1 as [(_ & _ & _ & Hc1) | (_ & _ & Hc1)];
          rewrite Hc1 in Hk; lia.
    + apply Forall_app. split.
      * apply Forall_forall. intros se Hse%list_elem_of_In.
        apply stamp_In in Hse as [Hf Hs].
        destruct H1 as [(_ & _ & -> & _) | (_ & Hi1 & Hc1)]; [destruct Hs |].
        rewrite Hi1, Hf, Hc1. split; [now left |].
        intros k Hk. pose proof (issuedHandles_In _ _ _ Hs Hk) as Hin.
        rewrite Hi1 in Hin. destruct Hin as [<- | []]. reflexivity.
      * eapply Forall_impl; [exact Hst |]. cbn beta.
        intros se [Hin Hown]. split; [| exact Hown].
        apply in_or_app. now right.
    + cbn [List.filter].
      destruct H1 as [(-> & -> & _ & Hc1) | (-> & -> & Hc1)].
      * cbn [List.app]. now rewrite Hseq, Hc1.
      * cbn [List.app length handlesAfter]. now rewrite Hseq, Hc1, Hn.
    + cbn [List.filter].
      destruct H1 as [(-> & _ & _ & Hc1) | (-> & _ & Hc1)].
      * rewrite Hend, Hc1. reflexivity.
      * cbn [length]. rewrite Hend, Hc1, Hn. lia.
Qed.

End Handles.

(** ** The properties on sample worlds *)

Section Samples.

(** C7. A collection name that holds a place marker breaks the query: the
    second [arg] replaces the lowest marker of the whole string, which is
    then the one inside the name, so the operation lands in the name and
    the [%2] of the template stays. *)
Theorem buildCollectionQuery_marker_in_name :
  detail.buildCollectionQuery "%1" "find({})"
  = "db.getCollection('find({})').%2"
  /\ detail.buildCollectionQuery "%1" "find({})"
     <> ("db.getCollection('" ++ QString.replace "\" "\\" "%1" ++ "')."
         ++ "find({})")%string.
Proof. split; [reflexivity | discriminate]. Qed.

Lemma pendingWorld_session :
  session [tunnelSettings] [CallOpenServer acceptAll 0%nat ConnectionPrimary]
    pendingWorld.
Proof.
  apply (session_step [tunnelSettings] [] (newWorld [tunnelSettings])
           (CallOpenServer acceptAll 0%nat ConnectionPrimary)).
  - apply session_new.
  - cbn. unfold INT_MAX. lia.
  - reflexivity.
Defined.

Lemma busyWorld_session : session busySettings busySession busyWorld.
Proof.
  assert (H1 : session busySettings (firstn 1 busySession)
                 (afterRun (firstn 1 busySession) (newWorld busySettings))).
  { apply (session_step busySettings [] (newWorld busySettings)
             (CallOpenServer acceptAll 0%nat ConnectionPrimary)).
    - apply session_new.
    - cbn. unfold INT_MAX. lia.
    - vm_compute. reflexivity. }
  assert (H2 : session busySettings (firstn 2 busySession)
                 (afterRun (firstn 2 busySession) (newWorld busySettings))).
  { apply (session_step busySettings (firstn 1 busySession)
             (afterRun (firstn 1 busySession) (newWorld busySettings))
             (CallFireConnectionFailedEvent 1 ConnectionPrimary "timeout"
                SshConnection)).
    - exact H1.
    - exact I.
    - vm_compute. reflexivity. }
  assert (H3 : session busySettings (firstn 3 busySession)
                 (afterRun (firstn 3 busySession) (newWorld busySettings))).
  { apply (session_step busySettings (firstn 2 busySession)
             (afterRun (firstn 2 busySession) (newWorld busySettings))
             (CallOpenServer acceptAll 1%nat ConnectionPrimary)).
    - exact H2.
    - vm_compute. reflexivity.
    - vm_compute. reflexivity. }
  apply (session_step busySettings (firstn 3 busySession)
           (afterRun (firstn 3 busySession) (newWorld busySettings))
           (DeliverEstablish (tunnelUp 1 2%nat))).
  - exact H3.
  - intros _. vm_compute. reflexivity.
  - vm_compute. reflexivity.
Defined.

Lemma openServer_tunnel_appends_null_witness :
  heap (newWorld [tunnelSettings]) !! 0%nat = Some tunnelSettings
  /\ credentialDeclined acceptAll ConnectionPrimary tunnelSettings = false
  /\ tunnelRequired ConnectionPrimary false true = true
  /\ exists w',
       openServer acceptAll 0%nat ConnectionPrimary (newWorld [tunnelSettings])
       = Some (true, w')
       /\ length (_servers (app w')) = 1%nat.
Proof.
  split; [reflexivity |]. split; [reflexivity |]. split; [reflexivity |].
  destruct (openServer_tunnel_appends_null (newWorld [tunnelSettings])
              acceptAll 0%nat ConnectionPrimary tunnelSettings
              eq_refl eq_refl eq_refl) as (w' & Hrun & _ & Hlen & _).
  exists w'. split; [exact Hrun | exact Hlen].
Defined.

Lemma openServer_tunnel_decision_witness :
  heap (newWorld [directSettings]) !! 0%nat = Some directSettings
  /\ exists w1 result,
       openServerInternal 0%nat ConnectionPrimary (newWorld [directSettings])
       = Some (result, w1)
       /\ exists server, result = Some server
                         /\ MongoServer.serverHandle server = 1.
Proof.
  split; [reflexivity |].
  destruct (openServer_tunnel_decision (newWorld [directSettings])
              acceptAll 0%nat ConnectionPrimary directSettings eq_refl)
    as ((w1 & result & new & Hrun & _ & (server & Hs & Hh & _) & _) & _).
  exists w1, result. split; [exact Hrun |].
  exists server. split; [exact Hs | exact Hh].
Defined.

Lemma handles_strictly_increasing_witness :
  0 <= _lastServerHandle (app (newWorld [tunnelSettings; askingSettings]))
  /\ exists w' new,
       run (map openServerCall
              [(acceptAll, 0%nat, ConnectionPrimary);
               (declineAll, 1%nat, ConnectionTest);
               (acceptAll, 1%nat, ConnectionSecondary)])
         (newWorld [tunnelSettings; askingSettings]) = Some w'
       /\ effects w' = new
       /\ StronglySorted Z.lt (issuedHandles (effectsOnly new))
       /\ issuedHandles (effectsOnly new) = [1; 2]
       /\ _lastServerHandle (app w') = 2.
Proof.
  split; [cbn; lia |].
  destruct (handles_strictly_increasing
              (newWorld [tunnelSettings; askingSettings])
              [(acceptAll, 0%nat, ConnectionPrimary);
               (declineAll, 1%nat, ConnectionTest);
               (acceptAll, 1%nat, ConnectionSecondary)])
    as (w' & new & Hrun & He & _ & Hs & _ & _ & Hseq & Hend).
  - cbn. lia.
  - cbn. unfold INT_MAX. lia.
  - repeat constructor.
  - exists w', new. split; [exact Hrun |]. split; [exact He |].
    split; [exact Hs |]. split; [exact Hseq | exact Hend].
Defined.

Lemma openServer_credential_declined_witness :
  heap (newWorld [askingSettings]) !! 0%nat = Some askingSettings
  /\ credentialDeclined declineAll ConnectionPrimary askingSettings = true
  /\ exists w',
       openServer declineAll 0%nat ConnectionPrimary (newWorld [askingSettings])
       = Some (false, w')
       /\ effects w' = []
       /\ _lastServerHandle (app w') = 0.
Proof.
  split; [reflexivity |]. split; [reflexivity |].
  destruct (openServer_credential_declined (newWorld [askingSettings])
              declineAll 0%nat ConnectionPrimary askingSettings
              eq_refl eq_refl)
    as (w' & Hrun & _ & _ & Hc & He & _).
  exists w'. split; [exact Hrun |]. split; [exact He | exact Hc].
Defined.

Lemma establish_error_abandons_open_witness :
  session [tunnelSettings] [CallOpenServer acceptAll 0%nat ConnectionPrimary]
    pendingWorld
  /\ awaited [CallOpenServer acceptAll 0%nat ConnectionPrimary] 1 pendingWorld
     = true
  /\ exists w1,
       handle_EstablishSshConnectionResponse (tunnelRefused 1) pendingWorld
       = Some (tt, w1)
       /\ app w1 = app pendingWorld
       /\ ~ In 1 (serverHandles (_servers (app w1))).
Proof.
  split; [exact pendingWorld_session |]. split; [reflexivity |].
  destruct (establish_error_abandons_open [tunnelSettings]
              [CallOpenServer acceptAll 0%nat ConnectionPrimary] pendingWorld
              (tunnelRefused 1) "Connection refused" pendingWorld_session
              eq_refl eq_refl)
    as (w1 & Hrun & _ & Happ & _ & Hever).
  exists w1. split; [exact Hrun |]. split; [exact Happ |].
  exact (proj1 (Hever w1 (runsWithout_here 1 w1))).
Defined.

Lemma reachable_handles_distinct_witness :
  session busySettings busySession busyWorld
  /\ serverHandles (_servers (app busyWorld)) = [2; 1]
  /\ NoDup (serverHandles (_servers (app busyWorld))).
Proof.
  split; [exact busyWorld_session |]. split; [reflexivity |].
  exact (proj1 (reachable_handles_distinct busySettings busySession busyWorld
                  busyWorld_session)).
Defined.

Lemma listen_response_keeps_registration_witness :
  est_error (tunnelUp 1 1%nat) = None
  /\ heap pendingWorld !! 1%nat = Some tunnelSettings
  /\ exists w1 server,
       handle_EstablishSshConnectionResponse (tunnelUp 1 1%nat) pendingWorld
       = Some (tt, w1)
       /\ _servers (app w1) = _servers (app pendingWorld) ++ [Some server]
       /\ MongoServer.serverHandle server = 1.
Proof.
  split; [reflexivity |]. split; [reflexivity |].
  destruct (listen_response_keeps_registration pendingWorld (tunnelUp 1 1%nat)
              (channelLost 1) tunnelSettings eq_refl eq_refl eq_refl)
    as (w1 & server & Hrun & Hs & Hh & _).
  exists w1, server. split; [exact Hrun |]. split; [exact Hs | exact Hh].
Defined.

Lemma settings_cloned_before_use_witness :
  step sampleOverload openedOnce
  = Some (tt, afterCall sampleOverload openedOnce)
  /\ startRecord sampleOverload = Some 1%nat
  /\ heap openedOnce !! 0%nat = Some directSettings
  /\ heap (afterCall sampleOverload openedOnce) !! 0%nat
     = Some directSettings
  /\ exists current,
       heap (afterCall sampleOverload openedOnce) !! 1%nat = Some current
       /\ eraseDefaultDatabase current = eraseDefaultDatabase directSettings.
Proof.
  assert (Hstep : step sampleOverload openedOnce
                  = Some (tt, afterCall sampleOverload openedOnce))
    by (vm_compute; reflexivity).
  split; [exact Hstep |]. split; [reflexivity |]. split; [reflexivity |].
  destruct (settings_cloned_before_use openedOnce sampleOverload
              (afterCall sampleOverload openedOnce) Hstep) as (Hframe & _).
  split.
  - destruct (Hframe 0%nat directSettings eq_refl)
      as (current & Hc & _ & Hother).
    assert (Heq : current = directSettings)
      by (apply Hother; discriminate).
    subst current. exact Hc.
  - destruct (Hframe 1%nat directSettings eq_refl)
      as (current & Hc & He & _).
    exists current. split; [exact Hc | exact He].
Defined.

Lemma openShell_null_server_witness :
  heap (newWorld [directSettings]) !! 0%nat = Some directSettings
  /\ exists w',
       openShell None 0%nat sampleScript (newWorld [directSettings])
       = Some (tt, w')
       /\ _shells (app w') = []
       /\ _servers (app w') = [].
Proof.
  split; [reflexivity |].
  destruct (openShell_null_server (newWorld [directSettings]) 0%nat
              sampleScript directSettings eq_refl)
    as (_ & w' & Hrun & Hs & Hsh & _).
  exists w'. split; [exact Hrun |]. split; [exact Hsh | exact Hs].
Defined.

(** Against C2 as stated: a successful establish response whose handle has
    no pending open adds a server all the same, and handled twice it
    leaves two servers with one handle. *)
Lemma establish_without_pending_open_adds_server :
  pending 7 (newWorld [tunnelSettings]) = false
  /\ exists w1 w2,
       handle_EstablishSshConnectionResponse (tunnelUp 7 0%nat)
         (newWorld [tunnelSettings]) = Some (tt, w1)
       /\ serverHandles (_servers (app w1)) = [7]
       /\ pending 7 w1 = false
       /\ handle_EstablishSshConnectionResponse (tunnelUp 7 0%nat) w1
          = Some (tt, w2)
       /\ serverHandles (_servers (app w2)) = [7; 7]
       /\ ~ NoDup (serverHandles (_servers (app w2))).
Proof.
  split; [vm_compute; reflexivity |].
  exists (afterCall (DeliverEstablish (tunnelUp 7 0%nat))
            (newWorld [tunnelSettings])).
  exists (afterCall (DeliverEstablish (tunnelUp 7 0%nat))
            (afterCall (DeliverEstablish (tunnelUp 7 0%nat))
               (newWorld [tunnelSettings]))).
  split; [vm_compute; reflexivity |]. split; [vm_compute; reflexivity |].
  split; [vm_compute; reflexivity |]. split; [vm_compute; reflexivity |].
  split; [vm_compute; reflexivity |].
  intros Hnd. vm_compute in Hnd. apply NoDup_cons in Hnd as [Hnot _].
  apply Hnot. now left.
Qed.

(** Against C8 as stated: the orchestrator keeps no record of the failed
    open.  In the session in which the open with handle 1 is awaited, the
    response with the error leaves no server with handle 1, and a
    successful response for handle 1 handled after it adds one. *)
Lemma establish_success_after_error_adds_server :
  awaited [CallOpenServer acceptAll 0%nat ConnectionPrimary] 1 pendingWorld
  = true
  /\ exists w1 w2,
       handle_EstablishSshConnectionResponse (tunnelRefused 1) pendingWorld
       = Some (tt, w1)
       /\ serverHandles (_servers (app w1)) = []
       /\ handle_EstablishSshConnectionResponse (tunnelUp 1 1%nat) w1
          = Some (tt, w2)
       /\ serverHandles (_servers (app w2)) = [1]
       /\ In 1 (serverHandles (_servers (app w2))).
Proof.
  split; [vm_compute; reflexivity |].
  exists (afterCall (DeliverEstablish (tunnelRefused 1)) pendingWorld).
  exists (afterCall (DeliverEstablish (tunnelUp 1 1%nat))
            (afterCall (DeliverEstablish (tunnelRefused 1)) pendingWorld)).
  split; [vm_compute; reflexivity |]. split; [vm_compute; reflexivity |].
  split; [vm_compute; reflexivity |]. split; [vm_compute; reflexivity |].
  vm_compute. now left.
Qed.

(** Against C6 as stated: [openServer] writes the asked password into the
    settings object of the caller. *)
Lemma openServer_stores_password_in_original :
  exists w',
    openServer acceptAll 0%nat ConnectionPrimary (newWorld [askingSettings])
    = Some (true, w')
    /\ heap (newWorld [askingSettings]) !! 0%nat = Some askingSettings
    /\ heap w' !! 0%nat = Some (storeAskedPassword "secret" askingSettings)
    /\ storeAskedPassword "secret" askingSettings <> askingSettings.
Proof.
  exists (afterCall (CallOpenServer acceptAll 0%nat ConnectionPrimary)
            (newWorld [askingSettings])).
  split; [vm_compute; reflexivity |]. split; [vm_compute; reflexivity |].
  split; [vm_compute; reflexivity |]. discriminate.
Qed.

(** Against C10 as stated: with a null server, [openShell] has taken a
    handle and started a connection by the time it returns. *)
Lemma openShell_null_server_takes_handle :
  exists w',
    openShell None 0%nat sampleScript (newWorld [directSettings])
    = Some (tt, w')
    /\ _lastServerHandle (app (newWorld [directSettings])) = 0
    /\ _lastServerHandle (app w') = 1
    /\ effectsOnly (effects (newWorld [directSettings])) = []
    /\ effectsOnly (effects w')
       = [ RunWorkerThread (MongoServer.mk 0%nat 1 1%nat ConnectionSecondary);
           LogMsg "Connecting to db.example.org:27017..." Info;
           TryConnect (MongoServer.mk 0%nat 1 1%nat ConnectionSecondary) ].
Proof.
  exists (afterCall (CallOpenShell None 0%nat sampleScript)
            (newWorld [directSettings])).
  repeat split; vm_compute; reflexivity.
Qed.

End Samples.

(** ** The query helper on every name *)

Section QueryShapes.

Local Open Scope string_scope.

Ltac tok_step :=
  match goal with
  | |- context [match ?s with EmptyString => _ | String _ _ => _ end] =>
      is_var s; destruct s
  | |- context [match QString.digitValue ?c with Some _ => _ | None => _ end] =>
      destruct (QString.digitValue c) eqn:?
  | |- context [if negb (Ascii.eqb ?c ?d) then _ else _] =>
      destruct (Ascii.eqb c d) eqn:?; cbn [negb]
  | |- context [if Ascii.eqb ?c ?d then _ else _] =>
      destruct (Ascii.eqb c d) eqn:?
  end.

Lemma string_length_ind (P : string -> Prop) :
  (forall s, (forall s', (String.length s' < String.length s)%nat -> P s') -> P s) ->
  forall s, P s.
Proof.
  intros Hstep s. remember (String.length s) as k eqn:Hk. revert s Hk.
  induction k as [k IH] using lt_wf_ind. intros s ->.
  apply Hstep. intros s' Hlt. now apply (IH _ Hlt).
Qed.

Lemma tokensText_argTokens s : tokensText (QString.argTokens s) = s.
Proof.
  induction s as [s IH] using string_length_ind.
  destruct s as [| c s1]; [reflexivity |].
  cbn [QString.argTokens].
  repeat tok_step;
    cbn [tokensText tokenText append];
    rewrite ?IH by (cbn [String.length]; lia); reflexivity.
Qed.

Lemma argTokens_step s :
  QString.argTokens s
  = match nextToken s with
    | None => []
    | Some (t, rest) => t :: QString.argTokens rest
    end.
Proof.
  destruct s as [| c s1]; [reflexivity |].
  cbn [QString.argTokens nextToken].
  repeat tok_step; reflexivity.
Qed.

Lemma nextToken_text s t rest :
  nextToken s = Some (t, rest) -> s = tokenText t ++ rest.
Proof.
  destruct s as [| c s1]; [discriminate |].
  cbn [nextToken].
  repeat tok_step; intros [= <- <-]; reflexivity.
Qed.

Lemma string_length_append (s t : string) :
  String.length (s ++ t) = (String.length s + String.length t)%nat.
Proof.
  induction s as [| c s IH]; [reflexivity |].
  cbn [append String.length]. now rewrite IH.
Qed.

Lemma nextToken_shorter s t rest :
  nextToken s = Some (t, rest) -> (String.length rest < String.length s)%nat.
Proof.
  destruct s as [| c s1]; [discriminate |].
  cbn [nextToken].
  repeat tok_step; intros [= <- <-]; cbn [String.length]; lia.
Qed.

Lemma nextToken_app n q t :
  QString.digitValue q = None -> Ascii.eqb q "L" = false ->
  n <> "" ->
  nextToken (n ++ String q t)
  = match nextToken n with
    | Some (tk, rest) => Some (tk, rest ++ String q t)
    | None => None
    end.
Proof.
  intros Hq HL Hn.
  destruct n as [| c n1]; [congruence |].
  cbn [append nextToken].
  destruct (Ascii.eqb c "%"); cbn [negb]; [| reflexivity].
  destruct n1 as [| c1 n2]; cbn [append].
  { now rewrite HL, Hq. }
  destruct (Ascii.eqb c1 "L").
  - destruct n2 as [| d1 n3]; cbn [append].
    { now rewrite Hq. }
    destruct (QString.digitValue d1); [| reflexivity].
    destruct n3 as [| d2 n4]; cbn [append].
    { now rewrite Hq. }
    now destruct (QString.digitValue d2).
  - destruct (QString.digitValue c1); [| reflexivity].
    destruct n2 as [| d2 n3]; cbn [append].
    { now rewrite Hq. }
    now destruct (QString.digitValue d2).
Qed.

Lemma argTokens_app_boundary n q t :
  QString.digitValue q = None -> Ascii.eqb q "L" = false ->
  QString.argTokens (n ++ String q t)
  = (QString.argTokens n ++ QString.argTokens (String q t))%list.
Proof.
  intros Hq HL.
  induction n as [n IH] using string_length_ind.
  destruct n as [| c n1] eqn:En; [reflexivity |]. rewrite <- En in *.
  assert (Hne : n <> "") by (rewrite En; discriminate).
  rewrite (argTokens_step (n ++ String q t)), (argTokens_step n).
  rewrite (nextToken_app _ _ _ Hq HL Hne).
  destruct (nextToken n) as [[tk rest] |] eqn:Hnt.
  - rewrite IH by (now apply nextToken_shorter with (t := tk)). reflexivity.
  - rewrite En in Hnt. cbn [nextToken] in Hnt. revert Hnt.
    repeat tok_step; discriminate.
Qed.

Lemma digit_not_backslash c n :
  QString.digitValue c = Some n -> Ascii.eqb c "\" = false.
Proof.
  intros H. destruct (Ascii.eqb c "\") eqn:E; [| reflexivity].
  apply Ascii.eqb_eq in E. subst c. discriminate.
Qed.

Ltac esc_solve :=
  repeat first
    [ reflexivity
    | match goal with
      | H : Ascii.eqb "\"%char _ = true |- _ => vm_compute in H; discriminate H
      | H : QString.digitValue "\"%char = Some _ |- _ =>
          vm_compute in H; discriminate H
      end
    | progress cbn [QString.replace nextToken append negb]
    | match goal with
      | H : Ascii.eqb ?c ?k = _ |- context [Ascii.eqb ?c ?k] => rewrite H
      | H : QString.digitValue ?c = _ |- context [QString.digitValue ?c] =>
          rewrite H
      | |- context [Ascii.eqb "\"%char ?k] =>
          let v := eval vm_compute in (Ascii.eqb "\"%char k) in
          change (Ascii.eqb "\"%char k) with v
      | |- context [QString.digitValue "\"%char] =>
          change (QString.digitValue "\"%char) with (@None nat)
      | |- context [match ?s with EmptyString => _ | String _ _ => _ end] =>
          is_var s; destruct s
      | |- context [Ascii.eqb ?c "\"%char] =>
          is_var c;
          let E := fresh "E" in
          destruct (Ascii.eqb c "\"%char) eqn:E;
          [apply Ascii.eqb_eq in E; subst c |]
      | |- context [Ascii.eqb ?c ?k] =>
          is_var c; destruct (Ascii.eqb c k) eqn:?
      | |- context [QString.digitValue ?c] =>
          is_var c; destruct (QString.digitValue c) eqn:?
      end ].

Lemma nextToken_escape s :
  nextToken (QString.replace "\" "\\" s)
  = match nextToken s with
    | Some (QString.Marker n text, rest) =>
        Some (QString.Marker n text, QString.replace "\" "\\" rest)
    | Some (QString.Plain c, rest) =>
        if Ascii.eqb c "\"
        then Some (QString.Plain c, String "\" (QString.replace "\" "\\" rest))
        else Some (QString.Plain c, QString.replace "\" "\\" rest)
    | None => None
    end.
Proof.
  destruct s as [| c s1]; [reflexivity |].
  esc_solve.
Qed.

Lemma markersFrom_escape k s :
  markersFrom k (QString.argTokens (QString.replace "\" "\\" s))
  = markersFrom k (QString.argTokens s).
Proof.
  induction s as [s IH] using string_length_ind.
  rewrite (argTokens_step (QString.replace "\" "\\" s)), (argTokens_step s).
  rewrite nextToken_escape.
  destruct (nextToken s) as [[[c | n text] rest] |] eqn:Hnt; [| | reflexivity].
  - pose proof (nextToken_shorter _ _ _ Hnt) as Hlt.
    destruct (Ascii.eqb c "\").
    + cbn [markersFrom forallb andb QString.argTokens negb Ascii.eqb].
      change (QString.argTokens (String "\" (QString.replace "\" "\\" rest)))
        with (QString.Plain "\" :: QString.argTokens (QString.replace "\" "\\" rest)).
      cbn [forallb andb]. apply (IH _ Hlt).
    + cbn [markersFrom forallb andb]. apply (IH _ Hlt).
  - pose proof (nextToken_shorter _ _ _ Hnt) as Hlt.
    cbn [markersFrom forallb]. f_equal. apply (IH _ Hlt).
Qed.

Lemma minEscape_high ts a b c text :
  markersFrom 3 ts = true ->
  QString.minEscape
    (ts ++ [QString.Plain a; QString.Plain b; QString.Plain c;
            QString.Marker 2 text])%list
  = Some 2%nat.
Proof.
  induction ts as [| [p | n t] ts IH]; [reflexivity | |];
    cbn [markersFrom forallb List.app QString.minEscape].
  - exact IH.
  - intros [Hn Hts]%andb_prop. rewrite (IH Hts).
    apply Nat.leb_le in Hn. f_equal. lia.
Qed.

Lemma replaceArgEscapes_app m a (l1 l2 : list QString.ArgToken) :
  QString.replaceArgEscapes m a (l1 ++ l2)%list
  = QString.replaceArgEscapes m a l1 ++ QString.replaceArgEscapes m a l2.
Proof.
  induction l1 as [| [p | n t] l1 IH]; cbn [List.app QString.replaceArgEscapes].
  - reflexivity.
  - cbn [append]. now rewrite IH.
  - now rewrite IH, append_assoc.
Qed.

Lemma replaceArgEscapes_high a ts :
  markersFrom 3 ts = true ->
  QString.replaceArgEscapes 2 a ts = tokensText ts.
Proof.
  induction ts as [| [p | n t] ts IH];
    cbn [markersFrom forallb QString.replaceArgEscapes tokensText tokenText].
  - reflexivity.
  - intros H. cbn [append]. now rewrite IH.
  - intros [Hn Hts]%andb_prop. rewrite (IH Hts).
    apply Nat.leb_le in Hn.
    destruct (Nat.eqb n 2) eqn:E; [| reflexivity].
    apply Nat.eqb_eq in E. lia.
Qed.

Lemma buildCollectionQuery_template collectionName postfix :
  safeName collectionName = true ->
  detail.buildCollectionQuery collectionName postfix
  = "db.getCollection('" ++ QString.replace "\" "\\" collectionName
      ++ "')." ++ postfix.
Proof.
  unfold safeName. intros Hsafe.
  rewrite <- (markersFrom_escape 3) in Hsafe.
  unfold detail.buildCollectionQuery. rewrite arg_pattern.
  set (e := QString.replace "\" "\\" collectionName) in *.
  unfold QString.arg.
  assert (Ht : QString.argTokens ("db.getCollection('" ++ e ++ "').%2")
               = (plain "db.getCollection('"
                  ++ QString.argTokens e
                  ++ [QString.Plain "'"; QString.Plain ")"; QString.Plain ".";
                      QString.Marker 2 "%2"])%list).
  { rewrite argTokens_plain_prefix by reflexivity.
    now rewrite (argTokens_app_boundary e "'" ").%2"). }
  rewrite Ht, minEscape_plain_prefix, (minEscape_high _ _ _ _ _ Hsafe).
  rewrite replaceArgEscapes_plain_prefix, replaceArgEscapes_app.
  rewrite (replaceArgEscapes_high _ _ Hsafe), tokensText_argTokens.
  cbn [QString.replaceArgEscapes Nat.eqb append].
  now rewrite append_empty_r.
Qed.


Lemma percentFree_safe s : percentFree s = true -> safeName s = true.
Proof.
  unfold safeName. intros H.
  rewrite <- (append_empty_r s), (argTokens_plain_prefix s "" H).
  cbn [QString.argTokens]. rewrite app_nil_r.
  clear H. induction s as [| c s IH]; [reflexivity | exact IH].
Qed.

Lemma append_cancel_l (s a b : string) : s ++ a = s ++ b -> a = b.
Proof.
  induction s as [| c s IH]; [easy |].
  cbn [append]. intros [= H]. now apply IH.
Qed.

Lemma append_cancel_r (a b r : string) : a ++ r = b ++ r -> a = b.
Proof.
  intros H.
  assert (Hlen : String.length a = String.length b).
  { apply (f_equal String.length) in H.
    rewrite !string_length_append in H. lia. }
  revert b H Hlen. induction a as [| c a IH]; intros [| d b] H Hlen;
    try discriminate; [reflexivity |].
  cbn [append] in H. injection H as -> H. f_equal.
  apply IH; [exact H | now injection Hlen].
Qed.

Lemma escape_injective s1 s2 :
  QString.replace "\" "\\" s1 = QString.replace "\" "\\" s2 -> s1 = s2.
Proof.
  revert s2. induction s1 as [| c1 s1 IH]; intros [| c2 s2];
    cbn [QString.replace].
  - reflexivity.
  - destruct (Ascii.eqb c2 "\"); discriminate.
  - destruct (Ascii.eqb c1 "\"); discriminate.
  - destruct (Ascii.eqb c1 "\") eqn:E1, (Ascii.eqb c2 "\") eqn:E2;
      cbn [append]; intros H.
    + apply Ascii.eqb_eq in E1, E2. subst. injection H as H.
      f_equal. now apply IH.
    + injection H as <- H. discriminate.
    + injection H as -> H. discriminate.
    + injection H as -> H. f_equal. now apply IH.
Qed.

Lemma buildCollectionQuery_template_injective name1 name2 postfix :
  safeName name1 = true -> safeName name2 = true ->
  detail.buildCollectionQuery name1 postfix
  = detail.buildCollectionQuery name2 postfix ->
  name1 = name2.
Proof.
  intros H1 H2.
  rewrite (buildCollectionQuery_template _ _ H1),
    (buildCollectionQuery_template _ _ H2).
  intros H%append_cancel_l%append_cancel_r.
  now apply escape_injective.
Qed.

(** X2. On safe names of ASCII characters the helper keeps names apart:
    two different names give different queries for the same operation, so
    the doubling of backslashes never makes two collections share a
    script. *)
Theorem buildCollectionQuery_injective name1 name2 postfix :
  asciiOnly name1 = true -> asciiOnly name2 = true ->
  safeName name1 = true -> safeName name2 = true ->
  name1 <> name2 ->
  detail.buildCollectionQuery name1 postfix
  <> detail.buildCollectionQuery name2 postfix.
Proof.
  intros _ _ H1 H2 Hne Heq. apply Hne.
  exact (buildCollectionQuery_template_injective name1 name2 postfix H1 H2 Heq).
Qed.

Lemma minEscape_escape s :
  QString.minEscape (QString.argTokens (QString.replace "\" "\\" s))
  = QString.minEscape (QString.argTokens s).
Proof.
  induction s as [s IH] using string_length_ind.
  rewrite (argTokens_step (QString.replace "\" "\\" s)), (argTokens_step s).
  rewrite nextToken_escape.
  destruct (nextToken s) as [[[c | n text] rest] |] eqn:Hnt; [| | reflexivity].
  - pose proof (nextToken_shorter _ _ _ Hnt) as Hlt.
    destruct (Ascii.eqb c "\").
    + change (QString.argTokens (String "\" (QString.replace "\" "\\" rest)))
        with (QString.Plain "\" :: QString.argTokens (QString.replace "\" "\\" rest)).
      cbn [QString.minEscape]. apply (IH _ Hlt).
    + cbn [QString.minEscape]. apply (IH _ Hlt).
  - pose proof (nextToken_shorter _ _ _ Hnt) as Hlt.
    cbn [QString.minEscape]. now rewrite (IH _ Hlt).
Qed.

Lemma minEscape_app (l1 l2 : list QString.ArgToken) :
  QString.minEscape (l1 ++ l2)%list
  = match QString.minEscape l1, QString.minEscape l2 with
    | Some a, Some b => Some (Nat.min a b)
    | Some a, None => Some a
    | None, r => r
    end.
Proof.
  induction l1 as [| [p | n t] l1 IH]; cbn [List.app QString.minEscape].
  - now destruct (QString.minEscape l2).
  - exact IH.
  - rewrite IH.
    destruct (QString.minEscape l1), (QString.minEscape l2);
      try reflexivity.
    f_equal. lia.
Qed.

Lemma minEscape_low ts m a b c text :
  QString.minEscape ts = Some m -> (m < 2)%nat ->
  QString.minEscape
    (ts ++ [QString.Plain a; QString.Plain b; QString.Plain c;
            QString.Marker 2 text])%list
  = Some m.
Proof.
  intros Hm Hlt. rewrite minEscape_app, Hm. cbn [QString.minEscape].
  f_equal. lia.
Qed.

(** X3. For a collection name of ASCII characters whose lowest place
    marker is numbered 0 or 1, the operation replaces every marker of that
    number inside the name, and the script ends in the closing quote and
    parenthesis followed by [.%2]: the [%2] of the template stays in the
    script. *)
Theorem buildCollectionQuery_low_marker collectionName postfix m :
  asciiOnly collectionName = true ->
  QString.minEscape (QString.argTokens collectionName) = Some m ->
  (m < 2)%nat ->
  detail.buildCollectionQuery collectionName postfix
  = "db.getCollection('"
    ++ QString.replaceArgEscapes m postfix
         (QString.argTokens (QString.replace "\" "\\" collectionName))
    ++ "').%2".
Proof.
  intros _ Hm Hlt. rewrite <- minEscape_escape in Hm.
  unfold detail.buildCollectionQuery. rewrite arg_pattern.
  set (e := QString.replace "\" "\\" collectionName) in *.
  unfold QString.arg.
  assert (Ht : QString.argTokens ("db.getCollection('" ++ e ++ "').%2")
               = (plain "db.getCollection('"
                  ++ QString.argTokens e
                  ++ [QString.Plain "'"; QString.Plain ")"; QString.Plain ".";
                      QString.Marker 2 "%2"])%list).
  { rewrite argTokens_plain_prefix by reflexivity.
    now rewrite (argTokens_app_boundary e "'" ").%2"). }
  rewrite Ht, minEscape_plain_prefix, (minEscape_low _ _ _ _ _ _ Hm Hlt).
  rewrite replaceArgEscapes_plain_prefix, replaceArgEscapes_app.
  cbn [QString.replaceArgEscapes].
  destruct (Nat.eqb 2 m) eqn:E; [apply Nat.eqb_eq in E; lia |].
  reflexivity.
Qed.

End QueryShapes.

(** ** The objects the orchestrator owns *)

Section Ownership.

Lemma Fresh_mono n n' l : (n <= n')%nat -> Fresh n l -> Fresh n' l.
Proof.
  intros Hn [HF HN]. split; [| exact HN].
  eapply Forall_impl; [exact HF |]. cbn beta. intros a Ha. lia.
Qed.

Lemma sublist_Forall_nat (P : nat -> Prop) (k1 k2 : list nat) :
  sublist k1 k2 -> Forall P k2 -> Forall P k1.
Proof.
  induction 1 as [| x k1 k2 _ IH | x k1 k2 _ IH]; intros HF.
  - constructor.
  - inversion HF; subst. constructor; auto.
  - inversion HF; subst. auto.
Qed.

Lemma Fresh_sublist n l l' : sublist l' l -> Fresh n l -> Fresh n l'.
Proof.
  intros Hs [HF HN]. split.
  - now apply (sublist_Forall_nat _ _ _ Hs).
  - eapply sublist_NoDup; eassumption.
Qed.

Lemma Fresh_snoc n n' l a :
  (n <= a)%nat -> (a < n')%nat -> Fresh n l -> Fresh n' (l ++ [a]).
Proof.
  intros Hna Han [HF HN]. split.
  - apply Forall_app. split; [| now repeat constructor].
    eapply Forall_impl; [exact HF |]. cbn beta. intros b Hb. lia.
  - apply NoDup_app. split; [exact HN |]. split; [| apply NoDup_singleton].
    intros x Hx Hx'. apply list_elem_of_singleton in Hx'. subst x.
    rewrite Forall_forall in HF. apply HF in Hx. lia.
Qed.

Lemma serverAddresses_app l1 l2 :
  serverAddresses (l1 ++ l2) = serverAddresses l1 ++ serverAddresses l2.
Proof.
  induction l1 as [| [s |] l1 IH]; cbn [serverAddresses List.app];
    [reflexivity | now rewrite IH | exact IH].
Qed.

Lemma serverAddresses_filter (f : option MongoServer.t -> bool) l :
  sublist (serverAddresses (List.filter f l)) (serverAddresses l).
Proof.
  induction l as [| [s |] l IH]; cbn [List.filter serverAddresses].
  - constructor.
  - destruct (f (Some s)); cbn [serverAddresses]; now constructor.
  - destruct (f None); cbn [serverAddresses]; exact IH.
Qed.

Lemma eraseFirst_sublist {A B} (f : A -> B) (p : A -> bool) (l : list A) :
  sublist (map f (eraseFirst p l)) (map f l).
Proof.
  induction l as [| x l IH]; cbn [eraseFirst map]; [constructor |].
  destruct (p x); [| now constructor].
  apply sublist_cons. reflexivity.
Qed.

Lemma wellAddressed_new h : WellAddressed (newWorld h).
Proof. repeat constructor. Qed.

Lemma wellAddressed_outcome w c w' :
  WellAddressed w -> Outcome w c w' -> WellAddressed w'.
Proof.
  intros [Hs Hsh] Hout.
  assert (Hopen : forall w0 srv cs scriptInfo,
             nextAddress w0 = nextAddress w -> app w0 = app w ->
             WellAddressed (shellOpened w0 srv cs scriptInfo)).
  { intros w0 srv cs si Hn Ha. constructor;
      cbn [shellOpened nextAddress app _servers _shells]; rewrite ?Hn, ?Ha.
    - rewrite serverAddresses_app. cbn [serverAddresses builtServer
        MongoServer.address]. rewrite ?Hn.
      apply (Fresh_snoc (nextAddress w)); [lia | lia | exact Hs].
    - unfold shellAddresses. rewrite map_app. cbn [map builtShell MongoShell.address].
      rewrite ?Hn.
      apply (Fresh_snoc (nextAddress w)); [lia | lia | exact Hsh]. }
  destruct Hout.
  - now constructor.
  - constructor; cbn [registered openedWorld withSettings nextAddress app
                        _servers _shells].
    + rewrite serverAddresses_app. unfold openedServer.
      destruct (tunnelRequired _ _ _); cbn [serverAddresses].
      * rewrite app_nil_r. apply (Fresh_mono (nextAddress w)); [lia | exact Hs].
      * apply (Fresh_snoc (nextAddress w)); [cbn; lia | cbn; lia | exact Hs].
    + apply (Fresh_mono (nextAddress w)); [lia | exact Hsh].
  - constructor; cbn [serverClosed nextAddress app _servers _shells];
      try assumption.
    eapply Fresh_sublist; [apply serverAddresses_filter | exact Hs].
  - now apply Hopen.
  - constructor; cbn [openedWorld nextAddress app _servers _shells];
      try assumption; (eapply Fresh_mono; [| eassumption]; lia).
  - now apply Hopen.
  - now constructor.
  - constructor; cbn [shellErased serverClosed nextAddress app _servers _shells].
    + eapply Fresh_sublist; [apply serverAddresses_filter | exact Hs].
    + eapply Fresh_sublist; [apply eraseFirst_sublist | exact Hsh].
  - now constructor.
  - now constructor.
  - constructor; cbn [tunnelEstablished nextAddress app _servers _shells].
    + rewrite serverAddresses_app. cbn [serverAddresses builtServer MongoServer.address].
      apply (Fresh_snoc (nextAddress w)); [lia | lia | exact Hs].
    + apply (Fresh_mono (nextAddress w)); [lia | exact Hsh].
  - now constructor.
Qed.

Lemma run_cons c cs w w' :
  run (c :: cs) w = Some w' ->
  exists w1, step c w = Some (tt, w1) /\ run cs w1 = Some w'.
Proof.
  cbn [run]. destruct (step c w) as [[[] w1] |] eqn:Hstep; [| discriminate].
  intros H. exists w1. split; [reflexivity | exact H].
Qed.

Lemma wellAddressed_run cs w w' :
  WellAddressed w -> run cs w = Some w' -> WellAddressed w'.
Proof.
  revert w. induction cs as [| c cs IH]; intros w HW.
  - now intros [= <-].
  - intros (w1 & Hstep & Hrun)%run_cons.
    apply (IH w1); [| exact Hrun].
    exact (wellAddressed_outcome w c w1 HW (step_outcome _ _ _ Hstep)).
Qed.


Lemma ptr_eqb_eq a b : ptr_eqb a b = true <-> a = b.
Proof.
  destruct a as [x |], b as [y |]; cbn [ptr_eqb]; split; try easy.
  - intros H%Nat.eqb_eq. now subst.
  - intros [= ->]. apply Nat.eqb_refl.
Qed.

Lemma ptr_eqb_neq a b : ptr_eqb a b = false <-> a <> b.
Proof.
  rewrite <- ptr_eqb_eq. now destruct (ptr_eqb a b).
Qed.

Lemma filter_keeps_all {A} (f : A -> bool) (l : list A) :
  Forall (fun x => f x = true) l -> List.filter f l = l.
Proof.
  induction 1 as [| x l Hx _ IH]; [reflexivity |].
  cbn [List.filter]. now rewrite Hx, IH.
Qed.

Lemma filter_twice {A} (f : A -> bool) (l : list A) :
  List.filter f (List.filter f l) = List.filter f l.
Proof.
  apply filter_keeps_all. apply Forall_forall. intros x Hx%list_elem_of_In.
  now apply filter_In in Hx.
Qed.

Lemma world_eta w :
  mkWorld (heap w) (nextAddress w)
    (mkApp (_servers (app w)) (_shells (app w)) (_lastServerHandle (app w)))
    (effects w) = w.
Proof. destruct w as [h n [s sh c] e]. reflexivity. Qed.

(** X4. [closeServer] always returns, removes every entry whose pointer is
    the one given and no other entry, changes nothing when no entry has that
    pointer, and a second call with the same pointer changes nothing. *)
Theorem closeServer_idempotent w server :
  exists w',
    closeServer server w = Some (tt, w')
    /\ Forall (fun el => addressOf el <> addressOf server) (_servers (app w'))
    /\ (forall el, addressOf el <> addressOf server ->
                   (In el (_servers (app w')) <-> In el (_servers (app w))))
    /\ (length (_servers (app w')) <= length (_servers (app w)))%nat
    /\ closeServer server w' = Some (tt, w')
    /\ (Forall (fun el => addressOf el <> addressOf server) (_servers (app w)) ->
        w' = w).
Proof.
  exists (serverClosed server w). split; [reflexivity |].
  cbn [serverClosed app _servers]. split; [| split; [| split; [| split]]].
  - apply Forall_forall. intros el Hel%list_elem_of_In.
    apply filter_In in Hel as [_ Hne]. now apply negb_true_iff, ptr_eqb_neq in Hne.
  - intros el Hne. rewrite filter_In. split; [now intros [H _] |].
    intros H. split; [exact H |]. now apply negb_true_iff, ptr_eqb_neq.
  - apply filter_length_le.
  - rewrite closeServer_run. unfold serverClosed.
    cbn [heap nextAddress app effects _servers _shells _lastServerHandle].
    now rewrite filter_twice.
  - intros Hall. unfold serverClosed. rewrite filter_keeps_all; [apply world_eta |].
    eapply Forall_impl; [exact Hall |]. cbn beta. intros el Hne.
    now apply negb_true_iff, ptr_eqb_neq.
Qed.

Lemma filter_fresh_servers n l :
  Forall (fun a => (a < n)%nat) (serverAddresses l) ->
  List.filter (fun el => negb (ptr_eqb (addressOf el) (Some n))) l = l.
Proof.
  intros H. apply filter_keeps_all.
  induction l as [| [s |] l IH]; cbn [serverAddresses] in H.
  - constructor.
  - inversion H; subst. constructor; [| now apply IH].
    cbn [addressOf ptr_eqb]. apply negb_true_iff, Nat.eqb_neq. lia.
  - constructor; [reflexivity | now apply IH].
Qed.

Lemma filter_absent_servers a l :
  ~ In a (serverAddresses l) ->
  List.filter (fun el => negb (ptr_eqb (addressOf el) (Some a))) l = l.
Proof.
  intros H. apply filter_keeps_all.
  induction l as [| [s |] l IH]; cbn [serverAddresses] in H.
  - constructor.
  - constructor.
    + cbn [addressOf ptr_eqb]. apply negb_true_iff, Nat.eqb_neq.
      intros Heq. apply H. left. exact Heq.
    + apply IH. intros Hin. apply H. now right.
  - constructor; [reflexivity | now apply IH].
Qed.

Lemma filter_removes_at_most_one a l :
  NoDup (serverAddresses l) ->
  (length l
   <= S (length (List.filter
                   (fun el => negb (ptr_eqb (addressOf el) (Some a))) l)))%nat.
Proof.
  induction l as [| [s |] l IH]; cbn [serverAddresses List.filter].
  - cbn. lia.
  - intros [Hnot Hnd]%NoDup_cons.
    cbn [addressOf ptr_eqb].
    destruct (Nat.eqb (MongoServer.address s) a) eqn:E; cbn [negb length].
    + apply Nat.eqb_eq in E. subst a.
      rewrite filter_absent_servers; [lia |].
      intros Hin. now apply Hnot, list_elem_of_In.
    + specialize (IH Hnd). lia.
  - intros Hnd. cbn [addressOf ptr_eqb negb length]. specialize (IH Hnd). lia.
Qed.

(** X5. After any run of calls on a new [App], the servers of the
    collection are distinct objects and so are the shells; [closeServer]
    for a server therefore removes one entry at most. *)
Theorem servers_have_distinct_addresses h calls w :
  run calls (newWorld h) = Some w ->
  NoDup (serverAddresses (_servers (app w)))
  /\ NoDup (shellAddresses (_shells (app w)))
  /\ forall s,
       exists w',
         closeServer (Some s) w = Some (tt, w')
         /\ (length (_servers (app w)) <= S (length (_servers (app w'))))%nat.
Proof.
  intros Hrun.
  destruct (wellAddressed_run _ _ _ (wellAddressed_new h) Hrun)
    as [[_ Hs] [_ Hsh]].
  split; [exact Hs |]. split; [exact Hsh |].
  intros s. eexists. split; [reflexivity |].
  cbn [serverClosed app _servers addressOf].
  now apply filter_removes_at_most_one.
Qed.


Lemma isShell_self sh : isShell (Some sh) sh = true.
Proof. unfold isShell. cbn [ptr_eqb]. apply Nat.eqb_refl. Qed.

Lemma isShell_address sh el :
  isShell (Some sh) el = true <-> MongoShell.address el = MongoShell.address sh.
Proof.
  unfold isShell. cbn [ptr_eqb]. apply Nat.eqb_eq.
Qed.

Lemma eraseFirst_fresh sh l :
  Forall (fun a => a <> MongoShell.address sh) (shellAddresses l) ->
  eraseFirst (isShell (Some sh)) (l ++ [sh]) = l.
Proof.
  induction l as [| x l IH]; cbn [shellAddresses map List.app eraseFirst].
  - now rewrite isShell_self.
  - intros H. inversion H as [| a k Ha Hk]; subst.
    destruct (isShell (Some sh) x) eqn:E.
    + apply isShell_address in E. congruence.
    + f_equal. now apply IH.
Qed.

Lemma eraseFirst_absent sh l :
  NoDup (shellAddresses l) ->
  existsb (isShell (Some sh)) (eraseFirst (isShell (Some sh)) l) = false.
Proof.
  induction l as [| x l IH]; cbn [shellAddresses map eraseFirst];
    [reflexivity |].
  intros [Hnot Hnd]%NoDup_cons.
  destruct (isShell (Some sh) x) eqn:E.
  - apply isShell_address in E.
    destruct (existsb (isShell (Some sh)) l) eqn:Hex; [| reflexivity].
    apply existsb_exists in Hex as (y & Hy & Hy').
    apply isShell_address in Hy'. exfalso. apply Hnot.
    rewrite E, <- Hy'. apply list_elem_of_In, in_map, Hy.
  - cbn [existsb]. rewrite E. now apply IH.
Qed.

Lemma eraseFirst_length {A} (p : A -> bool) (l : list A) :
  existsb p l = true -> length (eraseFirst p l) = pred (length l).
Proof.
  induction l as [| x l IH]; cbn [existsb eraseFirst]; [discriminate |].
  destruct (p x); [reflexivity |]. cbn [orb length]. intros H.
  rewrite (IH H). destruct l; [discriminate | reflexivity].
Qed.

Lemma serverAddresses_closed a l :
  ~ In a (serverAddresses
            (List.filter (fun el => negb (ptr_eqb (addressOf el) (Some a))) l)).
Proof.
  induction l as [| [s |] l IH]; cbn [List.filter addressOf ptr_eqb].
  - intros [].
  - destruct (Nat.eqb (MongoServer.address s) a) eqn:E; cbn [negb]; [exact IH |].
    cbn [serverAddresses]. intros [H | H]; [| now apply IH].
    apply Nat.eqb_neq in E. congruence.
  - cbn [negb serverAddresses]. exact IH.
Qed.

(** X6. After any run of calls on a new [App], [closeShell] for a null
    shell does nothing, and [closeShell] for a shell of the collection
    returns, erases that shell, leaves no server with the address of the
    shell's server in the server collection, and makes the shell collection
    one shorter; a second [closeShell] for the same shell does nothing. *)
Theorem closeShell_removes_shell_and_server h calls w sh :
  run calls (newWorld h) = Some w ->
  In sh (_shells (app w)) ->
  closeShell None w = Some (tt, w)
  /\ exists w',
       closeShell (Some sh) w = Some (tt, w')
       /\ existsb (isShell (Some sh)) (_shells (app w')) = false
       /\ ~ In (MongoServer.address (MongoShell.server sh))
              (serverAddresses (_servers (app w')))
       /\ length (_shells (app w')) = pred (length (_shells (app w)))
       /\ closeShell (Some sh) w' = Some (tt, w').
Proof.
  intros Hrun Hin.
  destruct (wellAddressed_run _ _ _ (wellAddressed_new h) Hrun)
    as [_ [_ Hsh]].
  split.
  { rewrite closeShell_run. now rewrite isShell_null. }
  assert (Hex : existsb (isShell (Some sh)) (_shells (app w)) = true).
  { apply existsb_exists. exists sh. split; [exact Hin | apply isShell_self]. }
  rewrite closeShell_run, Hex.
  eexists. split; [reflexivity |].
  assert (Habs : existsb (isShell (Some sh))
                   (eraseFirst (isShell (Some sh)) (_shells (app w))) = false)
    by (now apply eraseFirst_absent).
  cbn [shellErased serverClosed app _servers _shells addressOf].
  split; [exact Habs |]. split; [apply serverAddresses_closed |].
  split; [now apply eraseFirst_length |].
  rewrite closeShell_run.
  cbn [shellErased serverClosed app _servers _shells]. now rewrite Habs.
Qed.

(** X7. After any run of calls on a new [App], opening a shell on a server
    and closing the shell that was announced brings the server collection
    and the shell collection back to what they were. *)
Theorem openShell_closeShell_round_trip h calls w srv connection scriptInfo c :
  run calls (newWorld h) = Some w ->
  heap w !! connection = Some c ->
  exists w1 w2,
    openShell (Some srv) connection scriptInfo w = Some (tt, w1)
    /\ In (Publish (OpeningShellEvent (builtShell w scriptInfo)))
          (effectsOnly (effects w1))
    /\ closeShell (Some (builtShell w scriptInfo)) w1 = Some (tt, w2)
    /\ _servers (app w2) = _servers (app w)
    /\ _shells (app w2) = _shells (app w).
Proof.
  intros Hrun Hp.
  destruct (wellAddressed_run _ _ _ (wellAddressed_new h) Hrun)
    as [[Hs _] [Hsh _]].
  rewrite (openShell_run _ _ _ _ c) by exact Hp.
  eexists. eexists. split; [reflexivity |]. split.
  { cbn [shellOpened effects]. rewrite effectsOnly_app, effectsOnly_stamp.
    apply in_or_app. right. apply in_or_app. right.
    unfold shellEffects. cbn [In]. auto. }
  rewrite closeShell_run.
  cbn [shellOpened app _shells]. rewrite existsb_app.
  cbn [existsb]. rewrite isShell_self, orb_true_r.
  split; [reflexivity |].
  cbn [shellErased serverClosed shellOpened app _servers _shells builtShell
         MongoShell.server addressOf builtServer MongoServer.address].
  split.
  - rewrite List.filter_app. cbn [List.filter addressOf ptr_eqb MongoServer.address].
    rewrite Nat.eqb_refl. cbn [negb]. rewrite app_nil_r.
    now apply filter_fresh_servers.
  - apply (eraseFirst_fresh (builtShell w scriptInfo)).
    eapply Forall_impl; [exact Hsh |]. cbn beta.
    intros a Ha. cbn [builtShell MongoShell.address]. lia.
Qed.

End Ownership.

(** ** The prompts of [openServer] *)

Section Prompts.

Lemma prompts_accepted_explicit getText type c :
  credentialDeclined getText type c = false ->
  afterSshPrompt getText type c = Some (withAskedPassword getText type c)
  /\ afterSslPrompt getText type (withAskedPassword getText type c)
     = Some (withSecrets getText type c).
Proof.
  unfold credentialDeclined, sshDeclined, sslDeclined.
  intros [Hssh Hssl]%orb_false_elim.
  unfold afterSshPrompt, afterSslPrompt, withSecrets, withAskedPassword.
  destruct (sshPromptRequired c type) eqn:Rssh.
  - cbn [andb] in Hssh. apply negb_false_iff in Hssh. rewrite Hssh.
    split; [reflexivity |].
    change (sslPromptRequired
              (storeAskedPassword (fst (sshAnswer getText c)) c) type)
      with (sslPromptRequired c type).
    change (sslAnswer getText
              (storeAskedPassword (fst (sshAnswer getText c)) c))
      with (sslAnswer getText c).
    destruct (sslPromptRequired c type); [| reflexivity].
    cbn [andb] in Hssl. apply negb_false_iff in Hssl. now rewrite Hssl.
  - split; [reflexivity |].
    destruct (sslPromptRequired c type); [| reflexivity].
    cbn [andb] in Hssl. apply negb_false_iff in Hssl. now rewrite Hssl.
Qed.

Lemma ssh_prompt_means_tunnel c type :
  sshPromptRequired c type = true ->
  tunnelRequired type (ConnectionSettings.isReplicaSet c)
    (SshSettings.enabled (ConnectionSettings.sshSettings c)) = true.
Proof.
  unfold sshPromptRequired, isPrimaryOrTest.
  destruct type, (ConnectionSettings.isReplicaSet c),
    (SshSettings.enabled (ConnectionSettings.sshSettings c)),
    (SshSettings.askPassword (ConnectionSettings.sshSettings c));
    cbn; congruence.
Qed.

Lemma handed_openedEffects_clone w type cs :
  Forall (fun e => Forall (fun p => p = length (heap w)) (handedSettings e))
    (openedEffects w type cs).
Proof.
  unfold openedEffects, announceEffects, connectEffects.
  destruct (ConnectionType_eqb _ _), (tunnelRequired _ _ _);
    cbn [List.app]; repeat constructor.
Qed.

(** X8. When no prompt is declined, [openServer] returns [true], every
    settings pointer it hands out is the copy made in the call, and that
    copy holds the answers typed: the SSH password when the SSH prompt was
    shown (which means the tunnel path is taken), the PEM passphrase when
    that prompt was shown. *)
Theorem typed_secrets_reach_the_clone w getText connection type c :
  heap w !! connection = Some c ->
  credentialDeclined getText type c = false ->
  exists w' new,
    openServer getText connection type w = Some (true, w')
    /\ effectsOnly (effects w') = effectsOnly (effects w) ++ new
    /\ Forall (fun e => Forall (fun p => p = length (heap w)) (handedSettings e))
         new
    /\ heap w' !! length (heap w) = Some (withSecrets getText type c)
    /\ (sshPromptRequired c type = true ->
        SshSettings.askedPassword
          (ConnectionSettings.sshSettings (withSecrets getText type c))
        = fst (sshAnswer getText c)
        /\ tunnelRequired type (ConnectionSettings.isReplicaSet c)
             (SshSettings.enabled (ConnectionSettings.sshSettings c)) = true)
    /\ (sslPromptRequired c type = true ->
        SslSettings.pemPassPhrase
          (ConnectionSettings.sslSettings (withSecrets getText type c))
        = fst (sslAnswer getText c)).
Proof.
  intros Hp Hacc.
  destruct (prompts_accepted_explicit _ _ _ Hacc) as [H1 H2].
  rewrite (openServer_run _ _ _ _ c) by exact Hp. rewrite H1, H2.
  set (c2 := withSecrets getText type c).
  eexists. exists (openedEffects (withSettings connection c2 w) type c2).
  split; [reflexivity |]. split.
  { cbn [registered openedWorld effects withSettings].
    now rewrite effectsOnly_app, effectsOnly_stamp. }
  split.
  { pose proof (handed_openedEffects_clone (withSettings connection c2 w) type c2)
      as Hh.
    cbn [withSettings heap] in Hh. now rewrite length_insert in Hh. }
  split.
  { cbn [registered openedWorld heap withSettings].
    rewrite <- (length_insert (heap w) connection c2).
    apply lookup_snoc_here. }
  split.
  - intros Hssh. split; [| now apply ssh_prompt_means_tunnel].
    unfold c2, withSecrets, withAskedPassword. rewrite Hssh.
    now destruct (sslPromptRequired c type).
  - intros Hssl. unfold c2, withSecrets. now rewrite Hssl.
Qed.

(** X9. When the SSH prompt is answered and the PEM passphrase prompt is
    then declined, [openServer] returns [false] and takes no handle, emits
    nothing and registers nothing, but the SSH password typed stays in the
    settings object of the caller. *)
Theorem declined_passphrase_keeps_typed_password w getText connection type c :
  heap w !! connection = Some c ->
  sshPromptRequired c type = true ->
  snd (sshAnswer getText c) = true ->
  sslDeclined getText type c = true ->
  exists w',
    openServer getText connection type w = Some (false, w')
    /\ heap w'
       = <[connection := storeAskedPassword (fst (sshAnswer getText c)) c]>
           (heap w)
    /\ app w' = app w
    /\ effects w' = effects w
    /\ nextAddress w' = nextAddress w.
Proof.
  intros Hp Hssh Hok Hssl.
  rewrite (openServer_run _ _ _ _ c) by exact Hp.
  unfold afterSshPrompt. rewrite Hssh, Hok.
  unfold afterSslPrompt.
  change (sslPromptRequired
            (storeAskedPassword (fst (sshAnswer getText c)) c) type)
    with (sslPromptRequired c type).
  change (sslAnswer getText
            (storeAskedPassword (fst (sshAnswer getText c)) c))
    with (sslAnswer getText c).
  unfold sslDeclined in Hssl. apply andb_prop in Hssl as [-> Hno].
  apply negb_true_iff in Hno. rewrite Hno.
  eexists. split; [reflexivity |]. repeat split.
Qed.

(** X10. [openServer] for a Secondary connection never asks for a
    credential: whatever the settings ask for and whatever the user would
    answer, it returns [true], leaves the settings object as it is and
    registers the server it built, without a tunnel. *)
Theorem secondary_open_never_prompts w getText connection c :
  heap w !! connection = Some c ->
  openServer getText connection ConnectionSecondary w
  = Some (true,
          registered (Some (builtServer w (nextHandle w) ConnectionSecondary))
            (openedWorld w ConnectionSecondary c)).
Proof.
  intros Hp. rewrite (openServer_run _ _ _ _ c) by exact Hp.
  assert (H1 : afterSshPrompt getText ConnectionSecondary c = Some c).
  { unfold afterSshPrompt, sshPromptRequired, isPrimaryOrTest.
    cbn [ConnectionType_eqb orb]. now rewrite andb_false_r. }
  assert (H2 : afterSslPrompt getText ConnectionSecondary c = Some c).
  { unfold afterSslPrompt, sslPromptRequired, isPrimaryOrTest.
    cbn [ConnectionType_eqb orb]. now rewrite andb_false_r. }
  rewrite H1, H2, (withSettings_same w connection c Hp).
  reflexivity.
Qed.

End Prompts.

(** ** The [ConnectingEvent] *)

Section Connecting.

Lemma countConnecting_app l1 l2 :
  countConnecting (l1 ++ l2) = (countConnecting l1 + countConnecting l2)%nat.
Proof. unfold countConnecting. now rewrite List.filter_app, length_app. Qed.

Lemma countConnecting_connect w h type cs :
  countConnecting (connectEffects w h type cs) = 0%nat.
Proof. reflexivity. Qed.

Lemma countConnecting_opened w type cs :
  countConnecting (openedEffects w type cs)
  = if ConnectionType_eqb type ConnectionPrimary then 1%nat else 0%nat.
Proof.
  unfold openedEffects, announceEffects. rewrite countConnecting_app.
  destruct (ConnectionType_eqb _ _), (tunnelRequired _ _ _); reflexivity.
Qed.

Lemma opened_first w type cs :
  ConnectionType_eqb type ConnectionPrimary = true ->
  exists rest,
    openedEffects w type cs = Publish ConnectingEvent :: rest
    /\ countConnecting rest = 0%nat.
Proof.
  intros H. unfold openedEffects, announceEffects. rewrite H.
  cbn [List.app]. eexists. split; [reflexivity |].
  now destruct (tunnelRequired _ _ _).
Qed.

(** X11. A call publishes the [ConnectingEvent] once at most; it does so
    exactly when it is an [openServer] for a Primary connection that got
    past the prompts, and then the event is the first effect of the call,
    before anything is logged, sent or started. Opening a shell, a Test or a
    Secondary connection and handling a tunnel response never publish it. *)
Theorem connecting_event_only_for_primary w c w' :
  step c w = Some (tt, w') ->
  exists new,
    effectsOnly (effects w') = effectsOnly (effects w) ++ new
    /\ (countConnecting new <= 1)%nat
    /\ (countConnecting new = 1%nat ->
        (exists getText connection,
            c = CallOpenServer getText connection ConnectionPrimary)
        /\ (exists rest,
               new = Publish ConnectingEvent :: rest
               /\ countConnecting rest = 0%nat)
        /\ length (_servers (app w')) = S (length (_servers (app w))))
    /\ (forall getText connection,
           c = CallOpenServer getText connection ConnectionPrimary ->
           length (_servers (app w')) = S (length (_servers (app w))) ->
           countConnecting new = 1%nat).
Proof.
  intros Hstep. pose proof (step_outcome _ _ _ Hstep) as Hout.
  destruct Hout.
  - exists []. cbn [withSettings effects app]. rewrite app_nil_r.
    split; [reflexivity |]. split; [cbn; lia |]. split; [discriminate |].
    intros _ _ _ Hlen. lia.
  - exists (openedEffects (withSettings connection c2 w) type c2).
    split.
    { cbn [registered openedWorld effects withSettings].
      now rewrite effectsOnly_app, effectsOnly_stamp. }
    rewrite countConnecting_opened.
    destruct (ConnectionType_eqb type ConnectionPrimary) eqn:Et.
    + assert (type = ConnectionPrimary) as -> by (now destruct type).
      split; [lia |]. split; [| reflexivity].
      intros _. split; [eauto |]. split; [now apply opened_first |].
      cbn [registered openedWorld app _servers withSettings].
      rewrite length_app. cbn [length]. lia.
    + split; [lia |]. split; [discriminate |].
      intros g p [= _ _ ->]. discriminate.
  - exists []. cbn [serverClosed effects]. rewrite app_nil_r.
    split; [reflexivity |]. split; [cbn; lia |]. split; [discriminate |].
    intros g p [=].
  - exists (openedEffects w ConnectionSecondary cs
            ++ shellEffects w srv scriptInfo).
    split.
    { cbn [shellOpened effects]. now rewrite effectsOnly_app, effectsOnly_stamp. }
    rewrite countConnecting_app, countConnecting_opened.
    cbn [ConnectionType_eqb shellEffects countConnecting List.filter
           isConnecting length Nat.add].
    split; [lia |]. split; [discriminate |]. intros g p [=].
  - exists (openedEffects w ConnectionSecondary cs).
    split.
    { cbn [openedWorld effects]. now rewrite effectsOnly_app, effectsOnly_stamp. }
    rewrite countConnecting_opened. cbn [ConnectionType_eqb].
    split; [lia |]. split; [discriminate |]. intros g p [=].
  - set (w1 := withSettings (MongoServer.connectionRecord srv) c' w).
    exists (openedEffects w1 ConnectionSecondary c'
            ++ shellEffects w1 srv scriptInfo).
    split.
    { cbn [shellOpened effects w1 withSettings].
      now rewrite effectsOnly_app, effectsOnly_stamp. }
    rewrite countConnecting_app, countConnecting_opened.
    cbn [ConnectionType_eqb shellEffects countConnecting List.filter
           isConnecting length Nat.add].
    split; [lia |]. split; [discriminate |].
    intros g p ->. discriminate.
  - exists []. rewrite app_nil_r.
    split; [reflexivity |]. split; [cbn; lia |]. split; [discriminate |].
    intros g p [=].
  - exists []. cbn [shellErased serverClosed effects]. rewrite app_nil_r.
    split; [reflexivity |]. split; [cbn; lia |]. split; [discriminate |].
    intros g p [=].
  - eexists. split.
    { cbn [emitted effects]. now rewrite effectsOnly_app, effectsOnly_stamp. }
    split; [cbn; lia |]. split; [discriminate |]. intros g p [=].
  - eexists. split.
    { cbn [emitted effects]. now rewrite effectsOnly_app, effectsOnly_stamp. }
    split; [cbn; lia |]. split; [discriminate |]. intros g p [=].
  - eexists. split.
    { cbn [tunnelEstablished effects].
      now rewrite effectsOnly_app, effectsOnly_stamp. }
    split; [cbn; lia |]. split; [discriminate |]. intros g p [=].
  - exists [listenEffect event]. split.
    { cbn [emitted effects]. now rewrite effectsOnly_app, effectsOnly_stamp. }
    unfold listenEffect.
    destruct (lis_error event);
      (split; [cbn; lia |]; split; [discriminate |]; intros g p [=]).
Qed.

End Connecting.

(** ** From the open to the tunnel response *)

Section RoundTrip.

Lemma withSecrets_flags getText type c :
  ConnectionSettings.isReplicaSet (withSecrets getText type c)
  = ConnectionSettings.isReplicaSet c
  /\ SshSettings.enabled
       (ConnectionSettings.sshSettings (withSecrets getText type c))
     = SshSettings.enabled (ConnectionSettings.sshSettings c).
Proof.
  unfold withSecrets, withAskedPassword.
  destruct (sslPromptRequired c type), (sshPromptRequired c type);
    split; reflexivity.
Qed.

Lemma lookup_snoc_old (h : list ConnectionSettings.t) d p c :
  h !! p = Some c -> (h ++ [d]) !! p = Some c.
Proof. intros H. now apply lookup_app_l_Some. Qed.

(** X12. On the tunnel path [openServer] appends a null entry and sends
    one request to a new worker; the open is then pending, unless an answer
    for its handle was handled before. When the response that echoes that
    request comes without an error, whatever local port it names, the
    handler appends one server with the handle and type of the request,
    behind the null entry; the settings of the server are a second copy,
    which alone is rewritten to host 127.0.0.1 and the local port, while the
    copy named in the request keeps the real host; the handler logs the
    success, starts the worker thread of the server, logs the target,
    connects, and sends the listen request to the same worker, in this
    order; the open is no longer pending. *)
Theorem tunnel_open_completes_on_success w getText connection type c :
  heap w !! connection = Some c ->
  credentialDeclined getText type c = false ->
  tunnelRequired type (ConnectionSettings.isReplicaSet c)
    (SshSettings.enabled (ConnectionSettings.sshSettings c)) = true ->
  exists w1 worker copy,
    openServer getText connection type w = Some (true, w1)
    /\ _servers (app w1) = _servers (app w) ++ [None]
    /\ In (Send worker
             (EstablishSshConnectionRequest (nextHandle w) worker copy type))
         (effectsOnly (effects w1))
    /\ pending (nextHandle w) w1
       = negb (existsb (isAnswerFor (nextHandle w)) (effectsOnly (effects w)))
    /\ forall localport,
         exists w2 server,
           handle_EstablishSshConnectionResponse
             (mkEstablishResponse (nextHandle w) worker copy type localport None)
             w1
           = Some (tt, w2)
           /\ _servers (app w2) = _servers (app w) ++ [None; Some server]
           /\ MongoServer.serverHandle server = nextHandle w
           /\ MongoServer.connectionType server = type
           /\ MongoServer.connectionRecord server <> copy
           /\ MongoServer.connectionRecord server <> connection
           /\ heap w2 !! MongoServer.connectionRecord server
              = Some (localEnd localport (withSecrets getText type c))
           /\ heap w2 !! copy = Some (withSecrets getText type c)
           /\ effectsOnly (effects w2)
              = effectsOnly (effects w1)
                ++ [ LogMsg "SSH tunnel created successfully" Info;
                     RunWorkerThread server;
                     LogMsg (QString.arg "Connecting to %1..."
                               (targetLabel (withSecrets getText type c))) Info;
                     TryConnect server;
                     Send worker
                       (ListenSshConnectionRequest (nextHandle w) type) ]
           /\ pending (nextHandle w) w2 = false.
Proof.
  intros Hp Hacc Htun.
  destruct (prompts_accepted_explicit _ _ _ Hacc) as [H1 H2].
  set (c2 := withSecrets getText type c) in *.
  destruct (withSecrets_flags getText type c) as [Hrs Hen]. fold c2 in Hrs, Hen.
  assert (Htun2 : tunnelRequired type (ConnectionSettings.isReplicaSet c2)
                    (SshSettings.enabled (ConnectionSettings.sshSettings c2))
                  = true) by (now rewrite Hrs, Hen).
  set (w0 := withSettings connection c2 w).
  assert (Hlen : length (heap w0) = length (heap w))
    by (unfold w0; cbn [withSettings heap]; now rewrite length_insert).
  assert (Hlt : (connection < length (heap w))%nat)
    by (now apply lookup_lt_Some with (x := c)).
  exists (registered (openedServer w0 type c2) (openedWorld w0 type c2)),
    (nextAddress w), (length (heap w)).
  split.
  { rewrite (openServer_run _ _ _ _ c) by exact Hp. now rewrite H1, H2. }
  assert (Heff : effectsOnly (effects (registered (openedServer w0 type c2)
                                         (openedWorld w0 type c2)))
                 = effectsOnly (effects w)
                   ++ announceEffects type
                   ++ [ LogMsg (tunnelMessage c2) Info;
                        Send (nextAddress w)
                          (EstablishSshConnectionRequest (nextHandle w)
                             (nextAddress w) (length (heap w)) type) ]).
  { cbn [registered openedWorld effects].
    rewrite effectsOnly_app, effectsOnly_stamp.
    unfold openedEffects. rewrite Htun2. rewrite Hlen. reflexivity. }
  split.
  { cbn [registered openedWorld app _servers]. unfold openedServer.
    now rewrite Htun2. }
  split.
  { rewrite Heff. apply in_or_app. right. apply in_or_app. right.
    right. left. reflexivity. }
  split.
  { unfold pending, pendingIn. rewrite Heff. rewrite !existsb_app.
    cbn [existsb isEstablishRequestFor isAnswerFor orb].
    rewrite Z.eqb_refl, orb_true_r, orb_true_r. cbn [andb].
    replace (existsb (isAnswerFor (nextHandle w)) (announceEffects type))
      with false by (unfold announceEffects;
                     now destruct (ConnectionType_eqb _ _)).
    now rewrite !orb_false_r. }
  intros localport.
  set (w1 := registered (openedServer w0 type c2) (openedWorld w0 type c2))
    in *.
  set (event := mkEstablishResponse (nextHandle w) (nextAddress w)
                  (length (heap w)) type localport None).
  assert (Hcopy : heap w1 !! est_settings event = Some c2).
  { cbn [w1 registered openedWorld heap event est_settings].
    rewrite <- Hlen. apply lookup_snoc_here. }
  exists (tunnelEstablished w1 event c2), (builtServer w1 (nextHandle w) type).
  split; [now apply handle_Establish_success_run |].
  split.
  { cbn [tunnelEstablished app _servers w1 registered openedWorld event
           est_serverHandle est_connectionType].
    unfold openedServer. rewrite Htun2. now rewrite <- app_assoc. }
  split; [reflexivity |]. split; [reflexivity |].
  assert (Hrec : MongoServer.connectionRecord (builtServer w1 (nextHandle w) type)
                 = S (length (heap w))).
  { cbn [builtServer MongoServer.connectionRecord w1 registered openedWorld heap].
    rewrite length_app, Hlen. cbn [length]. lia. }
  split; [rewrite Hrec; lia |]. split; [rewrite Hrec; lia |].
  split.
  { cbn [tunnelEstablished heap builtServer MongoServer.connectionRecord].
    rewrite lookup_snoc_here. cbn [event est_connectionType est_localport].
    unfold tunnelRewrite. now rewrite rewrite_condition, Htun2. }
  split.
  { cbn [tunnelEstablished heap]. now apply lookup_snoc_old. }
  split.
  { cbn [tunnelEstablished effects].
    rewrite effectsOnly_app, effectsOnly_stamp. reflexivity. }
  unfold pending, pendingIn.
  cbn [tunnelEstablished effects].
  rewrite effectsOnly_app, effectsOnly_stamp.
  rewrite !existsb_app.
  cbn [existsb isAnswerFor event est_serverHandle est_connectionType
         connectEffects List.app].
  rewrite Z.eqb_refl. cbn [orb]. rewrite !orb_true_r. cbn [negb].
  now rewrite andb_false_r.
Qed.


Lemma serverHandles_isServer l :
  serverHandles (List.filter isServer l) = serverHandles l.
Proof.
  induction l as [| [s |] l IH]; cbn [List.filter isServer serverHandles];
    [reflexivity | now rewrite IH | exact IH].
Qed.

(** X13. [closeServer] with a null pointer removes the null entries of the
    server collection (the ones the tunnel path of [openServer] appends) and
    nothing else: every server stays, in order, and shells, handle counter,
    settings and effects are unchanged. *)
Theorem closeServer_null_drops_placeholders w :
  exists w',
    closeServer None w = Some (tt, w')
    /\ _servers (app w') = List.filter isServer (_servers (app w))
    /\ ~ In None (_servers (app w'))
    /\ (forall s, In (Some s) (_servers (app w'))
                  <-> In (Some s) (_servers (app w)))
    /\ serverHandles (_servers (app w')) = serverHandles (_servers (app w))
    /\ _shells (app w') = _shells (app w)
    /\ _lastServerHandle (app w') = _lastServerHandle (app w)
    /\ heap w' = heap w
    /\ effects w' = effects w.
Proof.
  exists (serverClosed None w).
  split; [apply closeServer_run |].
  assert (Hf : List.filter
                 (fun el => negb (ptr_eqb (addressOf el) (addressOf None)))
                 (_servers (app w))
               = List.filter isServer (_servers (app w))).
  { apply List.filter_ext. now intros [s |]. }
  cbn [serverClosed app _servers _shells _lastServerHandle heap effects].
  rewrite Hf.
  split; [reflexivity |]. split.
  { intros [_ H]%List.filter_In. discriminate. }
  split.
  { intros s. rewrite List.filter_In. cbn [isServer]. tauto. }
  split; [apply serverHandles_isServer |].
  repeat split.
Qed.

End RoundTrip.

(** ** The overloads of [openShell] *)

Section Overloads.

(** What [shellOpened] shows of a shell opened on the record [p] of server
    [srv], after the record was given the settings [c']. *)
Lemma shellOpened_observed w srv p cs c' scriptInfo :
  heap w !! p = Some cs ->
  let w0 := withSettings p c' w in
  let w' := shellOpened w0 srv c' scriptInfo in
  let shell := builtShell w0 scriptInfo in
  heap w' !! p = Some c'
  /\ _shells (app w') = _shells (app w) ++ [shell]
  /\ _servers (app w') = _servers (app w) ++ [Some (MongoShell.server shell)]
  /\ MongoShell.scriptInfo shell = scriptInfo
  /\ MongoServer.connectionType (MongoShell.server shell) = ConnectionSecondary
  /\ MongoServer.connectionRecord (MongoShell.server shell) <> p
  /\ heap w' !! MongoServer.connectionRecord (MongoShell.server shell) = Some c'
  /\ (exists before,
        effectsOnly (effects w')
        = before ++ [ Subscribe srv ReplicaSetRefreshedType shell;
                      Publish (OpeningShellEvent shell);
                      Execute shell ]).
Proof.
  intros Hp w0 w' shell.
  assert (Hlt : (p < length (heap w))%nat)
    by (now apply lookup_lt_Some with (x := cs)).
  assert (Hlen : length (heap w0) = length (heap w))
    by (unfold w0; cbn [withSettings heap]; now rewrite length_insert).
  split.
  { unfold w'. cbn [shellOpened heap]. apply lookup_snoc_old.
    unfold w0. now apply withSettings_lookup with (cs := cs). }
  split; [reflexivity |]. split; [reflexivity |]. split; [reflexivity |].
  split; [reflexivity |].
  split.
  { cbn [shell builtShell MongoShell.server builtServer
           MongoServer.connectionRecord]. rewrite Hlen. lia. }
  split.
  { unfold w'. cbn [shellOpened heap shell builtShell MongoShell.server
                      builtServer MongoServer.connectionRecord].
    apply lookup_snoc_here. }
  exists (effectsOnly (effects w) ++ openedEffects w0 ConnectionSecondary c').
  unfold w'. cbn [shellOpened effects].
  rewrite effectsOnly_app, effectsOnly_stamp.
  now rewrite <- app_assoc.
Qed.

(** X14. [openShell] for a collection opens one shell on a new Secondary
    server and runs it; the script is the query the helper builds for the
    collection name and [find({})] (the template with the name when the name
    is safe and of ASCII characters), it is executed at once, database name and title are the name
    of the database, the cursor is at line 0, column -2; the default
    database of the record of the explorer's server is set to that database,
    nothing else of it is changed, and the new server gets a copy of it. *)
Theorem openShell_collection_runs_find_query w coll db srv cs filePathToSave :
  MongoCollection.database coll = Some db ->
  MongoDatabase.server db = Some srv ->
  heap w !! MongoServer.connectionRecord srv = Some cs ->
  exists w' shell,
    openShell_collection (Some coll) filePathToSave w = Some (tt, w')
    /\ _shells (app w') = _shells (app w) ++ [shell]
    /\ _servers (app w') = _servers (app w) ++ [Some (MongoShell.server shell)]
    /\ MongoServer.connectionType (MongoShell.server shell) = ConnectionSecondary
    /\ In (Execute shell) (effectsOnly (effects w'))
    /\ execute (MongoShell.scriptInfo shell) = true
    /\ dbName (MongoShell.scriptInfo shell) = MongoDatabase.name db
    /\ title (MongoShell.scriptInfo shell) = MongoDatabase.name db
    /\ cursorPosition (MongoShell.scriptInfo shell) = mkCursorPosition 0 (-2)
    /\ filePath (MongoShell.scriptInfo shell) = filePathToSave
    /\ script (MongoShell.scriptInfo shell)
       = detail.buildCollectionQuery (MongoCollection.name coll) "find({})"
    /\ (asciiOnly (MongoCollection.name coll) = true ->
        safeName (MongoCollection.name coll) = true ->
        script (MongoShell.scriptInfo shell)
        = ("db.getCollection('"
           ++ QString.replace "\" "\\" (MongoCollection.name coll)
           ++ "').find({})")%string)
    /\ (exists c',
          heap w' !! MongoServer.connectionRecord (MongoShell.server shell)
          = Some c'
          /\ heap w' !! MongoServer.connectionRecord srv = Some c'
          /\ ConnectionSettings.defaultDatabase c' = MongoDatabase.name db
          /\ eraseDefaultDatabase c' = eraseDefaultDatabase cs).
Proof.
  intros Hdb Hsrv Hp.
  set (c' := ConnectionSettings.setDefaultDatabase (MongoDatabase.name db) cs).
  set (info := mkScriptInfo
                 (detail.buildCollectionQuery (MongoCollection.name coll)
                    "find({})")
                 true (MongoDatabase.name db) (mkCursorPosition 0 (-2))
                 (MongoDatabase.name db) filePathToSave).
  destruct (shellOpened_observed w srv _ cs c' info Hp)
    as (Hrec & Hsh & Hsv & Hinfo & Hty & _ & Hclone & before & Heff).
  exists (shellOpened (withSettings (MongoServer.connectionRecord srv) c' w)
            srv c' info),
    (builtShell (withSettings (MongoServer.connectionRecord srv) c' w) info).
  split; [exact (openShell_collection_run w coll db srv cs _ Hdb Hsrv Hp) |].
  split; [exact Hsh |]. split; [exact Hsv |]. split; [exact Hty |].
  split.
  { rewrite Heff. apply in_or_app. right. right. right. now left. }
  rewrite Hinfo. cbn [info execute dbName title cursorPosition filePath script].
  repeat (split; [reflexivity |]).
  split.
  { intros _ Hsafe. rewrite (buildCollectionQuery_template _ _ Hsafe).
    reflexivity. }
  exists c'. repeat split; assumption || reflexivity.
Qed.

(** X15. [openShell] for a server and a database name opens one shell with
    the script information given, on a new server with settings of its own.
    With an empty database name the record of the server is left as it is;
    otherwise its default database is set to the name. The new server's
    settings are a copy of the record as the call leaves it. *)
Theorem openShell_server_default_database w srv cs script name execute
    shellName position filePathToSave :
  heap w !! MongoServer.connectionRecord srv = Some cs ->
  exists w' shell c',
    openShell_server (Some srv) script name execute shellName position
      filePathToSave w = Some (tt, w')
    /\ _shells (app w') = _shells (app w) ++ [shell]
    /\ _servers (app w') = _servers (app w) ++ [Some (MongoShell.server shell)]
    /\ MongoShell.scriptInfo shell
       = mkScriptInfo script execute name position shellName filePathToSave
    /\ heap w' !! MongoServer.connectionRecord srv = Some c'
    /\ heap w' !! MongoServer.connectionRecord (MongoShell.server shell)
       = Some c'
    /\ MongoServer.connectionRecord (MongoShell.server shell)
       <> MongoServer.connectionRecord srv
    /\ (name = "" -> c' = cs)
    /\ (name <> "" -> c' = ConnectionSettings.setDefaultDatabase name cs).
Proof.
  intros Hp.
  set (info := mkScriptInfo script execute name position shellName
                 filePathToSave).
  destruct (shellOpened_observed w srv _ cs (withDefaultDatabase name cs) info Hp)
    as (Hrec & Hsh & Hsv & Hinfo & _ & Hne & Hclone & _).
  set (c' := withDefaultDatabase name cs) in *.
  exists (shellOpened (withSettings (MongoServer.connectionRecord srv) c' w)
            srv c' info),
    (builtShell (withSettings (MongoServer.connectionRecord srv) c' w) info),
    c'.
  split; [exact (openShell_server_run w srv cs _ _ _ _ _ _ Hp) |].
  split; [exact Hsh |]. split; [exact Hsv |]. split; [exact Hinfo |].
  split; [exact Hrec |]. split; [exact Hclone |]. split; [exact Hne |].
  unfold c', withDefaultDatabase. split.
  - intros ->. reflexivity.
  - intros Hn. destruct (String.eqb_spec name ""); [contradiction | reflexivity].
Qed.

(** X16. [openShell] for a database always sets the default database of
    the record of the database's server to the name of the database, an
    empty name included, and opens one shell for that database on a new
    server whose settings are a copy of the record. *)
Theorem openShell_database_default_database w db srv cs script execute
    shellName position filePathToSave :
  MongoDatabase.server db = Some srv ->
  heap w !! MongoServer.connectionRecord srv = Some cs ->
  exists w' shell,
    openShell_database (Some db) script execute shellName position
      filePathToSave w = Some (tt, w')
    /\ _shells (app w') = _shells (app w) ++ [shell]
    /\ _servers (app w') = _servers (app w) ++ [Some (MongoShell.server shell)]
    /\ MongoShell.scriptInfo shell
       = mkScriptInfo script execute (MongoDatabase.name db) position shellName
           filePathToSave
    /\ heap w' !! MongoServer.connectionRecord srv
       = Some (ConnectionSettings.setDefaultDatabase (MongoDatabase.name db) cs)
    /\ heap w' !! MongoServer.connectionRecord (MongoShell.server shell)
       = Some (ConnectionSettings.setDefaultDatabase (MongoDatabase.name db) cs)
    /\ MongoServer.connectionRecord (MongoShell.server shell)
       <> MongoServer.connectionRecord srv.
Proof.
  intros Hsrv Hp.
  set (info := mkScriptInfo script execute (MongoDatabase.name db) position
                 shellName filePathToSave).
  destruct (shellOpened_observed w srv _ cs
              (ConnectionSettings.setDefaultDatabase (MongoDatabase.name db) cs)
              info Hp)
    as (Hrec & Hsh & Hsv & Hinfo & _ & Hne & Hclone & _).
  set (c' := ConnectionSettings.setDefaultDatabase (MongoDatabase.name db) cs)
    in *.
  exists (shellOpened (withSettings (MongoServer.connectionRecord srv) c' w)
            srv c' info),
    (builtShell (withSettings (MongoServer.connectionRecord srv) c' w) info).
  split;
    [exact (openShell_database_run w db srv cs _ _ _ _ _ Hsrv Hp) |].
  split; [exact Hsh |]. split; [exact Hsv |]. split; [exact Hinfo |].
  split; [exact Hrec |]. split; [exact Hclone |]. exact Hne.
Qed.

End Overloads.

(** ** The log messages *)

Section Messages.

Lemma arg_connecting label :
  QString.arg "Connecting to %1..." label
  = ("Connecting to " ++ label ++ "...")%string.
Proof. reflexivity. Qed.

Lemma arg_tunnel_host host :
  QString.arg "Creating SSH tunnel to %1:%2..." host
  = ("Creating SSH tunnel to " ++ host ++ ":%2...")%string.
Proof. reflexivity. Qed.

Lemma tunnelMessage_percentFree cs :
  percentFree (SshSettings.host (ConnectionSettings.sshSettings cs)) = true ->
  tunnelMessage cs
  = ("Creating SSH tunnel to "
     ++ SshSettings.host (ConnectionSettings.sshSettings cs) ++ ":"
     ++ QString.number (SshSettings.port (ConnectionSettings.sshSettings cs))
     ++ "...")%string.
Proof.
  intros Hh. unfold tunnelMessage. rewrite arg_tunnel_host.
  set (host := SshSettings.host (ConnectionSettings.sshSettings cs)) in *.
  set (port := QString.number _).
  unfold QString.arg.
  assert (Ht : QString.argTokens
                 ("Creating SSH tunnel to " ++ host ++ ":%2...")%string
               = plain ("Creating SSH tunnel to " ++ host ++ ":")%string
                 ++ QString.argTokens "%2...").
  { replace ("Creating SSH tunnel to " ++ host ++ ":%2...")%string
      with (("Creating SSH tunnel to " ++ host ++ ":") ++ "%2...")%string.
    - apply argTokens_plain_prefix.
      rewrite !percentFree_app, Hh. reflexivity.
    - rewrite !append_assoc. reflexivity. }
  rewrite Ht, minEscape_plain_prefix.
  change (QString.minEscape (QString.argTokens "%2...")) with (Some 2%nat).
  cbv iota. rewrite replaceArgEscapes_plain_prefix.
  change (QString.replaceArgEscapes 2 port (QString.argTokens "%2..."))
    with (port ++ "...")%string.
  rewrite !append_assoc. reflexivity.
Qed.

(** X18. [continueOpenServer] always builds the server with the handle and
    type given, on a copy of the settings, and between starting the worker
    thread and connecting it logs [Connecting to ...] with the target read
    from the settings it was given, not from the copy: the full address of
    those settings, or for a replica set the connection name, [ [Replica
    Set]] and the first member, with nothing between the two. So behind a
    tunnel the message names the real host while the server connects to the
    local end. *)
Theorem connect_message_names_given_settings w serverHandle connSettings type
    localport cs :
  heap w !! connSettings = Some cs ->
  exists server w',
    continueOpenServer serverHandle connSettings type localport w
    = Some (server, w')
    /\ effectsOnly (effects w')
       = effectsOnly (effects w)
         ++ [ RunWorkerThread server;
              LogMsg ("Connecting to " ++ targetLabel cs ++ "...")%string Info;
              TryConnect server ]
    /\ (ConnectionSettings.isReplicaSet cs = false ->
        targetLabel cs = ConnectionSettings.getFullAddress cs)
    /\ (forall m0 rest,
           ConnectionSettings.isReplicaSet cs = true ->
           ReplicaSetSettings.members (ConnectionSettings.replicaSetSettings cs)
           = m0 :: rest ->
           targetLabel cs
           = (ConnectionSettings.connectionName cs ++ " [Replica Set]" ++ m0)
               %string)
    /\ (ConnectionSettings.isReplicaSet cs = true ->
        ReplicaSetSettings.members (ConnectionSettings.replicaSetSettings cs)
        = [] ->
        targetLabel cs
        = (ConnectionSettings.connectionName cs ++ " [Replica Set]")%string)
    /\ heap w' !! connSettings = Some cs
    /\ heap w' !! MongoServer.connectionRecord server
       = Some (tunnelRewrite type localport cs)
    /\ MongoServer.serverHandle server = serverHandle
    /\ MongoServer.connectionType server = type.
Proof.
  intros Hp. eexists. eexists.
  split; [exact (continueOpenServer_run w serverHandle connSettings type
                   localport cs Hp) |].
  cbn [effects heap].
  split.
  { rewrite effectsOnly_app, effectsOnly_stamp. unfold connectEffects.
    now rewrite arg_connecting. }
  split.
  { intros Hrs. unfold targetLabel. now rewrite Hrs. }
  split.
  { intros m0 rest Hrs Hm. unfold targetLabel. rewrite Hrs, Hm.
    apply append_assoc. }
  split.
  { intros Hrs Hm. unfold targetLabel. rewrite Hrs, Hm.
    apply append_empty_r. }
  split; [now apply lookup_snoc_old |].
  split; [apply lookup_snoc_here |].
  split; reflexivity.
Qed.

(** X19. On the tunnel path [openServerInternal] returns no server and its
    last two effects are the message [Creating SSH tunnel to host:port...],
    with the SSH host and port of the settings, and the request sent to the
    worker; this holds for every SSH host without a percent sign. *)
Theorem tunnel_message_names_ssh_host w connSettings type cs :
  heap w !! connSettings = Some cs ->
  tunnelRequired type (ConnectionSettings.isReplicaSet cs)
    (SshSettings.enabled (ConnectionSettings.sshSettings cs)) = true ->
  percentFree (SshSettings.host (ConnectionSettings.sshSettings cs)) = true ->
  exists w' before request,
    openServerInternal connSettings type w = Some (None, w')
    /\ effectsOnly (effects w')
       = before
         ++ [ LogMsg
                ("Creating SSH tunnel to "
                 ++ SshSettings.host (ConnectionSettings.sshSettings cs) ++ ":"
                 ++ QString.number
                      (SshSettings.port (ConnectionSettings.sshSettings cs))
                 ++ "...")%string Info;
              request ]
    /\ isSend request = true.
Proof.
  intros Hp Htun Hh.
  exists (openedWorld w type cs),
    (effectsOnly (effects w) ++ announceEffects type),
    (Send (nextAddress w)
       (EstablishSshConnectionRequest (nextHandle w) (nextAddress w)
          (length (heap w)) type)).
  split.
  { rewrite (openServerInternal_run _ _ _ cs) by exact Hp.
    unfold openedServer. now rewrite Htun. }
  split; [| reflexivity].
  cbn [openedWorld effects]. rewrite effectsOnly_app, effectsOnly_stamp.
  unfold openedEffects. rewrite Htun.
  rewrite (tunnelMessage_percentFree _ Hh). now rewrite <- app_assoc.
Qed.

End Messages.

(** ** Handles over any run *)

Section HandleRuns.

Lemma handlesAfter_length last n : length (handlesAfter last n) = n.
Proof.
  revert last. induction n as [| n IH]; intros last; [reflexivity |].
  cbn [handlesAfter length]. now rewrite IH.
Qed.

Lemma handlesAfter_sorted last n : StronglySorted Z.lt (handlesAfter last n).
Proof.
  revert last. induction n as [| n IH]; intros last; [constructor |].
  cbn [handlesAfter]. constructor; [apply IH |].
  assert (H : forall k m, last < k -> Forall (Z.lt last) (handlesAfter k m)).
  { intros k m. revert k. induction m as [| m IHm]; intros k Hk;
      [constructor |].
    cbn [handlesAfter]. constructor; [lia | apply IHm; lia]. }
  assert (H' : forall k m, last + 1 <= k
                           -> Forall (Z.lt (last + 1)) (handlesAfter k m)).
  { intros k m. revert k. induction m as [| m IHm]; intros k Hk;
      [constructor |].
    cbn [handlesAfter]. constructor; [lia | apply IHm; lia]. }
  apply H'. lia.
Qed.

(** X20. In any run of calls of any kind ([openServer], the four forms of
    [openShell], the closes, reported failures, tunnel responses with an
    error and listen responses) that stays within the range of [int], the
    handles handed out are consecutive integers, the first one more than the
    counter at the start, in the order of issue; the counter ends at the
    last of them; and no more handles are taken than there are opening
    calls. *)
Theorem handles_are_consecutive calls w w' :
  0 <= _lastServerHandle (app w) ->
  _lastServerHandle (app w)
  + Z.of_nat (length (List.filter takesHandle calls)) <= INT_MAX ->
  existsb successfulEstablish calls = false ->
  run calls w = Some w' ->
  exists new,
    effects w' = effects w ++ new
    /\ issuedHandles (effectsOnly new)
       = handlesAfter (_lastServerHandle (app w))
           (length (issuedHandles (effectsOnly new)))
    /\ _lastServerHandle (app w')
       = _lastServerHandle (app w)
         + Z.of_nat (length (issuedHandles (effectsOnly new)))
    /\ (length (issuedHandles (effectsOnly new))
        <= length (List.filter takesHandle calls))%nat
    /\ StronglySorted Z.lt (issuedHandles (effectsOnly new)).
Proof.
  revert w. induction calls as [| c calls IH]; intros w Hlo Hhi Hno Hrun.
  - injection Hrun as <-. exists []. rewrite app_nil_r.
    cbn [effectsOnly map issuedHandles length handlesAfter Z.of_nat].
    repeat split; try lia. constructor.
  - apply run_cons in Hrun as (w1 & Hstep & Hrest).
    cbn [existsb] in Hno. apply orb_false_elim in Hno as [Hc Hno].
    destruct (outcome_delta _ _ _ (step_outcome _ _ _ Hstep))
      as [new1 [Heff _ _ Hissued _]].
    assert (Hcase :
              (issuedHandles new1 = []
               /\ _lastServerHandle (app w1) = _lastServerHandle (app w))
              \/ (issuedHandles new1 = [_lastServerHandle (app w) + 1]
                  /\ _lastServerHandle (app w1) = _lastServerHandle (app w) + 1
                  /\ takesHandle c = true)).
    { destruct Hissued as [(Hi & Hl & _) | [(Hi & Hl & Ht) | (ev & -> & He & _)]].
      - now left.
      - right. unfold nextHandle in Hi, Hl.
        cbn [List.filter] in Hhi. rewrite Ht in Hhi. cbn [length] in Hhi.
        rewrite wrap_int_next in Hi, Hl by lia. now repeat split.
      - cbn [successfulEstablish] in Hc. now rewrite He in Hc. }
    assert (Hlen : (length (List.filter takesHandle calls)
                    <= length (List.filter takesHandle (c :: calls)))%nat).
    { cbn [List.filter]. destruct (takesHandle c); cbn [length]; lia. }
    destruct Hcase as [(Hi & Hl) | (Hi & Hl & Ht)].
    + destruct (IH w1) as (new & Hnew & Hseq & Hlast & Hcount & Hsorted);
        [lia | lia | exact Hno | exact Hrest |].
      exists (stamp (_lastServerHandle (app w1)) new1 ++ new).
      split; [now rewrite Hnew, Heff, <- app_assoc |].
      rewrite effectsOnly_app, effectsOnly_stamp, issuedHandles_app, Hi.
      cbn [List.app]. rewrite <- Hl.
      repeat split; try assumption; lia.
    + cbn [List.filter] in Hhi, Hlen |- *. rewrite Ht in Hhi, Hlen |- *.
      cbn [length] in Hhi, Hlen |- *.
      destruct (IH w1) as (new & Hnew & Hseq & Hlast & Hcount & Hsorted);
        [lia | lia | exact Hno | exact Hrest |].
      exists (stamp (_lastServerHandle (app w1)) new1 ++ new).
      split; [now rewrite Hnew, Heff, <- app_assoc |].
      rewrite effectsOnly_app, effectsOnly_stamp, issuedHandles_app, Hi.
      cbn [List.app length handlesAfter].
      rewrite Hl in Hseq, Hlast.
      split; [now rewrite <- Hseq |].
      split; [lia |]. split; [lia |].
      rewrite Hseq.
      apply (handlesAfter_sorted (_lastServerHandle (app w))
               (S (length (issuedHandles (effectsOnly new))))).
Qed.

End HandleRuns.

(** ** The further properties on sample worlds *)

Section Session.

Lemma sampleSession_runs :
  run sampleSession (newWorld [directSettings]) = Some sessionWorld.
Proof. vm_compute. reflexivity. Qed.

Lemma openedOnce_runs :
  run [CallOpenServer acceptAll 0%nat ConnectionPrimary]
    (newWorld [directSettings])
  = Some openedOnce.
Proof. vm_compute. reflexivity. Qed.

Lemma explorer_record :
  heap openedOnce !! MongoServer.connectionRecord explorerServer
  = Some directSettings.
Proof. vm_compute. reflexivity. Qed.


Lemma buildCollectionQuery_injective_witness :
  asciiOnly "a\b" = true /\ asciiOnly "a\\b" = true
  /\ safeName "a\b" = true /\ safeName "a\\b" = true
  /\ "a\b"%string <> "a\\b"%string
  /\ detail.buildCollectionQuery "a\b" "find({})"
     <> detail.buildCollectionQuery "a\\b" "find({})".
Proof.
  assert (Hne : "a\b"%string <> "a\\b"%string) by discriminate.
  split; [reflexivity |]. split; [reflexivity |]. split; [reflexivity |].
  split; [reflexivity |]. split; [exact Hne |].
  exact (buildCollectionQuery_injective "a\b" "a\\b" "find({})" eq_refl
           eq_refl eq_refl eq_refl Hne).
Defined.

Lemma buildCollectionQuery_low_marker_witness :
  asciiOnly "%1x" = true
  /\ QString.minEscape (QString.argTokens "%1x") = Some 1%nat
  /\ (1 < 2)%nat
  /\ detail.buildCollectionQuery "%1x" "find({})"
     = "db.getCollection('find({})x').%2"%string.
Proof.
  split; [reflexivity |]. split; [reflexivity |]. split; [lia |].
  exact (buildCollectionQuery_low_marker "%1x" "find({})" 1%nat eq_refl
           eq_refl (le_n 2)).
Defined.

Lemma servers_have_distinct_addresses_witness :
  run sampleSession (newWorld [directSettings]) = Some sessionWorld
  /\ NoDup (serverAddresses (_servers (app sessionWorld)))
  /\ length (_servers (app sessionWorld)) = 3%nat.
Proof.
  split; [exact sampleSession_runs |].
  split; [| reflexivity].
  exact (proj1 (servers_have_distinct_addresses [directSettings] sampleSession
                  sessionWorld sampleSession_runs)).
Defined.

Lemma closeShell_removes_shell_and_server_witness :
  run sampleSession (newWorld [directSettings]) = Some sessionWorld
  /\ In sampleShell (_shells (app sessionWorld))
  /\ exists w',
       closeShell (Some sampleShell) sessionWorld = Some (tt, w')
       /\ length (_shells (app w')) = 1%nat.
Proof.
  assert (Hin : In sampleShell (_shells (app sessionWorld)))
    by (vm_compute; left; reflexivity).
  split; [exact sampleSession_runs |]. split; [exact Hin |].
  destruct (closeShell_removes_shell_and_server [directSettings] sampleSession
              sessionWorld sampleShell sampleSession_runs Hin)
    as (_ & w' & Hrun & _ & _ & Hlen & _).
  exists w'. split; [exact Hrun | exact Hlen].
Defined.

Lemma openShell_closeShell_round_trip_witness :
  run [CallOpenServer acceptAll 0%nat ConnectionPrimary]
    (newWorld [directSettings])
  = Some openedOnce
  /\ heap openedOnce !! 0%nat = Some directSettings
  /\ exists w1 w2,
       openShell (Some explorerServer) 0%nat sampleScript openedOnce
       = Some (tt, w1)
       /\ closeShell (Some sampleShell) w1 = Some (tt, w2)
       /\ _servers (app w2) = [Some explorerServer]
       /\ _shells (app w2) = [].
Proof.
  split; [exact openedOnce_runs |]. split; [reflexivity |].
  destruct (openShell_closeShell_round_trip [directSettings]
              [CallOpenServer acceptAll 0%nat ConnectionPrimary] openedOnce
              explorerServer 0%nat sampleScript directSettings openedOnce_runs
              eq_refl)
    as (w1 & w2 & Hopen & _ & Hclose & Hs & Hsh).
  exists w1, w2. split; [exact Hopen |]. split; [exact Hclose |].
  split; [exact Hs | exact Hsh].
Defined.

Lemma typed_secrets_reach_the_clone_witness :
  heap (newWorld [askingSettings]) !! 0%nat = Some askingSettings
  /\ credentialDeclined acceptAll ConnectionPrimary askingSettings = false
  /\ exists w',
       openServer acceptAll 0%nat ConnectionPrimary (newWorld [askingSettings])
       = Some (true, w')
       /\ heap w' !! 1%nat
          = Some (withSecrets acceptAll ConnectionPrimary askingSettings)
       /\ SshSettings.askedPassword
            (ConnectionSettings.sshSettings
               (withSecrets acceptAll ConnectionPrimary askingSettings))
          = "secret"%string.
Proof.
  split; [reflexivity |]. split; [reflexivity |].
  destruct (typed_secrets_reach_the_clone (newWorld [askingSettings]) acceptAll
              0%nat ConnectionPrimary askingSettings eq_refl eq_refl)
    as (w' & new & Hrun & _ & _ & Hclone & Hssh & _).
  exists w'. split; [exact Hrun |]. split; [exact Hclone |].
  exact (proj1 (Hssh eq_refl)).
Defined.

Lemma declined_passphrase_keeps_typed_password_witness :
  heap (newWorld [askingBothSettings]) !! 0%nat = Some askingBothSettings
  /\ sshPromptRequired askingBothSettings ConnectionPrimary = true
  /\ snd (sshAnswer acceptSshOnly askingBothSettings) = true
  /\ sslDeclined acceptSshOnly ConnectionPrimary askingBothSettings = true
  /\ exists w',
       openServer acceptSshOnly 0%nat ConnectionPrimary
         (newWorld [askingBothSettings])
       = Some (false, w')
       /\ heap w' = [storeAskedPassword "secret" askingBothSettings].
Proof.
  split; [reflexivity |]. split; [reflexivity |]. split; [reflexivity |].
  split; [reflexivity |].
  destruct (declined_passphrase_keeps_typed_password
              (newWorld [askingBothSettings]) acceptSshOnly 0%nat
              ConnectionPrimary askingBothSettings eq_refl eq_refl eq_refl
              eq_refl)
    as (w' & Hrun & Hheap & _).
  exists w'. split; [exact Hrun | exact Hheap].
Defined.

Lemma secondary_open_never_prompts_witness :
  heap (newWorld [askingBothSettings]) !! 0%nat = Some askingBothSettings
  /\ exists w',
       openServer declineAll 0%nat ConnectionSecondary
         (newWorld [askingBothSettings])
       = Some (true, w').
Proof.
  split; [reflexivity |].
  eexists.
  exact (secondary_open_never_prompts (newWorld [askingBothSettings])
           declineAll 0%nat askingBothSettings eq_refl).
Defined.

Lemma connecting_event_only_for_primary_witness :
  step (CallOpenServer acceptAll 0%nat ConnectionPrimary)
    (newWorld [directSettings])
  = Some (tt, openedOnce)
  /\ exists new,
       effectsOnly (effects openedOnce)
       = effectsOnly (effects (newWorld [directSettings])) ++ new
       /\ (countConnecting new <= 1)%nat.
Proof.
  assert (Hstep : step (CallOpenServer acceptAll 0%nat ConnectionPrimary)
                    (newWorld [directSettings])
                  = Some (tt, openedOnce))
    by (vm_compute; reflexivity).
  split; [exact Hstep |].
  destruct (connecting_event_only_for_primary (newWorld [directSettings])
              (CallOpenServer acceptAll 0%nat ConnectionPrimary) openedOnce
              Hstep)
    as (new & Heff & Hcount & _).
  exists new. split; [exact Heff | exact Hcount].
Defined.

Lemma tunnel_open_completes_on_success_witness :
  heap (newWorld [tunnelSettings]) !! 0%nat = Some tunnelSettings
  /\ credentialDeclined acceptAll ConnectionPrimary tunnelSettings = false
  /\ tunnelRequired ConnectionPrimary
       (ConnectionSettings.isReplicaSet tunnelSettings)
       (SshSettings.enabled (ConnectionSettings.sshSettings tunnelSettings))
     = true
  /\ exists w1,
       openServer acceptAll 0%nat ConnectionPrimary (newWorld [tunnelSettings])
       = Some (true, w1)
       /\ _servers (app w1) = [None].
Proof.
  split; [reflexivity |]. split; [reflexivity |]. split; [reflexivity |].
  destruct (tunnel_open_completes_on_success (newWorld [tunnelSettings])
              acceptAll 0%nat ConnectionPrimary tunnelSettings eq_refl eq_refl
              eq_refl)
    as (w1 & worker & copy & Hrun & Hs & _).
  exists w1. split; [exact Hrun | exact Hs].
Defined.

Lemma openShell_collection_runs_find_query_witness :
  MongoCollection.database sampleCollection = Some sampleDatabase
  /\ MongoDatabase.server sampleDatabase = Some explorerServer
  /\ heap openedOnce !! MongoServer.connectionRecord explorerServer
     = Some directSettings
  /\ asciiOnly (MongoCollection.name sampleCollection) = true
  /\ safeName (MongoCollection.name sampleCollection) = true
  /\ exists w' shell,
       openShell_collection (Some sampleCollection) "" openedOnce
       = Some (tt, w')
       /\ _shells (app w') = [shell]
       /\ script (MongoShell.scriptInfo shell)
          = "db.getCollection('orders\\2024').find({})"%string.
Proof.
  split; [reflexivity |]. split; [reflexivity |].
  split; [exact explorer_record |]. split; [reflexivity |].
  split; [reflexivity |].
  destruct (openShell_collection_runs_find_query openedOnce sampleCollection
              sampleDatabase explorerServer directSettings "" eq_refl eq_refl
              explorer_record)
    as (w' & shell & Hrun & Hsh & _ & _ & _ & _ & _ & _ & _ & _ & _ & Hsafe & _).
  exists w', shell. split; [exact Hrun |]. split; [exact Hsh |].
  exact (Hsafe eq_refl eq_refl).
Defined.

Lemma openShell_server_default_database_witness :
  heap openedOnce !! MongoServer.connectionRecord explorerServer
  = Some directSettings
  /\ exists w' c',
       openShell_server (Some explorerServer) "db.stats()" "" true "stats"
         (mkCursorPosition 0 0) "" openedOnce
       = Some (tt, w')
       /\ heap w' !! MongoServer.connectionRecord explorerServer = Some c'
       /\ c' = directSettings.
Proof.
  split; [exact explorer_record |].
  destruct (openShell_server_default_database openedOnce explorerServer
              directSettings "db.stats()" "" true "stats"
              (mkCursorPosition 0 0) "" explorer_record)
    as (w' & shell & c' & Hrun & _ & _ & _ & Hrec & _ & _ & Hsame & _).
  exists w', c'. split; [exact Hrun |]. split; [exact Hrec |].
  exact (Hsame eq_refl).
Defined.

Lemma openShell_database_default_database_witness :
  MongoDatabase.server sampleDatabase = Some explorerServer
  /\ heap openedOnce !! MongoServer.connectionRecord explorerServer
     = Some directSettings
  /\ exists w',
       openShell_database (Some sampleDatabase) "db.stats()" true "stats"
         (mkCursorPosition 0 0) "" openedOnce
       = Some (tt, w')
       /\ heap w' !! MongoServer.connectionRecord explorerServer
          = Some (ConnectionSettings.setDefaultDatabase "shop" directSettings).
Proof.
  split; [reflexivity |]. split; [exact explorer_record |].
  destruct (openShell_database_default_database openedOnce sampleDatabase
              explorerServer directSettings "db.stats()" true "stats"
              (mkCursorPosition 0 0) "" eq_refl explorer_record)
    as (w' & shell & Hrun & _ & _ & _ & Hrec & _).
  exists w'. split; [exact Hrun | exact Hrec].
Defined.

Lemma connect_message_names_given_settings_witness :
  heap (newWorld [tunnelSettings]) !! 0%nat = Some tunnelSettings
  /\ exists server w',
       continueOpenServer 1 0%nat ConnectionPrimary 50000
         (newWorld [tunnelSettings])
       = Some (server, w')
       /\ heap w' !! MongoServer.connectionRecord server
          = Some (tunnelRewrite ConnectionPrimary 50000 tunnelSettings).
Proof.
  split; [reflexivity |].
  destruct (connect_message_names_given_settings (newWorld [tunnelSettings]) 1
              0%nat ConnectionPrimary 50000 tunnelSettings eq_refl)
    as (server & w' & Hrun & _ & _ & _ & _ & _ & Hrec & _).
  exists server, w'. split; [exact Hrun | exact Hrec].
Defined.

Lemma tunnel_message_names_ssh_host_witness :
  heap (newWorld [tunnelSettings]) !! 0%nat = Some tunnelSettings
  /\ tunnelRequired ConnectionPrimary
       (ConnectionSettings.isReplicaSet tunnelSettings)
       (SshSettings.enabled (ConnectionSettings.sshSettings tunnelSettings))
     = true
  /\ percentFree
       (SshSettings.host (ConnectionSettings.sshSettings tunnelSettings))
     = true
  /\ exists w',
       openServerInternal 0%nat ConnectionPrimary (newWorld [tunnelSettings])
       = Some (None, w')
       /\ In (LogMsg "Creating SSH tunnel to gate.example.org:22..." Info)
            (effectsOnly (effects w')).
Proof.
  split; [reflexivity |]. split; [reflexivity |]. split; [reflexivity |].
  destruct (tunnel_message_names_ssh_host (newWorld [tunnelSettings]) 0%nat
              ConnectionPrimary tunnelSettings eq_refl eq_refl eq_refl)
    as (w' & before & request & Hrun & Heff & _).
  exists w'. split; [exact Hrun |].
  rewrite Heff. apply in_or_app. right. left. reflexivity.
Defined.

Lemma handles_are_consecutive_witness :
  0 <= _lastServerHandle (app (newWorld [directSettings]))
  /\ _lastServerHandle (app (newWorld [directSettings]))
     + Z.of_nat (length (List.filter takesHandle sampleSession)) <= INT_MAX
  /\ existsb successfulEstablish sampleSession = false
  /\ run sampleSession (newWorld [directSettings]) = Some sessionWorld
  /\ _lastServerHandle (app sessionWorld) = 3
  /\ exists new,
       effects sessionWorld = effects (newWorld [directSettings]) ++ new
       /\ StronglySorted Z.lt (issuedHandles (effectsOnly new)).
Proof.
  assert (Hlo : 0 <= _lastServerHandle (app (newWorld [directSettings])))
    by (cbn; lia).
  assert (Hhi : _lastServerHandle (app (newWorld [directSettings]))
                + Z.of_nat (length (List.filter takesHandle sampleSession))
                <= INT_MAX)
    by (unfold INT_MAX; cbn; lia).
  split; [exact Hlo |]. split; [exact Hhi |]. split; [reflexivity |].
  split; [exact sampleSession_runs |]. split; [reflexivity |].
  destruct (handles_are_consecutive sampleSession (newWorld [directSettings])
              sessionWorld Hlo Hhi eq_refl sampleSession_runs)
    as (new & Heff & _ & _ & _ & Hsorted).
  exists new. split; [exact Heff | exact Hsorted].
Defined.

End Session.
